(** * The nvhttp pairing server (src/nvhttp.cpp), embedded in Rocq

    The development follows the layout of the C++ translation unit:
    request arguments and response trees first, then the client store
    ([save_state], [load_state], [add_authorized_client]), the four pairing
    phases, the [/pair] dispatcher, the asynchronous [pin] entry point and
    [serverinfo]; then the remaining entry points of the store
    ([unpair_client], [erase_all_clients], [get_all_clients], [request_otp])
    and the session control handlers ([launch], [resume], [cancel]).

    Conventions.
    - [std::string] and [std::vector<uint8_t>] are both [string] (a list of
      8-bit characters).
    - [std::unordered_map<std::string, pair_session_t>] is a [gmap]; its
      iteration order ([std::begin]) is the order of [map_to_list], which is
      unspecified but fixed, as it is for the C++ container.
    - A [pt::ptree] holding the XML answer is the ordered list of its
      (path, data) pairs; a ptree stores every datum as text, so integers
      are stored through [pretty], the counterpart of the stream insertion
      that [put] performs.
    - Undefined behaviour (dereferencing [end()], a null [unique_ptr], or
      reading past a buffer) and the [std::out_of_range] thrown by [get_arg]
      are explicit results of the handlers. *)

From Stdlib Require Import String Ascii ZArith List Bool Lia.
From stdpp Require Import gmap strings list fin_maps pretty.
Import ListNotations.
Local Open Scope string_scope.

(** ** Strings *)

Module Str.

(** [::tolower] on one character. *)
Definition lower (c : ascii) : ascii :=
  let n := nat_of_ascii c in
  if (65 <=? n)%nat && (n <=? 90)%nat then ascii_of_nat (n + 32) else c.

Fixpoint to_lower (s : string) : string :=
  match s with
  | EmptyString => EmptyString
  | String c s' => String (lower c) (to_lower s')
  end.

(** The key comparison of [SimpleWeb::CaseInsensitiveMultimap]. *)
Definition case_insensitive_equal (a b : string) : bool :=
  String.eqb (to_lower a) (to_lower b).

(** [::isdigit] in the C locale. *)
Definition isdigit (c : ascii) : bool :=
  let n := nat_of_ascii c in (48 <=? n)%nat && (n <=? 57)%nat.

(** [std::all_of(s.begin(), s.end(), p)]. *)
Fixpoint all_of (p : ascii -> bool) (s : string) : bool :=
  match s with
  | EmptyString => true
  | String c s' => p c && all_of p s'
  end.

(** [s.substr(pos)]: everything from [pos] on. *)
Definition drop (pos : nat) (s : string) : string :=
  substring pos (String.length s - pos) s.

(** [std::memcmp(a, b, n) == 0] for buffers that both hold [n] bytes. *)
Definition memcmp_eq (a b : string) (n : nat) : bool :=
  String.eqb (substring 0 n a) (substring 0 n b).

End Str.

(** ** Query arguments

    [args_t] is a case-insensitive multimap; [find] yields one entry whose key
    matches.  Entries are kept in the order of the query string and the
    first match is the one found. *)

Definition args_t := list (string * string).

Fixpoint args_find (args : args_t) (name : string) : option string :=
  match args with
  | [] => None
  | (k, v) :: rest =>
      if Str.case_insensitive_equal k name then Some v else args_find rest name
  end.

(** ** Response trees *)

Definition ptree := list (string * string).

Fixpoint tree_put (path data : string) (t : ptree) : ptree :=
  match t with
  | [] => [(path, data)]
  | (p, d) :: t' =>
      if String.eqb p path then (p, data) :: t' else (p, d) :: tree_put path data t'
  end.

Definition tree_put_int (path : string) (z : Z) (t : ptree) : ptree :=
  tree_put path (pretty z) t.

(** [node.push_back(std::make_pair(key, child))]: always a new child. *)
Definition tree_push_back (path data : string) (t : ptree) : ptree :=
  (t ++ [(path, data)])%list.

Fixpoint tree_get (path : string) (t : ptree) : option string :=
  match t with
  | [] => None
  | (p, d) :: t' => if String.eqb p path then Some d else tree_get path t'
  end.

(** Every datum stored under [path], in document order. *)
Fixpoint tree_children (path : string) (t : ptree) : list string :=
  match t with
  | [] => []
  | (p, d) :: t' =>
      if String.eqb p path then d :: tree_children path t' else tree_children path t'
  end.

(** ** The client store *)

(** [crypto::named_cert_t]. *)
Record named_cert_t := mk_named_cert {
  nc_name : string;
  nc_cert : string;
  nc_uuid : string
}.

(** A device of the legacy state file: [root.devices[*]]. *)
Record legacy_device_t := mk_legacy_device {
  ld_uniqueid : string;
  ld_certs : list string
}.

(** The [root] object of the state file. *)
Record json_root_t := mk_json_root {
  jr_uniqueid : option string;
  jr_devices : list legacy_device_t;
  jr_named_devices : option (list named_cert_t)
}.

(** What [config::nvhttp.file_state] holds.  [js_other] stands for the
    top-level keys besides [root], which [save_state] carries over. *)
Inductive file_t :=
| FileMissing
| FileCorrupt
| FileJson (js_other : list (string * string)) (js_root : option json_root_t).

Record disk_t := mk_disk {
  dk_file : file_t;
  dk_writable : bool
}.

Module Store.

(** [base_name.find(" (")] followed by [substr(0, pos)]. *)
Definition base_name (name : string) : string :=
  match String.index 0 " (" name with
  | Some pos => substring 0 pos name
  | None => name
  end.

(** [" (" + std::to_string(count + 1) + ")"]. *)
Definition pending_id (count : nat) : string :=
  " (" ++ pretty (S count) ++ ")".

(** The loop state of [save_state]: [unique_certs], [name_counts] and
    [named_cert_nodes].  [name_counts[base_name]] default-constructs a
    missing counter to 0.  The counters are C [int]s; they are bounded by
    the number of devices and cannot wrap. *)
Record save_loop_t := mk_save_loop {
  unique_certs : gset string;
  name_counts : gmap string nat;
  named_cert_nodes : list named_cert_t
}.

Definition save_loop_init : save_loop_t :=
  mk_save_loop ∅ ∅ [].

Definition save_loop_body (st : save_loop_t) (named_cert_p : named_cert_t) : save_loop_t :=
  if decide (nc_cert named_cert_p ∈ unique_certs st) then st
  else
    let base := base_name (nc_name named_cert_p) in
    let count := default 0%nat (name_counts st !! base) in
    let final_name :=
      if (0 <? count)%nat then base ++ pending_id count else base in
    mk_save_loop
      ({[nc_cert named_cert_p]} ∪ unique_certs st)
      (<[base := S count]> (name_counts st))
      (named_cert_nodes st ++
         [mk_named_cert final_name (nc_cert named_cert_p) (nc_uuid named_cert_p)])%list.

(** The [root.named_devices] array that [save_state] builds. *)
Definition save_nodes (named_devices : list named_cert_t) : list named_cert_t :=
  named_cert_nodes (fold_left save_loop_body named_devices save_loop_init).

(** [save_state]: an unreadable file aborts the save; otherwise [root] is
    erased and rebuilt and the whole file is rewritten.  A failing
    [write_json] is caught and logged; the file is then taken to keep its
    content. *)
Definition save_state (unique_id : string) (named_devices : list named_cert_t)
    (disk : disk_t) : disk_t :=
  let other :=
    match dk_file disk with
    | FileMissing => Some []
    | FileCorrupt => None
    | FileJson o _ => Some o
    end in
  match other with
  | None => disk
  | Some o =>
      if dk_writable disk then
        mk_disk
          (FileJson o (Some (mk_json_root (Some unique_id) []
                               (Some (save_nodes named_devices)))))
          (dk_writable disk)
      else disk
  end.

End Store.

(** ** External code

    The functions of [crypto.h], [utility.h] and [uuid.h] that the server
    calls.  Their implementation (OpenSSL and the helper headers) is not part
    of this translation unit, so the handlers are defined over any provider.
    Randomness is a function of a position in the entropy stream, which the
    server state advances at every draw. *)

Record provider_t := mk_provider {
  (** [crypto::hash]: SHA-256; the result type is [std::array<uint8_t, 32>]. *)
  crypto_hash : string -> string;
  crypto_hash_size : forall data, String.length (crypto_hash data) = 32%nat;
  (** [crypto::signature(crypto::x509(pem))]. *)
  crypto_signature : string -> string;
  (** [crypto::sign256(crypto::pkey(pem), data)]. *)
  crypto_sign256 : string -> string -> string;
  (** [crypto::verify256(crypto::x509(pem), data, sign)]. *)
  crypto_verify256 : string -> string -> string -> bool;
  (** [crypto::cipher::ecb_t(key, false)]: [decrypt] and [encrypt]. *)
  ecb_decrypt : string -> string -> string;
  ecb_encrypt : string -> string -> string;
  (** [crypto::rand(bytes)] at a position of the entropy stream. *)
  crypto_rand : nat -> nat -> string;
  (** [uuid_util::uuid_t::generate().string()]. *)
  uuid_generate : nat -> string;
  (** [util::from_hex<std::array<uint8_t, 16>>(view, true)]. *)
  util_from_hex : string -> string;
  (** [util::from_hex_vec(str, true)]. *)
  util_from_hex_vec : string -> string;
  (** [util::hex_vec(bytes, true)]. *)
  util_hex_vec : string -> string;
  (** [util::hex(array, true).to_string_view()]. *)
  util_hex : string -> string
}.

(** Modelled from the spec: [crypto::gen_aes_key] lives in crypto.cpp, which
    is not among the sources.  The specification gives it as
    [aes_key = first-16-bytes(SHA-256(salt_bytes || pin_ascii_bytes))]. *)
Definition gen_aes_key (P : provider_t) (salt pin : string) : string :=
  substring 0 16 (crypto_hash P (salt ++ pin)).

(** ** Configuration *)

Record config_t := mk_config {
  enable_pairing : bool;           (* config::sunshine.enable_pairing *)
  flag_FRESH_STATE : bool;         (* config::flag::FRESH_STATE *)
  flag_PIN_STDIN : bool;           (* config::flag::PIN_STDIN *)
  servercert : string;             (* conf_intern.servercert *)
  pkey : string;                   (* conf_intern.pkey *)
  OTP_EXPIRE_DURATION : Z          (* declared in nvhttp.h *)
}.

(** ** Server state *)

(** The suspended response of the asynchronous PIN path:
    [util::Either<resp_http_t, resp_https_t>], tagged by its connection. *)
Inductive response_t :=
| resp_http (conn : nat)
| resp_https (conn : nat).

(** [pair_session_t].  A null [cipher_key] and an empty (or null)
    [async_insert_pin.response] are [None]. *)
Record pair_session_t := mk_pair_session {
  client_uniqueID : string;
  client_cert : string;
  client_name : string;
  cipher_key : option string;
  clienthash : string;
  serversecret : string;
  serverchallenge : string;
  async_response : option response_t;
  async_salt : string
}.

(** A default-constructed [pair_session_t]. *)
Definition pair_session_default : pair_session_t :=
  mk_pair_session "" "" "" None "" "" "" None "".

Definition set_client (uniqueID name cert : string) (s : pair_session_t) :=
  mk_pair_session uniqueID cert name (cipher_key s) (clienthash s)
    (serversecret s) (serverchallenge s) (async_response s) (async_salt s).

Definition set_client_name (name : string) (s : pair_session_t) :=
  set_client (client_uniqueID s) name (client_cert s) s.

Definition set_client_cert (cert : string) (s : pair_session_t) :=
  set_client (client_uniqueID s) (client_name s) cert s.

Definition set_cipher_key (key : option string) (s : pair_session_t) :=
  mk_pair_session (client_uniqueID s) (client_cert s) (client_name s) key
    (clienthash s) (serversecret s) (serverchallenge s) (async_response s)
    (async_salt s).

Definition set_clienthash (h : string) (s : pair_session_t) :=
  mk_pair_session (client_uniqueID s) (client_cert s) (client_name s)
    (cipher_key s) h (serversecret s) (serverchallenge s) (async_response s)
    (async_salt s).

Definition set_server_nonces (secret challenge : string) (s : pair_session_t) :=
  mk_pair_session (client_uniqueID s) (client_cert s) (client_name s)
    (cipher_key s) (clienthash s) secret challenge (async_response s)
    (async_salt s).

Definition set_async_response (r : option response_t) (s : pair_session_t) :=
  mk_pair_session (client_uniqueID s) (client_cert s) (client_name s)
    (cipher_key s) (clienthash s) (serversecret s) (serverchallenge s) r
    (async_salt s).

Definition set_async_salt (salt : string) (s : pair_session_t) :=
  mk_pair_session (client_uniqueID s) (client_cert s) (client_name s)
    (cipher_key s) (clienthash s) (serversecret s) (serverchallenge s)
    (async_response s) salt.

(** [one_time_pin], [otp_passphrase], [otp_device_name] and
    [otp_creation_time]. *)
Record otp_t := mk_otp {
  one_time_pin : string;
  otp_passphrase : string;
  otp_device_name : string;
  otp_creation_time : Z
}.

(** The three [clear()] calls; the creation time is left as it is. *)
Definition otp_clear (o : otp_t) : otp_t :=
  mk_otp "" "" "" (otp_creation_time o).

(** The globals of the translation unit, the state file, and the two input
    streams the handlers read (entropy and standard input), together with the
    log of responses completed out of band by [pin]. *)
Record state := mk_state {
  map_id_sess : gmap string pair_session_t;
  client_root : list named_cert_t;
  cert_chain : list named_cert_t;
  otp : otp_t;
  unique_id : string;
  disk : disk_t;
  entropy : nat;
  stdin : list string;
  written : list (response_t * ptree)
}.

Definition set_map_id_sess (m : gmap string pair_session_t) (st : state) :=
  mk_state m (client_root st) (cert_chain st) (otp st) (unique_id st) (disk st)
    (entropy st) (stdin st) (written st).

Definition set_otp (o : otp_t) (st : state) :=
  mk_state (map_id_sess st) (client_root st) (cert_chain st) o (unique_id st)
    (disk st) (entropy st) (stdin st) (written st).

Definition set_entropy (e : nat) (st : state) :=
  mk_state (map_id_sess st) (client_root st) (cert_chain st) (otp st)
    (unique_id st) (disk st) e (stdin st) (written st).

Definition set_stdin (l : list string) (st : state) :=
  mk_state (map_id_sess st) (client_root st) (cert_chain st) (otp st)
    (unique_id st) (disk st) (entropy st) l (written st).

Definition set_written (w : list (response_t * ptree)) (st : state) :=
  mk_state (map_id_sess st) (client_root st) (cert_chain st) (otp st)
    (unique_id st) (disk st) (entropy st) (stdin st) w.

Definition set_client_root (l : list named_cert_t) (st : state) :=
  mk_state (map_id_sess st) l (cert_chain st) (otp st) (unique_id st) (disk st)
    (entropy st) (stdin st) (written st).

Definition set_disk (d : disk_t) (st : state) :=
  mk_state (map_id_sess st) (client_root st) (cert_chain st) (otp st)
    (unique_id st) d (entropy st) (stdin st) (written st).

Definition set_unique_id (u : string) (st : state) :=
  mk_state (map_id_sess st) (client_root st) (cert_chain st) (otp st) u (disk st)
    (entropy st) (stdin st) (written st).

Definition set_cert_chain (l : list named_cert_t) (st : state) :=
  mk_state (map_id_sess st) (client_root st) l (otp st) (unique_id st) (disk st)
    (entropy st) (stdin st) (written st).

(** ** Failures

    [Thrown name] is the [std::out_of_range(name)] of [get_arg];
    [Undefined f] is undefined behaviour of kind [f]. *)

Inductive fault :=
| InvalidIterator    (* [sess_it->second] or [erase(it)] with [it == end()] *)
| NullCipherKey      (* [*sess.cipher_key] on a null [unique_ptr] *)
| ReadPastBuffer.    (* [memcmp] over more bytes than the vector holds *)

Inductive result (A : Type) :=
| Ok (a : A)
| Thrown (what : string)
| Undefined (f : fault).

Arguments Ok {A} a.
Arguments Thrown {A} what.
Arguments Undefined {A} f.

Definition bind {A B} (c : result A) (k : A -> result B) : result B :=
  match c with
  | Ok a => k a
  | Thrown w => Thrown w
  | Undefined f => Undefined f
  end.

Notation "x <- c ;; k" := (bind c (fun x => k))
  (at level 100, c at next level, right associativity).

(** [get_arg(args, name)] without a default value. *)
Definition get_arg (args : args_t) (name : string) : result string :=
  match args_find args name with
  | Some v => Ok v
  | None => Thrown name
  end.

(** [*p] for a pointer or iterator that may be null or past the end. *)
Definition deref {A} (f : fault) (p : option A) : result A :=
  match p with
  | Some a => Ok a
  | None => Undefined f
  end.

(** What a request handler leaves behind for its own response.
    - [Written t]: the fail guard wrote the tree [t] and closed the
      connection;
    - [Suspended]: the guard was disabled and the response handle now
      belongs to the session;
    - [Threw name t]: [std::out_of_range(name)] left the handler, the guard
      writing [t] during unwinding;
    - [Crashed f]: undefined behaviour. *)
Inductive reply :=
| Written (t : ptree)
| Suspended
| Threw (what : string) (t : ptree)
| Crashed (f : fault).

(** A [/pair] or [/serverinfo] request: the transport it came in on (the
    template parameter [T]), its parsed query string, its response handle and
    the reading of [steady_clock::now()] while it is served. *)
Record request := mk_request {
  rq_https : bool;
  rq_args : args_t;
  rq_conn : nat;
  rq_now : Z
}.

Definition rq_response (rq : request) : response_t :=
  if rq_https rq then resp_https (rq_conn rq) else resp_http (rq_conn rq).

Section Server.

Context (P : provider_t) (cfg : config_t).

(** *** [load_state] and [add_authorized_client] *)

(** The import of the old format: every certificate string becomes a named
    certificate with an empty name and a generated uuid. *)
Fixpoint import_legacy (certs : list string) (e : nat) : list named_cert_t * nat :=
  match certs with
  | [] => ([], e)
  | c :: rest =>
      let '(l, e') := import_legacy rest (S e) in
      (mk_named_cert "" c (uuid_generate P e) :: l, e')
  end.

Definition load_state (st : state) : state :=
  let fresh_id st :=
    set_entropy (S (entropy st)) (set_unique_id (uuid_generate P (entropy st)) st) in
  match dk_file (disk st) with
  | FileMissing => fresh_id st
  | FileCorrupt => st
  | FileJson _ None => fresh_id st
  | FileJson _ (Some root) =>
      match jr_uniqueid root with
      | None => fresh_id st
      | Some u =>
          let '(legacy, e') :=
            import_legacy (concat (map ld_certs (jr_devices root))) (entropy st) in
          let client := (legacy ++ default [] (jr_named_devices root))%list in
          set_client_root client
            (set_cert_chain client (set_entropy e' (set_unique_id u st)))
      end
  end.

Definition add_authorized_client (named_cert_p : named_cert_t) (st : state) : state :=
  let st1 := set_client_root (client_root st ++ [named_cert_p])%list st in
  if flag_FRESH_STATE cfg then st1
  else
    load_state
      (set_disk (Store.save_state (unique_id st1) (client_root st1) (disk st1)) st1).

(** *** Phase 1: [getservercert] *)

Definition getservercert (sess : pair_session_t) (tree : ptree) (pin : string)
    : pair_session_t * ptree :=
  if (String.length (async_salt sess) <? 32)%nat then
    (sess,
     tree_put "root.<xmlattr>.status_message" "Salt too short"
       (tree_put_int "root.<xmlattr>.status_code" 400
          (tree_put_int "root.paired" 0 tree)))
  else
    let salt_view := substring 0 32 (async_salt sess) in
    let salt := util_from_hex P salt_view in
    let key := gen_aes_key P salt pin in
    (set_cipher_key (Some key) sess,
     tree_put_int "root.<xmlattr>.status_code" 200
       (tree_put "root.plaincert" (util_hex_vec P (servercert cfg))
          (tree_put_int "root.paired" 1 tree))).

(** *** Phase 3: [serverchallengeresp] *)

Definition serverchallengeresp (sess : pair_session_t) (tree : ptree) (args : args_t)
    : result (pair_session_t * ptree) :=
  arg <- get_arg args "serverchallengeresp" ;;
  let encrypted_response := util_from_hex_vec P arg in
  key <- deref NullCipherKey (cipher_key sess) ;;
  let decrypted := ecb_decrypt P key encrypted_response in
  let sess := set_clienthash decrypted sess in
  let sign := crypto_sign256 P (pkey cfg) (serversecret sess) in
  let pairingsecret := serversecret sess ++ sign in
  Ok (sess,
      tree_put_int "root.<xmlattr>.status_code" 200
        (tree_put_int "root.paired" 1
           (tree_put "root.pairingsecret" (util_hex_vec P pairingsecret) tree))).

(** *** Phase 2: [clientchallenge]; draws two 16-byte nonces at entropy
    positions [e] and [e + 1]. *)

Definition clientchallenge (sess : pair_session_t) (tree : ptree) (args : args_t)
    (e : nat) : result (pair_session_t * ptree) :=
  arg <- get_arg args "clientchallenge" ;;
  let challenge := util_from_hex_vec P arg in
  key <- deref NullCipherKey (cipher_key sess) ;;
  let decrypted := ecb_decrypt P key challenge in
  let sign := crypto_signature P (servercert cfg) in
  let secret := crypto_rand P e 16 in
  let hash := crypto_hash P (decrypted ++ sign ++ secret) in
  let challenge' := crypto_rand P (S e) 16 in
  let plaintext := hash ++ challenge' in
  let encrypted := ecb_encrypt P key plaintext in
  Ok (set_server_nonces secret challenge' sess,
      tree_put_int "root.<xmlattr>.status_code" 200
        (tree_put "root.challengeresponse" (util_hex_vec P encrypted)
           (tree_put_int "root.paired" 1 tree))).

(** *** Phase 4: [clientpairingsecret]

    [sess] is the entry of [map_id_sess] under [uniqID] (the reference
    [sess_it->second] of the caller).  The handler changes the globals, so
    it runs on the whole state. *)

Fixpoint brackets (name : string) : string :=
  match name with
  | EmptyString => EmptyString
  | String c rest =>
      String (if Ascii.eqb c "(" then "["%char
              else if Ascii.eqb c ")" then "]"%char else c)
             (brackets rest)
  end.

Definition clientpairingsecret (uniqID : string) (sess : pair_session_t)
    (tree : ptree) (args : args_t) (st : state) : result (state * ptree) :=
  arg <- get_arg args "clientpairingsecret" ;;
  let pairingsecret := util_from_hex_vec P arg in
  if (String.length pairingsecret <=? 16)%nat then
    Ok (st,
        tree_put "root.<xmlattr>.status_message" "Clientpairingsecret too short"
          (tree_put_int "root.<xmlattr>.status_code" 400
             (tree_put_int "root.paired" 0 tree)))
  else
    let secret := substring 0 16 pairingsecret in
    let sign := Str.drop 16 pairingsecret in
    let x509_sign := crypto_signature P (client_cert sess) in
    let data := serverchallenge sess ++ x509_sign ++ secret in
    let hash := crypto_hash P data in
    if (String.length (clienthash sess) <? 32)%nat then Undefined ReadPastBuffer
    else if Str.memcmp_eq hash (clienthash sess) 32
            && crypto_verify256 P (client_cert sess) secret sign then
      let tree := tree_put_int "root.paired" 1 tree in
      let named_cert_p :=
        mk_named_cert (brackets (client_name sess)) (client_cert sess)
          (uuid_generate P (entropy st)) in
      (* [std::move(client.cert)] leaves the session's copy empty *)
      let m := <[uniqID := set_client_cert "" sess]> (map_id_sess st) in
      _ <- deref InvalidIterator (m !! client_uniqueID sess) ;;
      let m := delete (client_uniqueID sess) m in
      let st := set_entropy (S (entropy st)) (set_map_id_sess m st) in
      Ok (add_authorized_client named_cert_p st,
          tree_put_int "root.<xmlattr>.status_code" 200 tree)
    else
      let m := delete (client_uniqueID sess) (map_id_sess st) in
      Ok (set_map_id_sess m st,
          tree_put_int "root.<xmlattr>.status_code" 200
            (tree_put_int "root.paired" 0 tree)).

(** *** The [/pair] handler *)

(** [map_id_sess.emplace(key, sess).first->second]: an entry that is already
    there is kept and the new session is dropped. *)
Definition emplace (key : string) (sess : pair_session_t)
    (m : gmap string pair_session_t) : gmap string pair_session_t * pair_session_t :=
  match m !! key with
  | Some old => (m, old)
  | None => (<[key := sess]> m, sess)
  end.

(** [std::getline(std::cin, pin)]. *)
Definition getline (st : state) : string * state :=
  match stdin st with
  | [] => ("", st)
  | line :: rest => (line, set_stdin rest st)
  end.

Definition otp_unavailable (o : otp_t) (now : Z) : bool :=
  (String.eqb (one_time_pin o) "")
  || (OTP_EXPIRE_DURATION cfg <? now - otp_creation_time o)%Z.

(** The branch [phrase == "getservercert"]. *)
Definition pair_getservercert (uniqID : string) (rq : request) (tree : ptree)
    (st : state) : state * reply :=
  let args := rq_args rq in
  match args_find args "devicename" with
  | None => (st, Threw "devicename" tree)
  | Some deviceName =>
  let deviceName :=
    if String.eqb deviceName "roth" then "Legacy Moonlight Client" else deviceName in
  match args_find args "clientcert" with
  | None => (st, Threw "clientcert" tree)
  | Some clientcert =>
  let sess :=
    set_client uniqID deviceName (util_from_hex_vec P clientcert) pair_session_default in
  let '(m, ptr) := emplace (client_uniqueID sess) sess (map_id_sess st) in
  match args_find args "salt" with
  | None => (set_map_id_sess m st, Threw "salt" tree)
  | Some salt =>
  let ptr := set_async_salt salt ptr in
  let store s st := set_map_id_sess (<[uniqID := s]> m) st in
  match args_find args "otpauth" with
  | Some otpauth =>
      let random_pin tree st :=
        (* Always return positive, attackers will fail in the next steps. *)
        let '(s, tree) := getservercert ptr tree (crypto_rand P (entropy st) 16) in
        (set_entropy (S (entropy st)) (store s st), Written tree) in
      if otp_unavailable (otp st) (rq_now rq) then
        let st := set_otp (otp_clear (otp st)) st in
        let tree :=
          tree_put "root.<xmlattr>.status_message" "OTP auth not available."
            (tree_put_int "root.<xmlattr>.status_code" 503 tree) in
        random_pin tree st
      else
        let hash :=
          util_hex P (crypto_hash P (one_time_pin (otp st) ++ async_salt ptr
                                       ++ otp_passphrase (otp st))) in
        if String.eqb hash otpauth then
          let ptr :=
            if String.eqb (otp_device_name (otp st)) "" then ptr
            else set_client_name (otp_device_name (otp st)) ptr in
          let '(s, tree) := getservercert ptr tree (one_time_pin (otp st)) in
          (set_otp (otp_clear (otp st)) (store s st), Written tree)
        else random_pin tree st
  | None =>
      if flag_PIN_STDIN cfg then
        let '(pin, st) := getline st in
        let '(s, tree) := getservercert ptr tree pin in
        (store s st, Written tree)
      else
        (store (set_async_response (Some (rq_response rq)) ptr) st, Suspended)
  end end end end.

(** Runs a phase on the session found under [uniqID] and stores the
    session back: the phases work on the reference [sess_it->second]. *)
Definition on_session (uniqID : string) (tree : ptree) (draws : nat) (st : state)
    (phase : pair_session_t -> result (pair_session_t * ptree)) : state * reply :=
  match sess <- deref InvalidIterator (map_id_sess st !! uniqID) ;; phase sess with
  | Ok (sess, tree) =>
      (set_entropy (draws + entropy st)
         (set_map_id_sess (<[uniqID := sess]> (map_id_sess st)) st),
       Written tree)
  | Thrown what => (st, Threw what tree)
  | Undefined f => (st, Crashed f)
  end.

Definition pair (rq : request) (st : state) : state * reply :=
  let tree : ptree := [] in
  if negb (enable_pairing cfg) then
    (st, Written
           (tree_put "root.<xmlattr>.status_message" "Pairing is disabled for this instance"
              (tree_put_int "root.<xmlattr>.status_code" 403 tree)))
  else
    let args := rq_args rq in
    match args_find args "uniqueid" with
    | None =>
        (st, Written
               (tree_put "root.<xmlattr>.status_message" "Missing uniqueid parameter"
                  (tree_put_int "root.<xmlattr>.status_code" 400 tree)))
    | Some uniqID =>
        match args_find args "phrase" with
        | Some phrase =>
            if String.eqb phrase "getservercert" then
              pair_getservercert uniqID rq tree st
            else if String.eqb phrase "pairchallenge" then
              (st, Written (tree_put_int "root.<xmlattr>.status_code" 200
                              (tree_put_int "root.paired" 1 tree)))
            else (st, Written tree)
        | None =>
        match args_find args "clientchallenge" with
        | Some _ =>
            on_session uniqID tree 2 st
              (fun sess => clientchallenge sess tree args (entropy st))
        | None =>
        match args_find args "serverchallengeresp" with
        | Some _ =>
            on_session uniqID tree 0 st
              (fun sess => serverchallengeresp sess tree args)
        | None =>
        match args_find args "clientpairingsecret" with
        | Some _ =>
            match sess <- deref InvalidIterator (map_id_sess st !! uniqID) ;;
                  clientpairingsecret uniqID sess tree args st with
            | Ok (st, tree) => (st, Written tree)
            | Thrown what => (st, Threw what tree)
            | Undefined f => (st, Crashed f)
            end
        | None =>
            (st, Written
                   (tree_put "root.<xmlattr>.status_message" "Invalid pairing request"
                      (tree_put_int "root.<xmlattr>.status_code" 404 tree)))
        end end end end
    end.

(** *** [pin]: completing a suspended [getservercert] *)

Definition pin (pin name : string) (st : state) : state * bool :=
  let tree : ptree := [] in
  match map_to_list (map_id_sess st) with
  | [] => (st, false)
  | (key, sess) :: _ =>
      if negb (String.length pin =? 4)%nat then (st, false)
      else if negb (Str.all_of Str.isdigit pin) then (st, false)
      else
        let '(sess, tree) := getservercert sess tree pin in
        let sess := if String.eqb name "" then sess else set_client_name name sess in
        let store s st := set_map_id_sess (<[key := s]> (map_id_sess st)) st in
        match async_response sess with
        | Some async_response =>
            (set_written (written st ++ [(async_response, tree)])%list
               (store (set_async_response None sess) st),
             true)
        | None => (store sess st, false)
        end
  end.

End Server.

(** ** [serverinfo] *)

(** What [serverinfo] reads from the configuration, the video and process
    subsystems, the platform layer and the connection. *)
Record sysinfo_t := mk_sysinfo {
  sunshine_name : string;                (* config::nvhttp.sunshine_name *)
  VERSION : string;
  GFE_VERSION : string;
  port_https : Z;                        (* net::map_port(PORT_HTTPS) *)
  port_http : Z;                         (* net::map_port(PORT_HTTP) *)
  active_hevc_mode : Z;
  active_av1_mode : Z;
  yuv444_h264 : bool;                    (* last_encoder_probe_supported_yuv444_for_codec[0] *)
  yuv444_hevc : bool;                    (* ...[1] *)
  yuv444_av1 : bool;                     (* ...[2] *)
  server_cmds : list string;             (* cmd_name of config::sunshine.server_cmds *)
  get_mac_address : string -> string;    (* platf::get_mac_address *)
  local_address : string;                (* net::addr_to_normalized_string(local address) *)
  local_is_plain_v6 : bool;              (* is_v6() && !to_v6().is_v4_mapped() *)
  running : Z                            (* proc::proc.running() *)
}.

(** Modelled from the spec: the [SCM_*] bits are declared in a header that is
    not among the sources; the specification lists H264=0x01,
    H264_HIGH8_444=0x02, HEVC=0x04, HEVC_MAIN10=0x08, HEVC_REXT8_444=0x10,
    HEVC_REXT10_444=0x20, AV1_MAIN8=0x10000, AV1_MAIN10=0x20000,
    AV1_HIGH8_444=0x40000, AV1_HIGH10_444=0x80000. *)
Module SCM.
Definition H264 : Z := 0x01.
Definition H264_HIGH8_444 : Z := 0x02.
Definition HEVC : Z := 0x04.
Definition HEVC_MAIN10 : Z := 0x08.
Definition HEVC_REXT8_444 : Z := 0x10.
Definition HEVC_REXT10_444 : Z := 0x20.
Definition AV1_MAIN8 : Z := 0x10000.
Definition AV1_MAIN10 : Z := 0x20000.
Definition AV1_HIGH8_444 : Z := 0x40000.
Definition AV1_HIGH10_444 : Z := 0x80000.
End SCM.

Definition lor_if (b : bool) (bit flags : Z) : Z :=
  if b then Z.lor flags bit else flags.

Definition codec_mode_flags (si : sysinfo_t) : Z :=
  let f := SCM.H264 in
  let f := lor_if (yuv444_h264 si) SCM.H264_HIGH8_444 f in
  let f := lor_if (2 <=? active_hevc_mode si)%Z SCM.HEVC f in
  let f := lor_if ((2 <=? active_hevc_mode si)%Z && yuv444_hevc si) SCM.HEVC_REXT8_444 f in
  let f := lor_if (3 <=? active_hevc_mode si)%Z SCM.HEVC_MAIN10 f in
  let f := lor_if ((3 <=? active_hevc_mode si)%Z && yuv444_hevc si) SCM.HEVC_REXT10_444 f in
  let f := lor_if (2 <=? active_av1_mode si)%Z SCM.AV1_MAIN8 f in
  let f := lor_if ((2 <=? active_av1_mode si)%Z && yuv444_av1 si) SCM.AV1_HIGH8_444 f in
  let f := lor_if (3 <=? active_av1_mode si)%Z SCM.AV1_MAIN10 f in
  let f := lor_if ((3 <=? active_av1_mode si)%Z && yuv444_av1 si) SCM.AV1_HIGH10_444 f in
  f.

(** [serverinfo<T>]; [https] is [std::is_same_v<SunshineHTTPS, T>].  The
    [_WIN32] block is not compiled on this platform. *)
Definition serverinfo (si : sysinfo_t) (unique_id : string) (https : bool)
    (args : args_t) : ptree :=
  let pair_status : Z :=
    if https then
      match args_find args "uniqueid" with
      | Some _ => 1%Z
      | None => 0%Z
      end
    else 0%Z in
  let tree : ptree := [] in
  let tree := tree_put_int "root.<xmlattr>.status_code" 200 tree in
  let tree := tree_put "root.hostname" (sunshine_name si) tree in
  let tree := tree_put "root.appversion" (VERSION si) tree in
  let tree := tree_put "root.GfeVersion" (GFE_VERSION si) tree in
  let tree := tree_put "root.uniqueid" unique_id tree in
  let tree := tree_put_int "root.HttpsPort" (port_https si) tree in
  let tree := tree_put_int "root.ExternalPort" (port_http si) tree in
  let tree :=
    tree_put "root.MaxLumaPixelsHEVC"
      (if (1 <? active_hevc_mode si)%Z then "1869449984" else "0") tree in
  let tree :=
    if https then
      let tree := tree_put "root.mac" (get_mac_address si (local_address si)) tree in
      fold_left (fun t cmd => tree_push_back "root.ServerCommand" cmd t)
        (server_cmds si) tree
    else tree_put "root.mac" "00:00:00:00:00:00" tree in
  let tree :=
    if local_is_plain_v6 si then tree_put "root.LocalIP" "127.0.0.1" tree
    else tree_put "root.LocalIP" (local_address si) tree in
  let tree := tree_put_int "root.ServerCodecModeSupport" (codec_mode_flags si) tree in
  let tree := tree_put_int "root.PairStatus" pair_status tree in
  let tree := tree_put_int "root.currentgame" (running si) tree in
  tree_put "root.state"
    (if (0 <? running si)%Z then "SUNSHINE_SERVER_BUSY" else "SUNSHINE_SERVER_FREE") tree.

(** ** A provider to run the handlers on

    [Toy] implements the external functions by plain string manipulation: the
    hash pads or cuts its input to 32 characters, a signature over [data]
    under [cert] is the text [cert ++ data], the cipher and the hex codec are
    the identity.  It has none of the strength of the real primitives; it
    makes the handlers executable on concrete requests. *)

Module Toy.

Definition pad32 : string := "00000000000000000000000000000000".

Definition hash (data : string) : string := substring 0 32 (data ++ pad32).

Fixpoint fill (c : ascii) (n : nat) : string :=
  match n with
  | O => EmptyString
  | S n' => String c (fill c n')
  end.

Definition rand (e bytes : nat) : string := fill (ascii_of_nat (97 + e)) bytes.

Definition uuid (e : nat) : string := "uuid-" ++ pretty e.

Definition verify256 (cert data sign : string) : bool := String.eqb sign (cert ++ data).

End Toy.

(** ** The specification's reading of [save_state]

    "Save deduplicates by certificate string, preserves insertion order, and
    rewrites duplicate names using the (N) convention": the entries kept
    are the first occurrences of each certificate, and the k-th kept entry
    is named after the number of kept entries before it that share its base
    name. *)

Module SaveSpec.

Fixpoint first_by_cert (l : list named_cert_t) : list named_cert_t :=
  match l with
  | [] => []
  | nc :: rest =>
      nc :: filter (fun x => nc_cert x <> nc_cert nc) (first_by_cert rest)
  end.

Definition same_base (b : string) (x : named_cert_t) : Prop :=
  Store.base_name (nc_name x) = b.

#[global] Instance same_base_dec b x : Decision (same_base b x).
Proof. unfold same_base. apply _. Defined.

(** How many of the first [k] kept entries share the base name [b]. *)
Definition earlier (kept : list named_cert_t) (k : nat) (b : string) : nat :=
  length (filter (same_base b) (take k kept)).

Definition display_name (b : string) (n : nat) : string :=
  match n with
  | O => b
  | S _ => b ++ " (" ++ pretty (S n) ++ ")"
  end.

Definition disambiguate (kept : list named_cert_t) (k : nat) (nc : named_cert_t)
    : named_cert_t :=
  let b := Store.base_name (nc_name nc) in
  mk_named_cert (display_name b (earlier kept k b)) (nc_cert nc) (nc_uuid nc).

Definition nodes (l : list named_cert_t) : list named_cert_t :=
  imap (disambiguate (first_by_cert l)) (first_by_cert l).

End SaveSpec.

(** ** Request shapes

    The dispatch conditions of [pair], named so that statements read well. *)

(** A phase-1 request carrying its three required parameters. *)
Definition is_getservercert (rq : request) (uniqID deviceName clientcert salt : string)
    : Prop :=
  args_find (rq_args rq) "uniqueid" = Some uniqID
  /\ args_find (rq_args rq) "phrase" = Some "getservercert"
  /\ args_find (rq_args rq) "devicename" = Some deviceName
  /\ args_find (rq_args rq) "clientcert" = Some clientcert
  /\ args_find (rq_args rq) "salt" = Some salt.

(** A phase-4 request: no [phrase], no parameter of an earlier phase. *)
Definition is_phase4 (rq : request) (uniqID arg : string) : Prop :=
  args_find (rq_args rq) "uniqueid" = Some uniqID
  /\ args_find (rq_args rq) "phrase" = None
  /\ args_find (rq_args rq) "clientchallenge" = None
  /\ args_find (rq_args rq) "serverchallengeresp" = None
  /\ args_find (rq_args rq) "clientpairingsecret" = Some arg.

(** The session a phase-1 request works on after [emplace] and the
    assignment of the salt: the one already stored under [uniqID] if there
    is one, the newly built one otherwise. *)
Definition phase1_session (P : provider_t) (st : state)
    (uniqID deviceName clientcert salt : string) : pair_session_t :=
  set_async_salt salt
    (match map_id_sess st !! uniqID with
     | Some old => old
     | None =>
         set_client uniqID
           (if String.eqb deviceName "roth" then "Legacy Moonlight Client"
            else deviceName)
           (util_from_hex_vec P clientcert) pair_session_default
     end).

(** [si] with another MAC lookup and another list of server commands. *)
Definition with_private (mac : string -> string) (cmds : list string) (si : sysinfo_t)
    : sysinfo_t :=
  mk_sysinfo (sunshine_name si) (VERSION si) (GFE_VERSION si) (port_https si)
    (port_http si) (active_hevc_mode si) (active_av1_mode si) (yuv444_h264 si)
    (yuv444_hevc si) (yuv444_av1 si) cmds mac (local_address si)
    (local_is_plain_v6 si) (running si).

(** Every session is stored under its own [client.uniqueID]. *)
Definition keyed (m : gmap string pair_session_t) : Prop :=
  forall k s, m !! k = Some s -> client_uniqueID s = k.

(** ** The rest of the client store: [unpair_client], [erase_all_clients],
    [get_all_clients] and [request_otp] *)

(** The erase loop of [unpair_client]: the devices that stay, and the number
    of devices removed (a C [int], bounded by the size of the vector). *)
Fixpoint unpair_loop (uuid : string) (named_devices : list named_cert_t)
    : list named_cert_t * nat :=
  match named_devices with
  | [] => ([], 0%nat)
  | d :: rest =>
      let '(kept, removed) := unpair_loop uuid rest in
      if String.eqb (nc_uuid d) uuid then (kept, S removed) else (d :: kept, removed)
  end.

(** [get_all_clients]: one node per device, holding its name and its uuid. *)
Definition get_all_clients (st : state) : list (string * string) :=
  map (fun named_cert_p => (nc_name named_cert_p, nc_uuid named_cert_p)) (client_root st).

Section ClientStore.

Context (P : provider_t).

(** [save_state(); load_state();], the tail of [erase_all_clients] and of
    [unpair_client]; both run it whatever the [FRESH_STATE] flag says. *)
Definition save_and_load (st : state) : state :=
  load_state P (set_disk (Store.save_state (unique_id st) (client_root st) (disk st)) st).

Definition erase_all_clients (st : state) : state :=
  save_and_load (set_cert_chain [] (set_client_root [] st)).

Definition unpair_client (uuid : string) (st : state) : state * nat :=
  let '(kept, removed) := unpair_loop uuid (client_root st) in
  (save_and_load (set_client_root kept st), removed).

(** [request_otp]; [rand_alphabet] is [crypto::rand_alphabet] at a position of
    the entropy stream, [now] the reading of [steady_clock::now()]. *)
Definition request_otp (rand_alphabet : nat -> nat -> string -> string)
    (passphrase deviceName : string) (now : Z) (st : state) : state * string :=
  if (String.length passphrase <? 4)%nat then (st, "")
  else
    let pin := rand_alphabet (entropy st) 4%nat "0123456789" in
    (set_entropy (S (entropy st)) (set_otp (mk_otp pin passphrase deviceName now) st),
     pin).

End ClientStore.

(** ** Session control: [launch], [resume] and [cancel]

    What the three handlers read from the streaming, process and network
    subsystems. *)
Record stream_t := mk_stream {
  session_count : Z;             (* rtsp_stream::session_count() *)
  channels : Z;                  (* config::stream.channels *)
  current_appid : Z;             (* proc::proc.running() *)
  app_ids : list string;         (* id of each of proc::proc.get_apps() *)
  execute : Z -> Z;              (* proc::proc.execute(appid, ...): 0 on success *)
  probe_encoders : bool;         (* video::probe_encoders(): true on failure *)
  encryption_mandatory : bool;   (* encryption_mode_for_address(remote) == MANDATORY *)
  from_view : string -> Z;       (* util::from_view *)
  url_address : string;          (* net::addr_to_url_escaped_string(local address) *)
  rtsp_setup_port : Z            (* net::map_port(rtsp_stream::RTSP_SETUP_PORT) *)
}.

(** What a handler did besides answering: the new value of the shared
    [host_audio], whether [make_launch_session] ran (taking a session id and
    random bytes), whether the encoders were probed, the app handed to
    [proc::proc.execute], whether the session was raised to the RTSP server
    and whether the running app was terminated. *)
Record control_t := mk_control {
  ct_tree : ptree;
  ct_host_audio : bool;
  ct_session_made : bool;
  ct_probed : bool;
  ct_executed : option Z;
  ct_raised : bool;
  ct_terminated : bool
}.

(** The part of [make_launch_session] the handlers depend on: RTSP is
    encrypted when the client reports [corever >= 1]. *)
Definition launch_cipher (env : stream_t) (args : args_t) : bool :=
  (1 <=? from_view env (default "0" (args_find args "corever")))%Z.

Definition rtsp_url_scheme (cipher : bool) : string :=
  if cipher then "rtspenc://" else "rtsp://".

Definition session_url (env : stream_t) (cipher : bool) : string :=
  rtsp_url_scheme cipher ++ url_address env ++ ":" ++ pretty (rtsp_setup_port env).

Definition limit_reached : string :=
  "The host's concurrent stream limit has been reached. Stop an existing stream or increase the 'Channels' value in the Sunshine Web UI.".

Definition capture_failed : string :=
  "Failed to initialize video capture/encoding. Is a display connected and turned on?".

Definition refused (status : Z) (message : string) : ptree :=
  tree_put "root.<xmlattr>.status_message" message
    (tree_put_int "root.<xmlattr>.status_code" status
       (tree_put_int "root.resume" 0 [])).


Definition resume (env : stream_t) (host_audio : bool) (args : args_t) : control_t :=
  let idle tree := mk_control tree host_audio false false None false false in
  if (session_count env =? channels env)%Z then idle (refused 503 limit_reached)
  else if (current_appid env =? 0)%Z then idle (refused 503 "No running app to resume")
  else
    match args_find args "rikey", args_find args "rikeyid" with
    | Some _, Some _ =>
        let no_session := (session_count env =? 0)%Z in
        if no_session && probe_encoders env then
          mk_control (refused 503 capture_failed) host_audio false true None false false
        else
          let host_audio :=
            if no_session then
              match args_find args "localAudioPlayMode" with
              | Some localAudioPlayMode =>
                  negb (from_view env localAudioPlayMode =? 0)%Z
              | None => host_audio
              end
            else host_audio in
          let cipher := launch_cipher env args in
          if negb cipher && encryption_mandatory env then
            mk_control
              (tree_put_int "root.gamesession" 0
                 (tree_put "root.<xmlattr>.status_message"
                    "Encryption is mandatory for this host but unsupported by the client"
                    (tree_put_int "root.<xmlattr>.status_code" 403 [])))
              host_audio true no_session None false false
          else
            mk_control
              (tree_put_int "root.resume" 1
                 (tree_put "root.sessionUrl0" (session_url env cipher)
                    (tree_put_int "root.<xmlattr>.status_code" 200 [])))
              host_audio true no_session None true false
    | _, _ => idle (refused 400 "Missing a required resume parameter")
    end.

Definition cancel (env : stream_t) (host_audio : bool) : control_t :=
  if negb (session_count env =? 0)%Z then
    mk_control
      (refused 503 "All sessions must be disconnected before quitting")
      host_audio false false None false false
  else
    mk_control
      (tree_put_int "root.<xmlattr>.status_code" 200 (tree_put_int "root.cancel" 1 []))
      host_audio false false None false (0 <? current_appid env)%Z.

(** ** More request shapes and frames *)

(** A phase-2 and a phase-3 request. *)
Definition is_phase2 (rq : request) (uniqID arg : string) : Prop :=
  args_find (rq_args rq) "uniqueid" = Some uniqID
  /\ args_find (rq_args rq) "phrase" = None
  /\ args_find (rq_args rq) "clientchallenge" = Some arg.

Definition is_phase3 (rq : request) (uniqID arg : string) : Prop :=
  args_find (rq_args rq) "uniqueid" = Some uniqID
  /\ args_find (rq_args rq) "phrase" = None
  /\ args_find (rq_args rq) "clientchallenge" = None
  /\ args_find (rq_args rq) "serverchallengeresp" = Some arg.

(** What a handler leaves alone: the client store, the certificate chain,
    the state file, the server's id and the responses written so far. *)
Definition same_store (st st' : state) : Prop :=
  client_root st' = client_root st
  /\ cert_chain st' = cert_chain st
  /\ disk st' = disk st
  /\ unique_id st' = unique_id st
  /\ written st' = written st.

Definition same_sessions_but (uniqID : string) (st st' : state) : Prop :=
  forall k, k <> uniqID -> map_id_sess st' !! k = map_id_sess st !! k.

(** Whether the [ServerCodecModeSupport] value [flags] has the bit [bit]. *)
Definition advertises (flags bit : Z) : bool := negb (Z.land flags bit =? 0)%Z.

(** * Part II: proofs *)

(** ** Strings *)

Lemma length_append (a b : string) :
  String.length (a ++ b) = String.length a + String.length b.
Proof. induction a as [|c a IH]; simpl; [reflexivity | now rewrite IH]. Qed.

Lemma length_substring_0 (n : nat) (s : string) :
  String.length (substring 0 n s) = Nat.min n (String.length s).
Proof.
  revert s. induction n as [|n IH]; intros [|c s]; simpl; try reflexivity.
  now rewrite IH.
Qed.

Lemma substring_0_append (a b : string) :
  substring 0 (String.length a) (a ++ b) = a.
Proof. induction a as [|c a IH]; simpl; [now destruct b | now rewrite IH]. Qed.

Lemma substring_0_all (n : nat) (s : string) :
  String.length s <= n -> substring 0 n s = s.
Proof.
  revert n. induction s as [|c s IH]; intros [|n] H; simpl in *; try reflexivity; try lia.
  rewrite IH; [reflexivity | lia].
Qed.

(** ** [Store.base_name] *)

Lemma base_name_plain (name : string) :
  String.index 0 " (" name = None -> Store.base_name name = name.
Proof. unfold Store.base_name. now intros ->. Qed.

Lemma index_pending_cons (c : ascii) (s : string) :
  String.index 0 " (" (String c s) =
    if String.prefix " (" (String c s) then Some 0
    else match String.index 0 " (" s with Some n => Some (S n) | None => None end.
Proof. reflexivity. Qed.

Lemma prefix_nil (s : string) : String.prefix "" s = true.
Proof. now destruct s. Qed.

Lemma prefix_pending_cons (c d : ascii) (s : string) :
  String.prefix " (" (String c (String d s)) =
    if ascii_dec " " c then if ascii_dec "(" d then true else false else false.
Proof.
  cbn [String.prefix]. destruct (ascii_dec " " c); [|reflexivity].
  destruct (ascii_dec "(" d); [apply prefix_nil | reflexivity].
Qed.

Lemma prefix_pending_app (c : ascii) (b tail : string) :
  String.prefix " (" (String c b) = false ->
  String.prefix " (" (String c (b ++ " (" ++ tail)) = false.
Proof.
  destruct b as [|d b].
  - intros _. change ("" ++ " (" ++ tail) with (String " " (String "(" tail)).
    rewrite prefix_pending_cons. destruct (ascii_dec " " c); [|reflexivity].
    destruct (ascii_dec "(" " "); [discriminate | reflexivity].
  - change (String d b ++ " (" ++ tail) with (String d (b ++ " (" ++ tail)).
    now rewrite !prefix_pending_cons.
Qed.

Lemma index_pending_append (b tail : string) :
  String.index 0 " (" b = None ->
  String.index 0 " (" (b ++ " (" ++ tail) = Some (String.length b).
Proof.
  induction b as [|c b IH]; intros Hb.
  - destruct tail; reflexivity.
  - rewrite index_pending_cons in Hb.
    destruct (String.prefix " (" (String c b)) eqn:Hp; [discriminate|].
    destruct (String.index 0 " (" b) eqn:Hi; [discriminate|].
    change (String c b ++ " (" ++ tail) with (String c (b ++ " (" ++ tail)).
    rewrite index_pending_cons, (IH eq_refl), (prefix_pending_app _ _ _ Hp).
    reflexivity.
Qed.

Lemma base_name_strips (b tail : string) :
  String.index 0 " (" b = None -> Store.base_name (b ++ " (" ++ tail) = b.
Proof.
  intros Hb. unfold Store.base_name.
  rewrite (index_pending_append b tail Hb). apply substring_0_append.
Qed.

(** ** Response trees *)

Lemma tree_get_put_eq (path data : string) (t : ptree) :
  tree_get path (tree_put path data t) = Some data.
Proof.
  induction t as [|[p d] t IH]; cbn [tree_put tree_get].
  - now rewrite String.eqb_refl.
  - destruct (String.eqb p path) eqn:E; cbn [tree_get]; rewrite E; [reflexivity | exact IH].
Qed.

Lemma tree_get_put_ne (path path' data : string) (t : ptree) :
  path <> path' ->
  tree_get path (tree_put path' data t) = tree_get path t.
Proof.
  intros Hne. induction t as [|[p d] t IH]; cbn [tree_put tree_get].
  - apply String.eqb_neq in Hne. rewrite String.eqb_sym in Hne. now rewrite Hne.
  - destruct (String.eqb p path') eqn:E; cbn [tree_get].
    + apply String.eqb_eq in E. subst p.
      assert (String.eqb path' path = false) as -> by (apply String.eqb_neq; congruence).
      reflexivity.
    + destruct (String.eqb p path); [reflexivity | exact IH].
Qed.

Lemma tree_get_put_int_eq (path : string) (z : Z) (t : ptree) :
  tree_get path (tree_put_int path z t) = Some (pretty z).
Proof. apply tree_get_put_eq. Qed.

Lemma tree_get_put_int_ne (path path' : string) (z : Z) (t : ptree) :
  path <> path' ->
  tree_get path (tree_put_int path' z t) = tree_get path t.
Proof. apply tree_get_put_ne. Qed.

Lemma tree_children_put_ne (path path' data : string) (t : ptree) :
  path <> path' ->
  tree_children path (tree_put path' data t) = tree_children path t.
Proof.
  intros Hne.
  assert (String.eqb path' path = false) as Hf by (apply String.eqb_neq; congruence).
  induction t as [|[p d] t IH]; cbn [tree_put tree_children].
  - now rewrite Hf.
  - destruct (String.eqb p path') eqn:E; cbn [tree_children].
    + apply String.eqb_eq in E. subst p. now rewrite Hf.
    + destruct (String.eqb p path); [now rewrite IH | exact IH].
Qed.

Lemma tree_children_put_int_ne (path path' : string) (z : Z) (t : ptree) :
  path <> path' ->
  tree_children path (tree_put_int path' z t) = tree_children path t.
Proof. apply tree_children_put_ne. Qed.

Lemma tree_children_push_back (path data : string) (t : ptree) :
  tree_children path (tree_push_back path data t) = (tree_children path t ++ [data])%list.
Proof.
  unfold tree_push_back. induction t as [|[p d] t IH]; cbn [app tree_children].
  - now rewrite String.eqb_refl.
  - destruct (String.eqb p path); [now rewrite IH | exact IH].
Qed.

Lemma tree_get_push_back_ne (path path' data : string) (t : ptree) :
  path <> path' ->
  tree_get path (tree_push_back path' data t) = tree_get path t.
Proof.
  intros Hne. unfold tree_push_back.
  induction t as [|[p d] t IH]; cbn [app tree_get].
  - assert (String.eqb path' path = false) as -> by (apply String.eqb_neq; congruence).
    reflexivity.
  - destruct (String.eqb p path); [reflexivity | exact IH].
Qed.

Lemma server_commands_pushed (cmds : list string) (t : ptree) :
  let t' := fold_left (fun t cmd => tree_push_back "root.ServerCommand" cmd t) cmds t in
  tree_children "root.ServerCommand" t' = (tree_children "root.ServerCommand" t ++ cmds)%list
  /\ forall path, path <> "root.ServerCommand" -> tree_get path t' = tree_get path t.
Proof.
  revert t. induction cmds as [|c cmds IH]; intros t; cbn [fold_left].
  - split; [now rewrite app_nil_r | reflexivity].
  - destruct (IH (tree_push_back "root.ServerCommand" c t)) as [Hc Hg]. split.
    + rewrite Hc, tree_children_push_back, <- app_assoc. reflexivity.
    + intros path Hp. rewrite (Hg path Hp). now apply tree_get_push_back_ne.
Qed.

Ltac tree_lookup :=
  repeat first
    [ rewrite tree_get_put_eq | rewrite tree_get_put_int_eq
    | rewrite tree_get_put_ne by discriminate
    | rewrite tree_get_put_int_ne by discriminate
    | rewrite tree_children_put_ne by discriminate
    | rewrite tree_children_put_int_ne by discriminate ].

(** ** [save_state] refines its specification *)

Section SaveState.

Import Store SaveSpec.

Lemma first_by_cert_snoc (l : list named_cert_t) (x : named_cert_t) :
  first_by_cert (l ++ [x]) =
    (first_by_cert l ++ if decide (nc_cert x ∈ map nc_cert l) then [] else [x])%list.
Proof.
  induction l as [|a l IH].
  - cbn [first_by_cert app map]. destruct (decide (nc_cert x ∈ [])) as [I|_].
    + inversion I.
    + reflexivity.
  - cbn [first_by_cert app map]. rewrite IH, filter_app. f_equal. f_equal.
    destruct (decide (nc_cert x ∈ map nc_cert l)) as [I|I];
      destruct (decide (nc_cert x ∈ nc_cert a :: map nc_cert l)) as [J|J];
      try reflexivity.
    + exfalso. apply J. now right.
    + rewrite filter_cons_False; [reflexivity|].
      intros H. apply elem_of_cons in J as [J|J]; tauto.
    + rewrite filter_cons_True; [reflexivity|].
      intros E. apply J. rewrite E. now left.
Qed.

Lemma first_by_cert_certs (l : list named_cert_t) (c : string) :
  c ∈ map nc_cert (first_by_cert l) <-> c ∈ map nc_cert l.
Proof.
  induction l as [|a l IH]; simpl; [reflexivity|].
  rewrite !elem_of_cons, <- IH.
  destruct (decide (c = nc_cert a)) as [->|N]; [tauto|].
  split; intros [E|H]; try tauto; right.
  - apply list_elem_of_fmap in H as (y & -> & Hy). apply list_elem_of_filter in Hy as [_ Hy].
    apply list_elem_of_fmap. eauto.
  - apply list_elem_of_fmap in H as (y & -> & Hy). apply list_elem_of_fmap.
    exists y. split; [reflexivity|]. apply list_elem_of_filter. split; [congruence | exact Hy].
Qed.

Record save_inv (l : list named_cert_t) (st : save_loop_t) : Prop := mk_save_inv {
  inv_certs : forall c, c ∈ unique_certs st <-> c ∈ map nc_cert l;
  inv_counts : forall b,
    default 0 (name_counts st !! b) = length (filter (same_base b) (first_by_cert l));
  inv_nodes : named_cert_nodes st = nodes l
}.

Lemma disambiguate_take (kept more : list named_cert_t) (k : nat) (nc : named_cert_t) :
  k <= length kept ->
  disambiguate (kept ++ more) k nc = disambiguate kept k nc.
Proof.
  intros Hk. unfold disambiguate, earlier. now rewrite take_app_le.
Qed.

Lemma nodes_snoc_new (l : list named_cert_t) (x : named_cert_t) :
  nc_cert x ∉ map nc_cert l ->
  nodes (l ++ [x]) =
    (nodes l ++
       [mk_named_cert
          (display_name (base_name (nc_name x))
             (length (filter (same_base (base_name (nc_name x))) (first_by_cert l))))
          (nc_cert x) (nc_uuid x)])%list.
Proof.
  intros Hx. unfold nodes. rewrite first_by_cert_snoc, decide_False by exact Hx.
  rewrite imap_app. f_equal.
  - apply imap_ext. intros i y Hi. apply disambiguate_take.
    apply lookup_lt_Some in Hi. lia.
  - cbn [imap]. unfold disambiguate, earlier.
    rewrite Nat.add_0_r, take_app_length. reflexivity.
Qed.

Lemma nodes_snoc_dup (l : list named_cert_t) (x : named_cert_t) :
  nc_cert x ∈ map nc_cert l -> nodes (l ++ [x]) = nodes l.
Proof.
  intros Hx. unfold nodes.
  rewrite first_by_cert_snoc, decide_True by exact Hx. now rewrite app_nil_r.
Qed.

Lemma save_loop_inv (l : list named_cert_t) :
  save_inv l (fold_left save_loop_body l save_loop_init).
Proof.
  induction l as [|x l IH] using rev_ind.
  - split; cbn; intros.
    + rewrite elem_of_empty, elem_of_nil. tauto.
    + now rewrite lookup_empty.
    + reflexivity.
  - rewrite fold_left_app. cbn [fold_left].
    destruct IH as [Hc Hn Hnodes].
    set (st := fold_left save_loop_body l save_loop_init) in *.
    unfold save_loop_body.
    destruct (decide (nc_cert x ∈ unique_certs st)) as [Hin|Hnin].
    + apply Hc in Hin. split.
      * intros c. rewrite Hc, map_app, elem_of_app. cbn [map].
        rewrite list_elem_of_singleton. split; [tauto | now intros [H| ->]].
      * intros b. rewrite Hn, first_by_cert_snoc, decide_True by exact Hin.
        now rewrite app_nil_r.
      * now rewrite nodes_snoc_dup.
    + assert (nc_cert x ∉ map nc_cert l) as Hnew by (now rewrite <- Hc).
      split; cbn [unique_certs name_counts named_cert_nodes].
      * intros c. rewrite map_app, elem_of_app, elem_of_union, Hc. cbn [map].
        rewrite elem_of_singleton, list_elem_of_singleton. tauto.
      * intros b. rewrite first_by_cert_snoc, decide_False by exact Hnew.
        rewrite filter_app, length_app.
        destruct (decide (base_name (nc_name x) = b)) as [<-|Hb].
        -- rewrite lookup_insert_eq, filter_cons_True by reflexivity.
           cbn. rewrite Hn. lia.
        -- rewrite lookup_insert_ne, filter_cons_False by exact Hb.
           cbn. rewrite Hn. lia.
      * rewrite nodes_snoc_new by exact Hnew. rewrite Hnodes, Hn. f_equal. f_equal.
        f_equal. unfold display_name, pending_id.
        now destruct (length _).
Qed.

Lemma save_nodes_refines (l : list named_cert_t) : save_nodes l = nodes l.
Proof. apply (inv_nodes _ _ (save_loop_inv l)). Qed.

Lemma first_by_cert_sublist (l : list named_cert_t) : sublist (first_by_cert l) l.
Proof.
  induction l as [|a l IH]; cbn [first_by_cert]; [constructor|].
  apply sublist_skip. etransitivity; [apply sublist_filter | exact IH].
Qed.

Lemma first_by_cert_NoDup (l : list named_cert_t) :
  NoDup (map nc_cert (first_by_cert l)).
Proof.
  induction l as [|a l IH]; cbn [first_by_cert map]; [constructor|].
  apply NoDup_cons. split.
  - intros H. apply list_elem_of_fmap in H as (y & E & Hy).
    apply list_elem_of_filter in Hy as [Hy _]. congruence.
  - eapply sublist_NoDup; [exact IH|].
    apply (fmap_sublist nc_cert), sublist_filter.
Qed.

(** A kept entry is the first entry of the list with its certificate. *)
Lemma first_by_cert_first (l : list named_cert_t) (x : named_cert_t) :
  x ∈ first_by_cert l ->
  exists j, l !! j = Some x /\
    forall i y, i < j -> l !! i = Some y -> nc_cert y <> nc_cert x.
Proof.
  induction l as [|a l IH]; cbn [first_by_cert]; intros Hx.
  - inversion Hx.
  - apply elem_of_cons in Hx as [->|Hx].
    + exists 0. split; [reflexivity | intros; lia].
    + apply list_elem_of_filter in Hx as [Hne Hx].
      destruct (IH Hx) as (j & Hj & Hfirst). exists (S j). split; [exact Hj|].
      intros [|i] y Hi Hy; cbn in Hy.
      * injection Hy as <-. congruence.
      * apply (Hfirst i); [lia | exact Hy].
Qed.

Lemma nodes_lookup (l : list named_cert_t) (k : nat) :
  nodes l !! k = disambiguate (first_by_cert l) k <$> first_by_cert l !! k.
Proof. apply list_lookup_imap. Qed.

Lemma nodes_certs (l : list named_cert_t) :
  map nc_cert (nodes l) = map nc_cert (first_by_cert l).
Proof.
  apply list_eq. intros k.
  change (map nc_cert) with (fmap (M := list) nc_cert).
  rewrite !list_lookup_fmap, nodes_lookup.
  now destruct (first_by_cert l !! k).
Qed.

Lemma nodes_uuids (l : list named_cert_t) :
  map nc_uuid (nodes l) = map nc_uuid (first_by_cert l).
Proof.
  apply list_eq. intros k.
  change (map nc_uuid) with (fmap (M := list) nc_uuid).
  rewrite !list_lookup_fmap, nodes_lookup.
  now destruct (first_by_cert l !! k).
Qed.

(** C8 (as amended).  For every in-memory client list [l], [save_state]
    writes one entry per distinct certificate string, namely the first entry
    of [l] carrying it, in the order of [l]; every entry written, colliding
    or not, is named from its base name, which is its name cut at the first
    " (" (for a name without any " (" the name itself, for a name whose only
    " (" starts a trailing " (N)" the name without that suffix): the first
    entry with a base name is written under the base name, and the second,
    third, ... entry sharing it gets " (2)", " (3)", ... appended, counted in
    the order of [l]. *)
Theorem save_state_dedups_and_renames (l : list named_cert_t) :
  let kept := first_by_cert l in
  let out := save_nodes l in
  (* one entry per distinct certificate *)
  NoDup (map nc_cert out)
  /\ (forall c, c ∈ map nc_cert out <-> c ∈ map nc_cert l)
  (* the entries written are the first occurrences, in insertion order *)
  /\ map nc_cert out = map nc_cert kept
  /\ map nc_uuid out = map nc_uuid kept
  /\ sublist kept l
  /\ (forall x, x ∈ kept ->
        exists j, l !! j = Some x /\
          forall i y, i < j -> l !! i = Some y -> nc_cert y <> nc_cert x)
  (* the k-th entry is named after the earlier entries with its base name *)
  /\ (forall k x, kept !! k = Some x ->
        let b := base_name (nc_name x) in
        let n := length (filter (same_base b) (take k kept)) in
        out !! k =
          Some (mk_named_cert
                  (if (n =? 0)%nat then b else b ++ " (" ++ pretty (n + 1) ++ ")")
                  (nc_cert x) (nc_uuid x)))
  (* the base name is the name cut at its first " (" *)
  /\ (forall name, String.index 0 " (" name = None -> base_name name = name)
  /\ (forall b tail, String.index 0 " (" b = None -> base_name (b ++ " (" ++ tail) = b)
  (* and that list is what a save leaves in the file *)
  /\ (forall unique_id disk,
        dk_file disk <> FileCorrupt -> dk_writable disk = true ->
        exists other,
          dk_file (save_state unique_id l disk) =
            FileJson other (Some (mk_json_root (Some unique_id) [] (Some out)))).
Proof.
  cbn zeta. rewrite save_nodes_refines.
  split; [rewrite nodes_certs; apply first_by_cert_NoDup|].
  split; [intros c; rewrite nodes_certs; apply first_by_cert_certs|].
  split; [apply nodes_certs|].
  split; [apply nodes_uuids|].
  split; [apply first_by_cert_sublist|].
  split; [apply first_by_cert_first|].
  split.
  { intros k x Hk. rewrite nodes_lookup, Hk. cbn [fmap option_fmap option_map].
    unfold disambiguate, earlier, display_name.
    destruct (length _) as [|n]; [reflexivity|].
    cbn [Nat.eqb]. now rewrite Nat.add_1_r. }
  split; [apply base_name_plain|].
  split; [apply base_name_strips|].
  intros unique_id [file writable] Hfile Hw. cbn in Hfile, Hw. subst writable.
  unfold save_state. cbn [dk_file dk_writable].
  rewrite save_nodes_refines.
  destruct file as [| |other root]; [now exists [] | congruence | now exists other].
Qed.

End SaveState.

(** ** The key-derivation step *)

Section Handlers.

Context (P : provider_t) (cfg : config_t).

Lemma gen_aes_key_size (salt pin : string) :
  String.length (gen_aes_key P salt pin) = 16.
Proof.
  unfold gen_aes_key. rewrite length_substring_0, crypto_hash_size. reflexivity.
Qed.

Lemma getservercert_short (sess : pair_session_t) (tree : ptree) (pin : string) :
  (String.length (async_salt sess) < 32)%nat ->
  getservercert P cfg sess tree pin =
    (sess,
     tree_put "root.<xmlattr>.status_message" "Salt too short"
       (tree_put_int "root.<xmlattr>.status_code" 400
          (tree_put_int "root.paired" 0 tree))).
Proof.
  intros H. unfold getservercert.
  now rewrite (proj2 (Nat.ltb_lt _ _) H).
Qed.

Lemma getservercert_long (sess : pair_session_t) (tree : ptree) (pin : string) :
  (32 <= String.length (async_salt sess))%nat ->
  getservercert P cfg sess tree pin =
    (set_cipher_key
       (Some (gen_aes_key P (util_from_hex P (substring 0 32 (async_salt sess))) pin))
       sess,
     tree_put_int "root.<xmlattr>.status_code" 200
       (tree_put "root.plaincert" (util_hex_vec P (servercert cfg))
          (tree_put_int "root.paired" 1 tree))).
Proof.
  intros H. unfold getservercert.
  now rewrite (proj2 (Nat.ltb_ge _ _) H).
Qed.

(** What [getservercert] never touches. *)
Lemma getservercert_frame (sess : pair_session_t) (tree : ptree) (pin : string) :
  let sess' := fst (getservercert P cfg sess tree pin) in
  client_uniqueID sess' = client_uniqueID sess
  /\ client_cert sess' = client_cert sess
  /\ client_name sess' = client_name sess
  /\ async_response sess' = async_response sess
  /\ async_salt sess' = async_salt sess.
Proof.
  cbn zeta. unfold getservercert.
  destruct (String.length (async_salt sess) <? 32)%nat; cbn; auto.
Qed.

(** C3.  For a session whose salt has at least 32 characters and any PIN,
    [getservercert] stores
    [cipher_key = first 16 bytes of SHA-256(from_hex(salt[0..32]) ++ pin)]
    (and changes nothing else of the session), and answers [paired = 1],
    [plaincert = hex(server certificate)], [status_code = 200]; the key is a
    function of the salt and the PIN alone: any session and configuration with
    the same salt yield the same key. *)
Theorem getservercert_derives_key (sess : pair_session_t) (tree : ptree) (pin : string) :
  (32 <= String.length (async_salt sess))%nat ->
  let salt_bytes := util_from_hex P (substring 0 32 (async_salt sess)) in
  let key := substring 0 16 (crypto_hash P (salt_bytes ++ pin)) in
  let r := getservercert P cfg sess tree pin in
  fst r = set_cipher_key (Some key) sess
  /\ cipher_key (fst r) = Some key
  /\ String.length key = 16%nat
  /\ tree_get "root.paired" (snd r) = Some "1"
  /\ tree_get "root.plaincert" (snd r) = Some (util_hex_vec P (servercert cfg))
  /\ tree_get "root.<xmlattr>.status_code" (snd r) = Some "200"
  /\ (tree = [] ->
      snd r = [("root.paired", "1");
               ("root.plaincert", util_hex_vec P (servercert cfg));
               ("root.<xmlattr>.status_code", "200")])
  /\ (forall cfg' sess' tree',
        async_salt sess' = async_salt sess ->
        cipher_key (fst (getservercert P cfg' sess' tree' pin)) = Some key).
Proof.
  intros Hsalt. cbn zeta. rewrite (getservercert_long _ _ _ Hsalt). cbn [fst snd].
  repeat split.
  - apply (gen_aes_key_size).
  - tree_lookup. reflexivity.
  - tree_lookup. reflexivity.
  - tree_lookup. reflexivity.
  - intros ->. reflexivity.
  - intros cfg' sess' tree' E. unfold getservercert. rewrite E.
    rewrite (proj2 (Nat.ltb_ge _ _) Hsalt). reflexivity.
Qed.

End Handlers.

(** ** Phase 4 and the client store *)

Section Pairing.

Context (P : provider_t) (cfg : config_t).

Lemma load_state_map (st : state) :
  map_id_sess (load_state P st) = map_id_sess st.
Proof.
  unfold load_state. destruct (dk_file (disk st)) as [| |other [root|]]; try reflexivity.
  destruct (jr_uniqueid root); [|reflexivity].
  now destruct (import_legacy P _ _).
Qed.

Lemma add_authorized_client_map (nc : named_cert_t) (st : state) :
  map_id_sess (add_authorized_client P cfg nc st) = map_id_sess st.
Proof.
  unfold add_authorized_client. destruct (flag_FRESH_STATE cfg); [reflexivity|].
  now rewrite load_state_map.
Qed.

Lemma add_authorized_client_fresh (nc : named_cert_t) (st : state) :
  flag_FRESH_STATE cfg = true ->
  add_authorized_client P cfg nc st = set_client_root (client_root st ++ [nc])%list st.
Proof. unfold add_authorized_client. now intros ->. Qed.

Lemma add_authorized_client_persists (nc : named_cert_t) (st : state) :
  flag_FRESH_STATE cfg = false ->
  dk_file (disk st) <> FileCorrupt ->
  dk_writable (disk st) = true ->
  let nodes := Store.save_nodes (client_root st ++ [nc])%list in
  let st' := add_authorized_client P cfg nc st in
  client_root st' = nodes
  /\ cert_chain st' = nodes
  /\ exists other,
       dk_file (disk st') =
         FileJson other (Some (mk_json_root (Some (unique_id st)) [] (Some nodes))).
Proof.
  intros Hf Hfile Hw. cbn zeta. unfold add_authorized_client. rewrite Hf.
  unfold Store.save_state. cbn [disk set_client_root set_disk client_root unique_id].
  rewrite Hw.
  destruct (dk_file (disk st)) as [| |other root] eqn:E; [|congruence|];
    unfold load_state; cbn; eauto.
Qed.

Lemma pair_phase4 (rq : request) (st : state) (uniqID arg : string) (sess : pair_session_t) :
  enable_pairing cfg = true ->
  is_phase4 rq uniqID arg ->
  map_id_sess st !! uniqID = Some sess ->
  pair P cfg rq st =
    match clientpairingsecret P cfg uniqID sess [] (rq_args rq) st with
    | Ok (st, tree) => (st, Written tree)
    | Thrown what => (st, Threw what [])
    | Undefined f => (st, Crashed f)
    end.
Proof.
  intros He (Hu & Hp & Hc & Hs & Ha) Hsess. unfold pair.
  rewrite He, Hu, Hp, Hc, Hs, Ha, Hsess. reflexivity.
Qed.

Lemma memcmp_hash (data clienthash : string) :
  Str.memcmp_eq (crypto_hash P data) clienthash 32 = true <->
  crypto_hash P data = substring 0 32 clienthash.
Proof.
  unfold Str.memcmp_eq. rewrite String.eqb_eq.
  rewrite (substring_0_all 32 (crypto_hash P data)); [reflexivity|].
  now rewrite crypto_hash_size.
Qed.

End Pairing.

(** ** The session map is keyed by the client id *)

Section Keyed.

Context (P : provider_t) (cfg : config_t).

Lemma keyed_empty : keyed ∅.
Proof. intros k s H. now rewrite lookup_empty in H. Qed.

Lemma keyed_insert (m : gmap string pair_session_t) (k : string) (s : pair_session_t) :
  keyed m -> client_uniqueID s = k -> keyed (<[k := s]> m).
Proof.
  intros Hm Hs k' s' H. destruct (decide (k = k')) as [<-|Hne].
  - rewrite lookup_insert_eq in H. congruence.
  - rewrite lookup_insert_ne in H by exact Hne. now apply Hm.
Qed.

Lemma keyed_delete (m : gmap string pair_session_t) (k : string) :
  keyed m -> keyed (delete k m).
Proof.
  intros Hm k' s' H. apply lookup_delete_Some in H as [_ H]. now apply Hm.
Qed.

Lemma getservercert_uniqueID (sess : pair_session_t) (tree : ptree) (pin : string) :
  client_uniqueID (fst (getservercert P cfg sess tree pin)) = client_uniqueID sess.
Proof. apply (getservercert_frame P cfg sess tree pin). Qed.

Lemma pair_getservercert_keyed (uniqID : string) (rq : request) (tree : ptree) (st : state) :
  keyed (map_id_sess st) ->
  keyed (map_id_sess (fst (pair_getservercert P cfg uniqID rq tree st))).
Proof.
  intros Hk. unfold pair_getservercert.
  destruct (args_find (rq_args rq) "devicename"); [|exact Hk].
  destruct (args_find (rq_args rq) "clientcert"); [|exact Hk].
  cbn [client_uniqueID set_client].
  assert (keyed (fst (emplace uniqID
                        (set_client uniqID
                           (if String.eqb s "roth" then "Legacy Moonlight Client" else s)
                           (util_from_hex_vec P s0) pair_session_default)
                        (map_id_sess st)))
          /\ client_uniqueID
               (snd (emplace uniqID
                       (set_client uniqID
                          (if String.eqb s "roth" then "Legacy Moonlight Client" else s)
                          (util_from_hex_vec P s0) pair_session_default)
                       (map_id_sess st))) = uniqID) as [Hm Hptr].
  { unfold emplace. destruct (map_id_sess st !! uniqID) eqn:E; cbn [fst snd].
    - split; [exact Hk | now apply Hk].
    - split; [now apply keyed_insert | reflexivity]. }
  destruct (emplace _ _ _) as [m ptr]. cbn [fst snd] in Hm, Hptr.
  destruct (args_find (rq_args rq) "salt") as [salt|]; [|exact Hm].
  assert (forall s', client_uniqueID s' = uniqID -> keyed (<[uniqID := s']> m)) as Hins
    by (intros; now apply keyed_insert).
  destruct (args_find (rq_args rq) "otpauth") as [otpauth|].
  - repeat match goal with
      | |- context [if ?b then _ else _] => destruct b
      | |- context [getservercert P cfg ?s ?t ?p] =>
          pose proof (getservercert_uniqueID s t p);
          destruct (getservercert P cfg s t p)
      end;
      cbn [fst snd map_id_sess set_entropy set_otp set_map_id_sess] in *;
      apply Hins; cbn [client_uniqueID set_async_salt set_client_name set_client] in *;
      congruence.
  - destruct (flag_PIN_STDIN cfg).
    + unfold getline. destruct (stdin st);
        match goal with
        | |- context [getservercert P cfg ?s ?t ?p] =>
            pose proof (getservercert_uniqueID s t p);
            destruct (getservercert P cfg s t p)
        end;
        cbn [fst snd map_id_sess set_stdin set_map_id_sess] in *;
        apply Hins; cbn [client_uniqueID set_async_salt] in *; congruence.
    + cbn [fst map_id_sess set_map_id_sess]. apply Hins. exact Hptr.
Qed.

Lemma on_session_keyed (uniqID : string) (tree : ptree) (draws : nat) (st : state)
    (phase : pair_session_t -> result (pair_session_t * ptree)) :
  (forall s s' t, phase s = Ok (s', t) -> client_uniqueID s' = client_uniqueID s) ->
  keyed (map_id_sess st) ->
  keyed (map_id_sess (fst (on_session uniqID tree draws st phase))).
Proof.
  intros Hphase Hk. unfold on_session.
  destruct (map_id_sess st !! uniqID) as [sess|] eqn:E; cbn [deref bind]; [|exact Hk].
  destruct (phase sess) as [[s' t]| |] eqn:Eph; [|exact Hk|exact Hk].
  cbn [fst map_id_sess set_entropy set_map_id_sess].
  apply keyed_insert; [exact Hk|]. rewrite (Hphase _ _ _ Eph). now apply Hk.
Qed.

Lemma clientpairingsecret_keyed (uniqID : string) (sess : pair_session_t) (tree : ptree)
    (args : args_t) (st st' : state) (tree' : ptree) :
  keyed (map_id_sess st) ->
  map_id_sess st !! uniqID = Some sess ->
  clientpairingsecret P cfg uniqID sess tree args st = Ok (st', tree') ->
  keyed (map_id_sess st').
Proof.
  intros Hk Hsess. unfold clientpairingsecret, get_arg.
  destruct (args_find args "clientpairingsecret"); cbn [bind]; [|discriminate].
  destruct (_ <=? 16)%nat; [intros [= <- _]; exact Hk|].
  destruct (_ <? 32)%nat; [discriminate|].
  rewrite (Hk _ _ Hsess), lookup_insert_eq. cbn [deref bind].
  destruct (_ && _); intros [= <- _].
  - rewrite add_authorized_client_map. cbn [map_id_sess set_entropy set_map_id_sess].
    rewrite delete_insert_eq. now apply keyed_delete.
  - cbn [map_id_sess set_map_id_sess]. now apply keyed_delete.
Qed.

(** The invariant holds initially (the map is empty) and every [/pair]
    request and every [pin] call keeps it. *)
Lemma pair_keyed (rq : request) (st : state) :
  keyed (map_id_sess st) -> keyed (map_id_sess (fst (pair P cfg rq st))).
Proof.
  intros Hk. unfold pair.
  destruct (enable_pairing cfg); cbn [negb]; [|exact Hk].
  destruct (args_find (rq_args rq) "uniqueid") as [uniqID|]; [|exact Hk].
  destruct (args_find (rq_args rq) "phrase") as [phrase|].
  { destruct (String.eqb phrase "getservercert"); [now apply pair_getservercert_keyed|].
    destruct (String.eqb phrase "pairchallenge"); exact Hk. }
  destruct (args_find (rq_args rq) "clientchallenge").
  { apply on_session_keyed; [|exact Hk]. intros s0 s' t. unfold clientchallenge, get_arg.
    destruct (args_find _ _); cbn [bind]; [|discriminate].
    destruct (cipher_key s0); cbn [deref bind]; [|discriminate].
    now intros [= <- _]. }
  destruct (args_find (rq_args rq) "serverchallengeresp").
  { apply on_session_keyed; [|exact Hk]. intros s0 s' t. unfold serverchallengeresp, get_arg.
    destruct (args_find _ _); cbn [bind]; [|discriminate].
    destruct (cipher_key s0); cbn [deref bind]; [|discriminate].
    now intros [= <- _]. }
  destruct (args_find (rq_args rq) "clientpairingsecret"); [|exact Hk].
  destruct (map_id_sess st !! uniqID) as [sess|] eqn:E; cbn [deref bind]; [|exact Hk].
  destruct (clientpairingsecret P cfg uniqID sess [] (rq_args rq) st) as [[st' t]| |] eqn:E4;
    [|exact Hk|exact Hk].
  cbn [fst]. eapply clientpairingsecret_keyed; eassumption.
Qed.

Lemma pin_keyed (p name : string) (st : state) :
  keyed (map_id_sess st) -> keyed (map_id_sess (fst (pin P cfg p name st))).
Proof.
  intros Hk. unfold pin.
  destruct (map_to_list (map_id_sess st)) as [|[key sess] rest] eqn:E; [exact Hk|].
  destruct (negb _); [exact Hk|]. destruct (negb _); [exact Hk|].
  assert (map_id_sess st !! key = Some sess) as Hin.
  { apply elem_of_map_to_list. rewrite E. now left. }
  pose proof (getservercert_uniqueID sess [] p) as Hid.
  destruct (getservercert P cfg sess [] p) as [s' t]. cbn [fst] in Hid.
  assert (client_uniqueID s' = key) as Hs' by (rewrite Hid; now apply Hk).
  destruct (String.eqb name "");
    match goal with |- context [match async_response ?s with _ => _ end] =>
      destruct (async_response s) end;
    cbn [fst map_id_sess set_written set_map_id_sess];
    apply keyed_insert; try exact Hk; exact Hs'.
Qed.

End Keyed.

(** ** Phase 4 *)

Section Phase4.

Context (P : provider_t) (cfg : config_t).

(** C1 (as amended).  In a state whose sessions are stored under their own
    [uniqueID] (every reachable state, by [pair_keyed] and [pin_keyed]), a
    phase-4 request for a stored session whose [clienthash] is a 32-byte
    hash, with a decoded payload of more than 16 bytes split as [secret]
    (first 16 bytes) and [sign] (the rest), is accepted exactly when
    SHA-256(serverchallenge ++ signature(client cert) ++ secret) equals
    [clienthash] and [sign] verifies over [secret] under the client
    certificate.  Either way the session is erased and the answer has
    [status_code = 200].  On acceptance the answer is [paired = 1] and the
    certificate, named after the client with parentheses turned into
    brackets and carrying a generated uuid, is appended to the store; with
    [FRESH_STATE] set nothing is written, otherwise (state file readable and
    writable) the store is saved and reloaded, so that memory and file both
    hold the saved list.  On rejection the answer is [paired = 0] and store
    and file are untouched.

    Sessions whose [clienthash] has another length are outside this
    statement: the comparison runs over the 32 bytes of the computed hash
    without looking at the length of [clienthash]. *)
Theorem clientpairingsecret_accepts_iff
    (rq : request) (st : state) (uniqID arg : string) (sess : pair_session_t) :
  enable_pairing cfg = true ->
  is_phase4 rq uniqID arg ->
  keyed (map_id_sess st) ->
  map_id_sess st !! uniqID = Some sess ->
  (16 < String.length (util_from_hex_vec P arg))%nat ->
  String.length (clienthash sess) = 32%nat ->
  let payload := util_from_hex_vec P arg in
  let secret := substring 0 16 payload in
  let sign := Str.drop 16 payload in
  let expected_hash :=
    crypto_hash P (serverchallenge sess ++ crypto_signature P (client_cert sess) ++ secret) in
  let accepted :=
    expected_hash = clienthash sess
    /\ crypto_verify256 P (client_cert sess) secret sign = true in
  let named_cert :=
    mk_named_cert (brackets (client_name sess)) (client_cert sess)
      (uuid_generate P (entropy st)) in
  let store' := (client_root st ++ [named_cert])%list in
  let st' := fst (pair P cfg rq st) in
  let answer := snd (pair P cfg rq st) in
  map_id_sess st' = delete uniqID (map_id_sess st)
  /\ (accepted ->
      answer = Written [("root.paired", "1"); ("root.<xmlattr>.status_code", "200")]
      /\ (flag_FRESH_STATE cfg = true ->
          client_root st' = store' /\ disk st' = disk st)
      /\ (flag_FRESH_STATE cfg = false ->
          dk_file (disk st) <> FileCorrupt -> dk_writable (disk st) = true ->
          client_root st' = Store.save_nodes store'
          /\ exists other,
               dk_file (disk st') =
                 FileJson other
                   (Some (mk_json_root (Some (unique_id st)) []
                            (Some (Store.save_nodes store'))))))
  /\ (~ accepted ->
      answer = Written [("root.paired", "0"); ("root.<xmlattr>.status_code", "200")]
      /\ client_root st' = client_root st /\ disk st' = disk st).
Proof.
  intros He Hrq Hk Hsess Hlen Hhash. cbn zeta.
  pose proof (Hk _ _ Hsess) as Hkey.
  assert (substring 0 32 (clienthash sess) = clienthash sess) as Hwhole
    by (apply substring_0_all; lia).
  rewrite (pair_phase4 P cfg rq st uniqID arg sess He Hrq Hsess).
  destruct Hrq as (_ & _ & _ & _ & Harg).
  unfold clientpairingsecret, get_arg. rewrite Harg. cbn [bind].
  rewrite (proj2 (Nat.leb_gt _ _) Hlen), Hhash. cbn [Nat.ltb Nat.leb].
  rewrite Hkey, lookup_insert_eq. cbn [deref bind].
  rewrite delete_insert_eq.
  match goal with |- context [Str.memcmp_eq ?h ?c 32 && ?v] =>
    destruct (Str.memcmp_eq h c 32) eqn:Hm; [destruct v eqn:Hv|] end;
    cbn [andb fst snd].
  - apply memcmp_hash in Hm. rewrite Hwhole in Hm.
    split; [now rewrite add_authorized_client_map|].
    split; [|tauto]. intros _.
    split; [reflexivity|]. split.
    + intros Hf. rewrite (add_authorized_client_fresh P cfg _ _ Hf). now split.
    + intros Hf Hfile Hw.
      destruct (add_authorized_client_persists P cfg
                  (mk_named_cert (brackets (client_name sess)) (client_cert sess)
                     (uuid_generate P (entropy st)))
                  (set_entropy (S (entropy st))
                     (set_map_id_sess (delete uniqID (map_id_sess st)) st))
                  Hf Hfile Hw) as (Hroot & _ & Hdisk).
      split; [exact Hroot | exact Hdisk].
  - split; [reflexivity|]. split; [intros [_ Hv']; congruence|].
    intros _. repeat split.
  - split; [reflexivity|]. split.
    + intros [Hm' _]. rewrite <- Hwhole in Hm'. apply memcmp_hash in Hm'. congruence.
    + intros _. repeat split.
Qed.

End Phase4.


(** ** Phase 1: the three PIN paths *)

Section Phase1.

Context (P : provider_t) (cfg : config_t).

Lemma pair_phase1 (rq : request) (st : state) (uniqID dn cc salt : string) :
  enable_pairing cfg = true ->
  is_getservercert rq uniqID dn cc salt ->
  pair P cfg rq st = pair_getservercert P cfg uniqID rq [] st.
Proof.
  intros He (Hu & Hp & _). unfold pair. now rewrite He, Hu, Hp.
Qed.

Lemma pair_getservercert_async (rq : request) (st : state) (uniqID dn cc salt : string) :
  enable_pairing cfg = true ->
  is_getservercert rq uniqID dn cc salt ->
  args_find (rq_args rq) "otpauth" = None ->
  flag_PIN_STDIN cfg = false ->
  pair P cfg rq st =
    (set_map_id_sess
       (<[uniqID := set_async_response (Some (rq_response rq))
                      (phase1_session P st uniqID dn cc salt)]> (map_id_sess st)) st,
     Suspended).
Proof.
  intros He Hrq Ho Hs. rewrite (pair_phase1 _ _ _ _ _ _ He Hrq).
  destruct Hrq as (_ & _ & Hd & Hc & Hsalt).
  unfold pair_getservercert, phase1_session. rewrite Hd, Hc, Hsalt, Ho, Hs.
  cbn [client_uniqueID set_client].
  unfold emplace. destruct (map_id_sess st !! uniqID) as [old|]; [reflexivity|].
  now rewrite insert_insert_eq.
Qed.

Lemma pair_getservercert_stdin (rq : request) (st : state) (uniqID dn cc salt : string) :
  enable_pairing cfg = true ->
  is_getservercert rq uniqID dn cc salt ->
  args_find (rq_args rq) "otpauth" = None ->
  flag_PIN_STDIN cfg = true ->
  let line := fst (getline st) in
  let r := getservercert P cfg (phase1_session P st uniqID dn cc salt) [] line in
  pair P cfg rq st =
    (set_map_id_sess (<[uniqID := fst r]> (map_id_sess st)) (snd (getline st)),
     Written (snd r)).
Proof.
  intros He Hrq Ho Hs. cbn zeta. rewrite (pair_phase1 _ _ _ _ _ _ He Hrq).
  destruct Hrq as (_ & _ & Hd & Hc & Hsalt).
  unfold pair_getservercert, phase1_session. rewrite Hd, Hc, Hsalt, Ho, Hs.
  cbn [client_uniqueID set_client].
  unfold emplace, getline.
  destruct (map_id_sess st !! uniqID) as [old|]; destruct (stdin st);
    cbn [fst snd];
    match goal with |- context [getservercert P cfg ?s ?t ?p] =>
      destruct (getservercert P cfg s t p) end;
    cbn [fst snd map_id_sess set_stdin]; rewrite ?insert_insert_eq; reflexivity.
Qed.

(** The OTP path, in its three outcomes. *)
Lemma pair_getservercert_otp (rq : request) (st : state)
    (uniqID dn cc salt otpauth : string) :
  enable_pairing cfg = true ->
  is_getservercert rq uniqID dn cc salt ->
  args_find (rq_args rq) "otpauth" = Some otpauth ->
  let ptr := phase1_session P st uniqID dn cc salt in
  let o := otp st in
  let store s st := set_map_id_sess (<[uniqID := s]> (map_id_sess st)) st in
  let random tree st :=
    let r := getservercert P cfg ptr tree (crypto_rand P (entropy st) 16) in
    (set_entropy (S (entropy st)) (store (fst r) st), Written (snd r)) in
  pair P cfg rq st =
    if otp_unavailable cfg o (rq_now rq) then
      random
        (tree_put "root.<xmlattr>.status_message" "OTP auth not available."
           (tree_put_int "root.<xmlattr>.status_code" 503 []))
        (set_otp (otp_clear o) st)
    else if String.eqb
              (util_hex P (crypto_hash P (one_time_pin o ++ salt ++ otp_passphrase o)))
              otpauth then
      let named :=
        if String.eqb (otp_device_name o) "" then ptr
        else set_client_name (otp_device_name o) ptr in
      let r := getservercert P cfg named [] (one_time_pin o) in
      (set_otp (otp_clear o) (store (fst r) st), Written (snd r))
    else random [] st.
Proof.
  intros He Hrq Ho. cbn zeta. rewrite (pair_phase1 _ _ _ _ _ _ He Hrq).
  destruct Hrq as (_ & _ & Hd & Hc & Hsalt).
  unfold pair_getservercert, phase1_session. rewrite Hd, Hc, Hsalt, Ho.
  cbn [client_uniqueID set_client].
  unfold emplace.
  destruct (map_id_sess st !! uniqID) as [old|];
    destruct (otp_unavailable cfg (otp st) (rq_now rq));
    cbn [fst snd async_salt set_async_salt];
    repeat match goal with
      | |- context [if ?b then _ else _] => destruct b
      | |- context [getservercert P cfg ?s ?t ?p] =>
          destruct (getservercert P cfg s t p)
      end;
    cbn [fst snd map_id_sess set_otp entropy]; rewrite ?insert_insert_eq; reflexivity.
Qed.

End Phase1.

(** ** What the dispatcher does with repeated, OTP and malformed requests *)

Section Phase1Claims.

Context (P : provider_t) (cfg : config_t).

Lemma phase1_session_salt (st : state) (uniqID dn cc salt : string) :
  async_salt (phase1_session P st uniqID dn cc salt) = salt.
Proof. reflexivity. Qed.

(** C2.  The session map never holds two entries under one key.  But a
    [getservercert] request for a [uniqueid] that already has a session does
    not replace it: [emplace] keeps the stored entry, so the certificate,
    name, key, hash and nonces of the first request stay and only the salt
    (and the suspended response) are those of the second. *)
Theorem second_getservercert_keeps_first
    (rq : request) (st : state) (uniqID dn cc salt : string) (old : pair_session_t) :
  enable_pairing cfg = true ->
  is_getservercert rq uniqID dn cc salt ->
  args_find (rq_args rq) "otpauth" = None ->
  flag_PIN_STDIN cfg = false ->
  map_id_sess st !! uniqID = Some old ->
  let st' := fst (pair P cfg rq st) in
  NoDup (map fst (map_to_list (map_id_sess st')))
  /\ map_id_sess st' !! uniqID =
    Some (set_async_response (Some (rq_response rq)) (set_async_salt salt old))
  /\ exists kept,
       map_id_sess st' !! uniqID = Some kept
       /\ client_cert kept = client_cert old
       /\ client_name kept = client_name old
       /\ cipher_key kept = cipher_key old
       /\ clienthash kept = clienthash old
       /\ serversecret kept = serversecret old
       /\ serverchallenge kept = serverchallenge old.
Proof.
  intros He Hrq Ho Hs Hold. cbn zeta.
  split; [apply NoDup_fst_map_to_list|].
  rewrite (pair_getservercert_async P cfg rq st uniqID dn cc salt He Hrq Ho Hs).
  cbn [fst map_id_sess set_map_id_sess]. rewrite lookup_insert_eq.
  unfold phase1_session. rewrite Hold. split; [reflexivity|].
  eexists. split; [reflexivity|]. repeat split.
Qed.

(** C4.  A [getservercert] request carrying [otpauth] while no OTP is
    registered, or the registered one has expired, and whose salt has at
    least 32 characters: the OTP state is cleared, but the answer that leaves
    the handler has [status_code = 200] and [paired = 1]; the 503 written
    first is overwritten by the key derivation that follows, and only its
    message remains. *)
Theorem otp_unavailable_is_answered_200
    (rq : request) (st : state) (uniqID dn cc salt otpauth : string) :
  enable_pairing cfg = true ->
  is_getservercert rq uniqID dn cc salt ->
  args_find (rq_args rq) "otpauth" = Some otpauth ->
  otp_unavailable cfg (otp st) (rq_now rq) = true ->
  (32 <= String.length salt)%nat ->
  snd (pair P cfg rq st) =
    Written [("root.<xmlattr>.status_code", "200");
             ("root.<xmlattr>.status_message", "OTP auth not available.");
             ("root.paired", "1");
             ("root.plaincert", util_hex_vec P (servercert cfg))]
  /\ otp (fst (pair P cfg rq st)) = otp_clear (otp st).
Proof.
  intros He Hrq Ho Hu Hsalt.
  rewrite (pair_getservercert_otp P cfg rq st uniqID dn cc salt otpauth He Hrq Ho).
  cbn zeta. rewrite Hu. cbn [fst snd].
  rewrite getservercert_long by exact Hsalt. split; reflexivity.
Qed.

(** C6.  A request of phase 2, 3 or 4 whose [uniqueid] has no session
    dereferences the past-the-end iterator of the session map, and a request
    of phase 2 or 3 for a session whose key was never derived dereferences
    the null [cipher_key]: both are undefined behaviour. *)
Theorem pair_without_session_is_undefined
    (rq : request) (st : state) (uniqID : string) :
  enable_pairing cfg = true ->
  args_find (rq_args rq) "uniqueid" = Some uniqID ->
  args_find (rq_args rq) "phrase" = None ->
  let later_phase :=
    args_find (rq_args rq) "clientchallenge" <> None
    \/ args_find (rq_args rq) "serverchallengeresp" <> None
    \/ args_find (rq_args rq) "clientpairingsecret" <> None in
  let challenge_phase :=
    args_find (rq_args rq) "clientchallenge" <> None
    \/ args_find (rq_args rq) "serverchallengeresp" <> None in
  (later_phase -> map_id_sess st !! uniqID = None ->
     snd (pair P cfg rq st) = Crashed InvalidIterator)
  /\ (forall sess, challenge_phase -> map_id_sess st !! uniqID = Some sess ->
        cipher_key sess = None ->
        snd (pair P cfg rq st) = Crashed NullCipherKey).
Proof.
  intros He Hu Hp. cbn zeta. unfold pair, on_session. rewrite He, Hu, Hp. split.
  - intros Hlater Hnone. rewrite Hnone. cbn [deref bind].
    destruct (args_find (rq_args rq) "clientchallenge"); [reflexivity|].
    destruct (args_find (rq_args rq) "serverchallengeresp"); [reflexivity|].
    destruct (args_find (rq_args rq) "clientpairingsecret"); [reflexivity|].
    destruct Hlater as [H|[H|H]]; congruence.
  - intros sess Hphase Hsome Hkey. rewrite Hsome. cbn [deref bind].
    unfold clientchallenge, serverchallengeresp, get_arg.
    destruct (args_find (rq_args rq) "clientchallenge") eqn:E1.
    + cbn [bind]. rewrite Hkey. reflexivity.
    + destruct (args_find (rq_args rq) "serverchallengeresp") eqn:E2.
      * cbn [bind]. rewrite Hkey. reflexivity.
      * destruct Hphase as [H|H]; congruence.
Qed.

(** C5 (as amended).  With pairing enabled: a phase-4 request for a stored
    session whose decoded payload has 16 bytes or fewer is answered
    [paired = 0], [status_code = 400], "Clientpairingsecret too short", and
    leaves the whole state as it was.  A phase-1 request whose salt has fewer
    than 32 characters leaves store and state file alone but does put (or
    keep) a session under its [uniqueid], with that salt; it is answered
    [paired = 0], [status_code = 400], "Salt too short" when it carries
    [otpauth] or the PIN is read from standard input, and is suspended
    without an answer on the asynchronous path. *)
Theorem malformed_pair_requests (rq : request) (st : state) (uniqID : string) :
  enable_pairing cfg = true ->
  (forall arg sess,
     is_phase4 rq uniqID arg ->
     map_id_sess st !! uniqID = Some sess ->
     (String.length (util_from_hex_vec P arg) <= 16)%nat ->
     pair P cfg rq st =
       (st, Written [("root.paired", "0");
                     ("root.<xmlattr>.status_code", "400");
                     ("root.<xmlattr>.status_message",
                      "Clientpairingsecret too short")]))
  /\ (forall dn cc salt,
        is_getservercert rq uniqID dn cc salt ->
        (String.length salt < 32)%nat ->
        let st' := fst (pair P cfg rq st) in
        let answer := snd (pair P cfg rq st) in
        (exists sess, map_id_sess st' !! uniqID = Some sess /\ async_salt sess = salt)
        /\ client_root st' = client_root st
        /\ disk st' = disk st
        /\ (args_find (rq_args rq) "otpauth" <> None \/ flag_PIN_STDIN cfg = true ->
            exists t,
              answer = Written t
              /\ tree_get "root.paired" t = Some "0"
              /\ tree_get "root.<xmlattr>.status_code" t = Some "400"
              /\ tree_get "root.<xmlattr>.status_message" t = Some "Salt too short")
        /\ (args_find (rq_args rq) "otpauth" = None -> flag_PIN_STDIN cfg = false ->
            answer = Suspended)).
Proof.
  intros He. split.
  - intros arg sess Hrq Hsess Hlen.
    rewrite (pair_phase4 P cfg rq st uniqID arg sess He Hrq Hsess).
    destruct Hrq as (_ & _ & _ & _ & Harg).
    unfold clientpairingsecret, get_arg. rewrite Harg. cbn [bind].
    now rewrite (proj2 (Nat.leb_le _ _) Hlen).
  - intros dn cc salt Hrq Hsalt. cbn zeta.
    assert (forall tree pin,
              getservercert P cfg (phase1_session P st uniqID dn cc salt) tree pin =
                (phase1_session P st uniqID dn cc salt,
                 tree_put "root.<xmlattr>.status_message" "Salt too short"
                   (tree_put_int "root.<xmlattr>.status_code" 400
                      (tree_put_int "root.paired" 0 tree)))) as Hshort
      by (intros; now apply getservercert_short).
    assert (forall name tree pin,
              getservercert P cfg
                (set_client_name name (phase1_session P st uniqID dn cc salt)) tree pin =
                (set_client_name name (phase1_session P st uniqID dn cc salt),
                 tree_put "root.<xmlattr>.status_message" "Salt too short"
                   (tree_put_int "root.<xmlattr>.status_code" 400
                      (tree_put_int "root.paired" 0 tree)))) as Hshort'
      by (intros; now apply getservercert_short).
    destruct (args_find (rq_args rq) "otpauth") as [otpauth|] eqn:Ho.
    + rewrite (pair_getservercert_otp P cfg rq st uniqID dn cc salt otpauth He Hrq Ho).
      cbn zeta.
      destruct (otp_unavailable cfg (otp st) (rq_now rq));
        [|destruct (String.eqb _ otpauth);
          [destruct (String.eqb (otp_device_name (otp st)) "")|]];
        rewrite ?Hshort, ?Hshort'; cbn [fst snd map_id_sess set_entropy set_otp
          set_map_id_sess client_root disk]; rewrite lookup_insert_eq;
        (split; [eexists; split; [reflexivity | reflexivity]|]);
        (split; [reflexivity|]); (split; [reflexivity|]);
        (split; [intros _; eexists; split; [reflexivity|]; tree_lookup; repeat split
                | intros; congruence]).
    + destruct (flag_PIN_STDIN cfg) eqn:Hs.
      * rewrite (pair_getservercert_stdin P cfg rq st uniqID dn cc salt He Hrq Ho Hs).
        cbn zeta. rewrite Hshort. cbn [fst snd map_id_sess set_map_id_sess].
        rewrite lookup_insert_eq.
        split; [eexists; split; reflexivity|].
        unfold getline. destruct (stdin st); cbn [snd client_root disk set_map_id_sess set_stdin];
          (split; [reflexivity|]); (split; [reflexivity|]);
          (split; [intros _; eexists; split; [reflexivity|]; tree_lookup; repeat split
                  | intros; congruence]).
      * rewrite (pair_getservercert_async P cfg rq st uniqID dn cc salt He Hrq Ho Hs).
        cbn [fst snd map_id_sess set_map_id_sess]. rewrite lookup_insert_eq.
        split; [eexists; split; reflexivity|].
        split; [reflexivity|]. split; [reflexivity|].
        split; [intros [H|H]; congruence | reflexivity].
Qed.

End Phase1Claims.

(** ** Phase 1: missing parameters and the OTP path with a live OTP *)

Section Phase1Paths.

Context (P : provider_t) (cfg : config_t).

(** X10.  A phase-1 request that lacks [devicename] or [clientcert] throws before
    anything is stored; one that lacks [salt] throws after the session was
    emplaced.  In each case the tree the guard writes is empty. *)
Lemma pair_missing_parameter (rq : request) (st : state) (uniqID : string) :
  enable_pairing cfg = true ->
  args_find (rq_args rq) "uniqueid" = Some uniqID ->
  args_find (rq_args rq) "phrase" = Some "getservercert" ->
  (args_find (rq_args rq) "devicename" = None ->
     pair P cfg rq st = (st, Threw "devicename" []))
  /\ (forall dn, args_find (rq_args rq) "devicename" = Some dn ->
        args_find (rq_args rq) "clientcert" = None ->
        pair P cfg rq st = (st, Threw "clientcert" []))
  /\ (forall dn cc, args_find (rq_args rq) "devicename" = Some dn ->
        args_find (rq_args rq) "clientcert" = Some cc ->
        args_find (rq_args rq) "salt" = None ->
        snd (pair P cfg rq st) = Threw "salt" []
        /\ (map_id_sess st !! uniqID = None ->
            map_id_sess (fst (pair P cfg rq st)) !! uniqID =
              Some (set_client uniqID
                      (if String.eqb dn "roth" then "Legacy Moonlight Client" else dn)
                      (util_from_hex_vec P cc) pair_session_default))).
Proof.
  intros He Hu Hp. unfold pair, pair_getservercert. rewrite He, Hu, Hp.
  cbn [negb String.eqb]. split; [|split].
  - now intros ->.
  - now intros dn -> ->.
  - intros dn cc -> -> ->. cbn [client_uniqueID set_client]. unfold emplace.
    destruct (map_id_sess st !! uniqID) eqn:E; cbn [fst snd].
    + split; [reflexivity | discriminate].
    + split; [reflexivity|]. intros _. cbn [map_id_sess set_map_id_sess].
      apply lookup_insert_eq.
Qed.

(** X11.  With a registered, unexpired OTP and a salt of at least 32 characters:
    a matching [otpauth] derives the key from the OTP's PIN, renames the
    device when the OTP names one and clears the OTP; any other [otpauth]
    derives the key from 16 random bytes and gets the same positive answer. *)
Lemma pair_otp_available (rq : request) (st : state)
    (uniqID dn cc salt otpauth : string) :
  enable_pairing cfg = true ->
  is_getservercert rq uniqID dn cc salt ->
  args_find (rq_args rq) "otpauth" = Some otpauth ->
  otp_unavailable cfg (otp st) (rq_now rq) = false ->
  (32 <= String.length salt)%nat ->
  let o := otp st in
  let expected := util_hex P (crypto_hash P (one_time_pin o ++ salt ++ otp_passphrase o)) in
  let salt_bytes := util_from_hex P (substring 0 32 salt) in
  let st' := fst (pair P cfg rq st) in
  snd (pair P cfg rq st) =
    Written [("root.paired", "1");
             ("root.plaincert", util_hex_vec P (servercert cfg));
             ("root.<xmlattr>.status_code", "200")]
  /\ exists sess,
       map_id_sess st' !! uniqID = Some sess
       /\ (expected = otpauth ->
           cipher_key sess = Some (gen_aes_key P salt_bytes (one_time_pin o))
           /\ (otp_device_name o <> "" -> client_name sess = otp_device_name o)
           /\ otp st' = otp_clear o)
       /\ (expected <> otpauth ->
           cipher_key sess =
             Some (gen_aes_key P salt_bytes (crypto_rand P (entropy st) 16))
           /\ otp st' = o).
Proof.
  intros He Hrq Ho Hu Hsalt. cbn zeta.
  rewrite (pair_getservercert_otp P cfg rq st uniqID dn cc salt otpauth He Hrq Ho).
  cbn zeta. rewrite Hu.
  destruct (String.eqb _ otpauth) eqn:Em.
  - apply String.eqb_eq in Em.
    destruct (String.eqb (otp_device_name (otp st)) "") eqn:En;
      rewrite getservercert_long by exact Hsalt;
      cbn [fst snd map_id_sess otp set_otp set_map_id_sess];
      rewrite lookup_insert_eq; (split; [reflexivity|]);
      eexists; (split; [reflexivity|]); split; try (intros; congruence);
      intros _; (split; [reflexivity|]); split; try reflexivity.
    + apply String.eqb_eq in En. congruence.
  - apply String.eqb_neq in Em.
    rewrite getservercert_long by exact Hsalt.
    cbn [fst snd map_id_sess otp set_entropy set_otp set_map_id_sess].
    rewrite lookup_insert_eq. split; [reflexivity|].
    eexists. split; [reflexivity|]. split; [intros; congruence|].
    intros _. split; reflexivity.
Qed.

End Phase1Paths.

(** ** [pin] *)

Section Pin.

Context (P : provider_t) (cfg : config_t).

Lemma set_async_response_same (sess : pair_session_t) :
  set_async_response (async_response sess) sess = sess.
Proof. now destruct sess. Qed.

Lemma snoc_neq {A} (l : list A) (x : A) : (l ++ [x])%list <> l.
Proof.
  intros E. apply (f_equal (@List.length A)) in E.
  rewrite length_app in E. cbn in E. lia.
Qed.

Lemma pin_on_first (p name : string) (st : state) (key : string) (sess : pair_session_t) :
  head (map_to_list (map_id_sess st)) = Some (key, sess) ->
  String.length p = 4%nat ->
  Str.all_of Str.isdigit p = true ->
  let derived := getservercert P cfg sess [] p in
  let renamed :=
    if String.eqb name "" then fst derived else set_client_name name (fst derived) in
  pin P cfg p name st =
    match async_response sess with
    | Some h =>
        (set_written (written st ++ [(h, snd derived)])%list
           (set_map_id_sess
              (<[key := set_async_response None renamed]> (map_id_sess st)) st),
         true)
    | None =>
        (set_map_id_sess (<[key := renamed]> (map_id_sess st)) st, false)
    end.
Proof.
  intros Hhead Hlen Hdig. cbn zeta. unfold pin.
  destruct (map_to_list (map_id_sess st)) as [|[k s] rest]; [discriminate|].
  injection Hhead as -> ->.
  rewrite Hlen, Hdig. cbn [Nat.eqb negb].
  destruct (getservercert_frame P cfg sess [] p) as (_ & _ & _ & Hresp & _).
  destruct (getservercert P cfg sess [] p) as [sess' tree]. cbn [fst snd] in *.
  destruct (String.eqb name ""); cbn [async_response set_client_name set_client];
    rewrite Hresp; destruct (async_response sess); reflexivity.
Qed.

(** C7.  [pin p name] returns false, and changes nothing, when the session
    map is empty, when [p] does not have exactly 4 characters, or when one of
    them is not a decimal digit.  Otherwise it runs the key-derivation step
    with [p] on the first session of the map: for a salt of at least 32
    characters the session's [cipher_key] becomes the key derived from the
    salt and [p] and the answer is [paired = 1] with the server certificate
    and 200, for a shorter salt the key stays and the answer is the 400
    "Salt too short".  It then sets the client name to [name] when [name] is
    not empty, writes the answer to the suspended response of that session
    if it has one and clears the handle; nothing else of the session
    changes.  Its result is true exactly when the session held a suspended
    response, that is, exactly when a response was written. *)
Theorem pin_completes_first_session (p name : string) (st : state) :
  let r := pin P cfg p name st in
  (map_id_sess st = ∅ -> r = (st, false))
  /\ (String.length p <> 4%nat -> r = (st, false))
  /\ (Str.all_of Str.isdigit p = false -> r = (st, false))
  /\ (forall key sess,
        head (map_to_list (map_id_sess st)) = Some (key, sess) ->
        String.length p = 4%nat ->
        Str.all_of Str.isdigit p = true ->
        let long_salt := (32 <=? String.length (async_salt sess))%nat in
        let key' :=
          if long_salt then
            Some (gen_aes_key P (util_from_hex P (substring 0 32 (async_salt sess))) p)
          else cipher_key sess in
        let answer :=
          if long_salt then
            [("root.paired", "1"); ("root.plaincert", util_hex_vec P (servercert cfg));
             ("root.<xmlattr>.status_code", "200")]
          else
            [("root.paired", "0"); ("root.<xmlattr>.status_code", "400");
             ("root.<xmlattr>.status_message", "Salt too short")] in
        let name' := if String.eqb name "" then client_name sess else name in
        map_id_sess (fst r) =
          <[key := mk_pair_session (client_uniqueID sess) (client_cert sess) name' key'
                     (clienthash sess) (serversecret sess) (serverchallenge sess)
                     None (async_salt sess)]> (map_id_sess st)
        /\ written (fst r) =
             (written st ++
                match async_response sess with
                | Some h => [(h, answer)]
                | None => []
                end)%list
        /\ (snd r = true <-> async_response sess <> None)
        /\ (snd r = true <-> written (fst r) <> written st)
        /\ client_root (fst r) = client_root st
        /\ cert_chain (fst r) = cert_chain st
        /\ disk (fst r) = disk st
        /\ otp (fst r) = otp st
        /\ entropy (fst r) = entropy st).
Proof.
  cbn zeta. split; [|split; [|split]].
  - intros Hempty. unfold pin. now rewrite Hempty, map_to_list_empty.
  - intros Hlen. unfold pin.
    destruct (map_to_list (map_id_sess st)) as [|[k s] rest]; [reflexivity|].
    now rewrite (proj2 (Nat.eqb_neq _ _) Hlen).
  - intros Hdig. unfold pin.
    destruct (map_to_list (map_id_sess st)) as [|[k s] rest]; [reflexivity|].
    rewrite Hdig. now destruct (String.length p =? 4)%nat.
  - intros key sess Hhead Hlen Hdig.
    rewrite (pin_on_first p name st key sess Hhead Hlen Hdig). cbn zeta.
    destruct (Nat.leb_spec 32 (String.length (async_salt sess))) as [Hsalt|Hsalt];
      [rewrite (getservercert_long P cfg sess [] p Hsalt)
      |rewrite (getservercert_short P cfg sess [] p Hsalt)];
      cbn [fst snd];
      destruct sess as [uid cert cname ckey chash ssecret schallenge resp salt];
      cbn [async_response async_salt client_name cipher_key client_uniqueID client_cert
           clienthash serversecret serverchallenge] in *;
      destruct (String.eqb name ""), resp as [h|];
      cbn [fst snd map_id_sess written client_root cert_chain disk otp entropy
           set_written set_map_id_sess];
      (split; [reflexivity|]);
      (split; [rewrite ?app_nil_r; reflexivity|]);
      (split; [split; [try discriminate; reflexivity | try reflexivity; congruence]|]);
      (split; [split; [try discriminate; intros _; apply snoc_neq
                      | try reflexivity; congruence]|]);
      repeat split.
Qed.

(** C10 (as amended).  For a non-empty session map and a 4-digit [p], [pin]
    runs the key-derivation step on the first session and overwrites its name
    (when [name] is not empty) whether or not the session holds a suspended
    response: the stored session has its key re-derived when its salt has at
    least 32 characters and keeps its former key when the salt is shorter;
    without a suspended response the result is false all the same. *)
Theorem pin_mutates_before_checking
    (p name : string) (st : state) (key : string) (sess : pair_session_t) :
  head (map_to_list (map_id_sess st)) = Some (key, sess) ->
  String.length p = 4%nat ->
  Str.all_of Str.isdigit p = true ->
  let r := pin P cfg p name st in
  exists sess',
    map_id_sess (fst r) !! key = Some sess'
    /\ ((32 <= String.length (async_salt sess))%nat ->
        cipher_key sess' =
          Some (gen_aes_key P (util_from_hex P (substring 0 32 (async_salt sess))) p))
    /\ ((String.length (async_salt sess) < 32)%nat ->
        cipher_key sess' = cipher_key sess)
    /\ (name <> "" -> client_name sess' = name)
    /\ (name = "" -> client_name sess' = client_name sess)
    /\ (async_response sess = None -> snd r = false).
Proof.
  intros Hhead Hlen Hdig. cbn zeta.
  rewrite (pin_on_first p name st key sess Hhead Hlen Hdig). cbn zeta.
  assert (forall s, name <> "" -> (if String.eqb name "" then s else set_client_name name s)
                                  = set_client_name name s) as Hn.
  { intros s Hne. apply String.eqb_neq in Hne. now rewrite Hne. }
  destruct (async_response sess) eqn:E;
    cbn [fst snd map_id_sess set_written set_map_id_sess];
    rewrite lookup_insert_eq; eexists; (split; [reflexivity|]); repeat split.
  all: try (intros Hs; rewrite ?(getservercert_long P cfg _ _ _ Hs),
              ?(getservercert_short P cfg _ _ _ Hs);
            now destruct (String.eqb name "")).
  all: try (intros Hne; now rewrite (Hn _ Hne)).
  all: try (intros ->; cbn [String.eqb]; apply (getservercert_frame P cfg sess [] p)).
  all: try discriminate.
Qed.

End Pin.

(** ** [serverinfo] *)

(** C9 (as amended).  Over plaintext HTTP the answer reports the MAC
    00:00:00:00:00:00, has no [ServerCommand] child and [PairStatus = 0], and
    does not depend on the real MAC or on the configured commands at all.
    Over HTTPS the answer always carries the real MAC and one [ServerCommand]
    child per configured command, with or without [uniqueid] in the query;
    [PairStatus] is 1 exactly when the query has [uniqueid], else 0. *)
Theorem serverinfo_exposure (si : sysinfo_t) (unique_id : string) (args : args_t) :
  let http := serverinfo si unique_id false args in
  let https := serverinfo si unique_id true args in
  tree_get "root.mac" http = Some "00:00:00:00:00:00"
  /\ tree_children "root.ServerCommand" http = []
  /\ tree_get "root.PairStatus" http = Some "0"
  /\ (forall mac cmds,
        serverinfo (with_private mac cmds si) unique_id false args = http)
  /\ tree_get "root.mac" https = Some (get_mac_address si (local_address si))
  /\ tree_children "root.ServerCommand" https = server_cmds si
  /\ (tree_get "root.PairStatus" https = Some "1" <->
      args_find args "uniqueid" <> None)
  /\ (tree_get "root.PairStatus" https = Some "0" <->
      args_find args "uniqueid" = None).
Proof.
  cbn zeta.
  assert (tree_get "root.PairStatus" (serverinfo si unique_id true args) =
            Some (match args_find args "uniqueid" with
                  | Some _ => "1"
                  | None => "0"
                  end)) as Hps.
  { unfold serverinfo. tree_lookup. now destruct (args_find args "uniqueid"). }
  split; [|split; [|split; [|split; [|split; [|split; [|split]]]]]].
  - unfold serverinfo. destruct (local_is_plain_v6 si); tree_lookup; reflexivity.
  - unfold serverinfo. destruct (local_is_plain_v6 si); tree_lookup; reflexivity.
  - unfold serverinfo. tree_lookup. reflexivity.
  - intros mac cmds. reflexivity.
  - unfold serverinfo.
    match goal with |- context [fold_left ?f ?l ?t] =>
      destruct (server_commands_pushed l t) as [_ Hg]; cbn zeta in Hg end.
    destruct (local_is_plain_v6 si); tree_lookup; rewrite Hg by discriminate;
      tree_lookup; reflexivity.
  - unfold serverinfo.
    match goal with |- context [fold_left ?f ?l ?t] =>
      destruct (server_commands_pushed l t) as [Hc _]; cbn zeta in Hc end.
    destruct (local_is_plain_v6 si); tree_lookup; rewrite Hc; tree_lookup; reflexivity.
  - rewrite Hps. destruct (args_find args "uniqueid"); split; congruence.
  - rewrite Hps. destruct (args_find args "uniqueid"); split; congruence.
Qed.

(** ** Concrete runs

    The handlers evaluated on the [Toy] provider: instances of the theorems
    above and the inputs on which the specification and the code part. *)

Lemma toy_hash_size (data : string) : String.length (Toy.hash data) = 32%nat.
Proof.
  unfold Toy.hash. rewrite length_substring_0, length_append.
  change (String.length Toy.pad32) with 32%nat. lia.
Qed.

Module Run.

Definition toy : provider_t :=
  mk_provider Toy.hash toy_hash_size
    (fun cert => substring 0 4 cert)
    (fun key data => key ++ data)
    Toy.verify256
    (fun key data => data) (fun key data => data)
    Toy.rand Toy.uuid
    (fun s => s) (fun s => s) (fun s => s) (fun s => s).

(** Pairing enabled, certificate and key of the server, OTPs valid for 180
    clock units; the two flags vary. *)
Definition config (fresh_state pin_stdin : bool) : config_t :=
  mk_config true fresh_state pin_stdin "SERVERCERT" "SERVERKEY" 180.

(** No session, no client, no OTP, no state file yet. *)
Definition boot : state :=
  mk_state ∅ [] [] (mk_otp "" "" "" 0) "server-id" (mk_disk FileMissing true) 0 [] [].

Definition salt32 : string := "0123456789abcdef0123456789abcdef".

Definition getservercert_rq (name cert salt : string) : request :=
  mk_request false
    [("uniqueid", "u"); ("devicename", name); ("phrase", "getservercert");
     ("clientcert", cert); ("salt", salt)] 7 100.

Definition otp_rq : request :=
  mk_request false
    [("uniqueid", "u"); ("devicename", "A"); ("phrase", "getservercert");
     ("clientcert", "CERT1"); ("salt", salt32); ("otpauth", "ABCD")] 7 100.

(** A session that went through phases 1 to 3: the client's hash is in. *)
Definition session (clienthash : string) : pair_session_t :=
  mk_pair_session "u" "CERT1" "Pixel (7)" (Some "0123456789abcdef") clienthash
    "ssssssssssssssss" "CCCCCCCCCCCCCCCC" None salt32.

Definition with_session (sess : pair_session_t) : state :=
  set_map_id_sess {["u" := sess]} boot.

(** The hash the server expects for the secret below. *)
Definition expected_hash : string := "CCCCCCCCCCCCCCCCCERTSSSSSSSSSSSS".

Definition secret_rq : request :=
  mk_request true
    [("uniqueid", "u"); ("clientpairingsecret", "SSSSSSSSSSSSSSSSCERT1SSSSSSSSSSSSSSSS")]
    9 100.

Definition sysinfo : sysinfo_t :=
  mk_sysinfo "host" "0.1" "3.23" 47984 47989 0 0 false false false ["reboot"]
    (fun _ => "aa:bb:cc:dd:ee:ff") "192.168.1.2" false 0.

End Run.

Import Run.

(** C1, counterexample.  With [FRESH_STATE] set an accepted pairing is not
    persisted: the hash matches, the signature verifies, the answer is
    [paired = 1] and the client is in the store, and the state file still
    does not exist. *)
Lemma clientpairingsecret_counterexample :
  let r := pair toy (config true false) secret_rq (with_session (session expected_hash)) in
  crypto_hash toy ("CCCCCCCCCCCCCCCC" ++ crypto_signature toy "CERT1"
                     ++ "SSSSSSSSSSSSSSSS") = expected_hash
  /\ crypto_verify256 toy "CERT1" "SSSSSSSSSSSSSSSS" "CERT1SSSSSSSSSSSSSSSS" = true
  /\ snd r = Written [("root.paired", "1"); ("root.<xmlattr>.status_code", "200")]
  /\ client_root (fst r) = [mk_named_cert "Pixel [7]" "CERT1" "uuid-0"]
  /\ dk_file (disk (fst r)) = FileMissing.
Proof. vm_compute. repeat split. Qed.

Lemma clientpairingsecret_accepts_iff_witness :
  let r := pair toy (config false false) secret_rq (with_session (session expected_hash)) in
  map_id_sess (fst r) = ∅
  /\ snd r = Written [("root.paired", "1"); ("root.<xmlattr>.status_code", "200")]
  /\ client_root (fst r) = [mk_named_cert "Pixel [7]" "CERT1" "uuid-0"]
  /\ dk_file (disk (fst r)) =
       FileJson []
         (Some (mk_json_root (Some "server-id") []
                  (Some [mk_named_cert "Pixel [7]" "CERT1" "uuid-0"]))).
Proof.
  destruct (clientpairingsecret_accepts_iff toy (config false false) secret_rq
              (with_session (session expected_hash)) "u"
              "SSSSSSSSSSSSSSSSCERT1SSSSSSSSSSSSSSSS" (session expected_hash))
    as (Hmap & Hacc & _).
  - reflexivity.
  - repeat split.
  - apply keyed_insert; [apply keyed_empty | reflexivity].
  - reflexivity.
  - vm_compute. lia.
  - reflexivity.
  - destruct Hacc as (Hans & _ & Hpersist).
    + split; reflexivity.
    + destruct Hpersist as (Hroot & other & Hfile); [reflexivity | discriminate | reflexivity |].
      cbn zeta. split; [exact Hmap|]. split; [exact Hans|]. split; [exact Hroot|].
      vm_compute. reflexivity.
Defined.

Lemma second_getservercert_keeps_first_witness :
  let first := fst (pair toy (config false false) (getservercert_rq "A" "CERT1" salt32) boot) in
  let second :=
    fst (pair toy (config false false)
           (getservercert_rq "B" "CERT2" "ffffffffffffffffffffffffffffffff") first) in
  exists kept,
    map_id_sess second !! "u" = Some kept
    /\ client_cert kept = "CERT1"
    /\ client_name kept = "A"
    /\ async_salt kept = "ffffffffffffffffffffffffffffffff".
Proof.
  cbn zeta.
  destruct (second_getservercert_keeps_first toy (config false false)
              (getservercert_rq "B" "CERT2" "ffffffffffffffffffffffffffffffff")
              (fst (pair toy (config false false) (getservercert_rq "A" "CERT1" salt32) boot))
              "u" "B" "CERT2" "ffffffffffffffffffffffffffffffff"
              (mk_pair_session "u" "CERT1" "A" None "" "" "" (Some (resp_http 7)) salt32))
    as (_ & Hstored & _).
  - reflexivity.
  - repeat split.
  - reflexivity.
  - reflexivity.
  - vm_compute. reflexivity.
  - eexists. split; [exact Hstored|]. repeat split.
Defined.

Lemma getservercert_derives_key_witness :
  let r := getservercert toy (config false false) (session "") [] "1234" in
  cipher_key (fst r) = Some "0123456789abcdef"
  /\ snd r = [("root.paired", "1"); ("root.plaincert", "SERVERCERT");
              ("root.<xmlattr>.status_code", "200")].
Proof.
  destruct (getservercert_derives_key toy (config false false) (session "") [] "1234")
    as (_ & Hkey & _ & _ & _ & _ & Htree & _).
  - vm_compute. lia.
  - split; [exact Hkey | exact (Htree eq_refl)].
Defined.

Lemma otp_unavailable_is_answered_200_witness :
  snd (pair toy (config false false) otp_rq boot) =
    Written [("root.<xmlattr>.status_code", "200");
             ("root.<xmlattr>.status_message", "OTP auth not available.");
             ("root.paired", "1"); ("root.plaincert", "SERVERCERT")].
Proof.
  destruct (otp_unavailable_is_answered_200 toy (config false false) otp_rq boot
              "u" "A" "CERT1" salt32 "ABCD") as (Hans & _).
  - reflexivity.
  - repeat split.
  - reflexivity.
  - reflexivity.
  - vm_compute. lia.
  - exact Hans.
Defined.

(** C5, counterexample.  A phase-1 request with the 4-character salt "abcd",
    the PIN read from standard input: the answer is the 400 "Salt too short",
    and the session map, empty before, now holds a session for the client.
    The same request on the asynchronous path gets no answer at all. *)
Lemma malformed_pair_requests_counterexample :
  let rq := getservercert_rq "A" "CERT1" "abcd" in
  let r := pair toy (config false true) rq boot in
  snd r = Written [("root.paired", "0"); ("root.<xmlattr>.status_code", "400");
                   ("root.<xmlattr>.status_message", "Salt too short")]
  /\ map_id_sess boot !! "u" = None
  /\ map_id_sess (fst r) !! "u" =
       Some (mk_pair_session "u" "CERT1" "A" None "" "" "" None "abcd")
  /\ snd (pair toy (config false false) rq boot) = Suspended.
Proof. vm_compute. repeat split. Qed.

Lemma malformed_pair_requests_witness :
  pair toy (config false false)
    (mk_request true [("uniqueid", "u"); ("clientpairingsecret", "SSSS")] 9 100)
    (with_session (session expected_hash)) =
  (with_session (session expected_hash),
   Written [("root.paired", "0"); ("root.<xmlattr>.status_code", "400");
            ("root.<xmlattr>.status_message", "Clientpairingsecret too short")]).
Proof.
  destruct (malformed_pair_requests toy (config false false)
              (mk_request true [("uniqueid", "u"); ("clientpairingsecret", "SSSS")] 9 100)
              (with_session (session expected_hash)) "u") as (Hshort & _).
  - reflexivity.
  - apply (Hshort "SSSS" (session expected_hash)).
    + repeat split.
    + reflexivity.
    + vm_compute. lia.
Defined.

Lemma pair_without_session_is_undefined_witness :
  snd (pair toy (config false false)
         (mk_request false [("uniqueid", "u"); ("clientchallenge", "00")] 7 100) boot) =
    Crashed InvalidIterator
  /\ snd (pair toy (config false false)
            (mk_request false [("uniqueid", "u"); ("clientchallenge", "00")] 7 100)
            (fst (pair toy (config false false) (getservercert_rq "A" "CERT1" salt32) boot))) =
       Crashed NullCipherKey.
Proof.
  split.
  - destruct (pair_without_session_is_undefined toy (config false false)
                (mk_request false [("uniqueid", "u"); ("clientchallenge", "00")] 7 100)
                boot "u") as (Hend & _); [reflexivity | reflexivity | reflexivity |].
    apply Hend; [left; discriminate | reflexivity].
  - destruct (pair_without_session_is_undefined toy (config false false)
                (mk_request false [("uniqueid", "u"); ("clientchallenge", "00")] 7 100)
                (fst (pair toy (config false false) (getservercert_rq "A" "CERT1" salt32) boot))
                "u") as (_ & Hnull); [reflexivity | reflexivity | reflexivity |].
    apply (Hnull (mk_pair_session "u" "CERT1" "A" None "" "" "" (Some (resp_http 7)) salt32));
      [left; discriminate | vm_compute; reflexivity | reflexivity].
Defined.

(** C9, counterexample.  An HTTPS request without [uniqueid]: the answer
    carries the real MAC and the configured command, with [PairStatus = 0]. *)
Lemma serverinfo_exposure_counterexample :
  let t := serverinfo sysinfo "server-id" true [] in
  args_find [] "uniqueid" = None
  /\ tree_get "root.mac" t = Some "aa:bb:cc:dd:ee:ff"
  /\ tree_children "root.ServerCommand" t = ["reboot"]
  /\ tree_get "root.PairStatus" t = Some "0".
Proof. vm_compute. repeat split. Qed.

(** C10, counterexample.  The first session has the salt "abcd" and no
    suspended response: [pin] with a 4-digit PIN returns false and the key of
    the session is not derived. *)
Lemma pin_mutates_before_checking_counterexample :
  let sess := mk_pair_session "u" "CERT1" "A" None "" "" "" None "abcd" in
  let r := pin toy (config false false) "1234" "" (with_session sess) in
  snd r = false
  /\ map_id_sess (fst r) !! "u" = Some sess
  /\ cipher_key sess = None.
Proof. vm_compute. repeat split. Qed.

Lemma pin_mutates_before_checking_witness :
  let sess := mk_pair_session "u" "CERT1" "A" None "" "" "" None salt32 in
  let r := pin toy (config false false) "1234" "Phone" (with_session sess) in
  snd r = false
  /\ exists sess',
       map_id_sess (fst r) !! "u" = Some sess'
       /\ cipher_key sess' = Some "0123456789abcdef"
       /\ client_name sess' = "Phone".
Proof.
  cbn zeta.
  destruct (pin_mutates_before_checking toy (config false false) "1234" "Phone"
              (with_session (mk_pair_session "u" "CERT1" "A" None "" "" "" None salt32))
              "u" (mk_pair_session "u" "CERT1" "A" None "" "" "" None salt32))
    as (sess' & Hstored & Hkey & _ & Hname & _ & Hfalse).
  - vm_compute. reflexivity.
  - reflexivity.
  - reflexivity.
  - split; [exact (Hfalse eq_refl)|].
    exists sess'. split; [exact Hstored|]. split.
    + apply Hkey. vm_compute. lia.
    + apply Hname. discriminate.
Defined.

Lemma pin_completes_first_session_witness :
  let suspended := fst (pair toy (config false false) (getservercert_rq "A" "CERT1" salt32) boot) in
  let r := pin toy (config false false) "1234" "Phone" suspended in
  snd r = true
  /\ map_id_sess (fst r) =
       {["u" := mk_pair_session "u" "CERT1" "Phone" (Some "0123456789abcdef")
                  "" "" "" None salt32]}
  /\ written (fst r) =
       [(resp_http 7,
         [("root.paired", "1"); ("root.plaincert", "SERVERCERT");
          ("root.<xmlattr>.status_code", "200")])]
  /\ pin toy (config false false) "12a4" "Phone" suspended = (suspended, false).
Proof.
  cbn zeta.
  destruct (pin_completes_first_session toy (config false false) "1234" "Phone"
              (fst (pair toy (config false false) (getservercert_rq "A" "CERT1" salt32) boot)))
    as (_ & _ & _ & Hrun).
  destruct (Hrun "u" (mk_pair_session "u" "CERT1" "A" None "" "" "" (Some (resp_http 7)) salt32))
    as (Hmap & Hwritten & Htrue & _); [vm_compute; reflexivity | reflexivity | reflexivity |].
  split; [apply Htrue; discriminate|].
  split; [rewrite Hmap; vm_compute; reflexivity|].
  split; [exact Hwritten|].
  destruct (pin_completes_first_session toy (config false false) "12a4" "Phone"
              (fst (pair toy (config false false) (getservercert_rq "A" "CERT1" salt32) boot)))
    as (_ & _ & Hdigits & _).
  apply Hdigits. reflexivity.
Defined.

(** C8, counterexample.  The base name is the name cut at its first " (",
    whatever follows: a single device named "Phone (2)", colliding with
    nothing, is saved as "Phone"; "John (work) laptop", which ends in no
    " (...)" suffix, is saved as "John"; and two devices named "A (x) B" are
    saved as "A" and "A (2)". *)
Lemma save_state_dedups_and_renames_counterexample :
  Store.save_nodes [mk_named_cert "Phone (2)" "c1" "u1"] =
    [mk_named_cert "Phone" "c1" "u1"]
  /\ Store.save_nodes [mk_named_cert "John (work) laptop" "c1" "u1"] =
       [mk_named_cert "John" "c1" "u1"]
  /\ Store.save_nodes
       [mk_named_cert "A (x) B" "c1" "u1"; mk_named_cert "A (x) B" "c2" "u2"] =
       [mk_named_cert "A" "c1" "u1"; mk_named_cert "A (2)" "c2" "u2"].
Proof. vm_compute. repeat split. Qed.

Lemma save_state_dedups_and_renames_witness :
  Store.save_nodes
    [mk_named_cert "Phone" "c1" "u1"; mk_named_cert "Phone" "c2" "u2";
     mk_named_cert "Phone (2)" "c1" "u3"; mk_named_cert "Phone (2)" "c3" "u4"] !! 2%nat =
  Some (mk_named_cert "Phone (3)" "c3" "u4").
Proof.
  destruct (save_state_dedups_and_renames
              [mk_named_cert "Phone" "c1" "u1"; mk_named_cert "Phone" "c2" "u2";
               mk_named_cert "Phone (2)" "c1" "u3"; mk_named_cert "Phone (2)" "c3" "u4"])
    as (_ & _ & _ & _ & _ & _ & Hname & _).
  apply (Hname 2%nat (mk_named_cert "Phone (2)" "c3" "u4")). vm_compute. reflexivity.
Defined.

Lemma serverinfo_exposure_witness :
  tree_get "root.PairStatus"
    (serverinfo sysinfo "server-id" true [("uniqueid", "u")]) = Some "1".
Proof.
  destruct (serverinfo_exposure sysinfo "server-id" [("uniqueid", "u")])
    as (_ & _ & _ & _ & _ & _ & Hone & _).
  apply Hone. discriminate.
Defined.

(** * Part III: the rest of the client store and of the handlers

    Properties of [save_state], [load_state], [unpair_client],
    [erase_all_clients], [request_otp], of the dispatch and the phases of
    [pair], of [serverinfo] and of [launch], [resume] and [cancel], read off
    the code. *)

(** ** The store is stable under saving *)

Section SaveStable.

Import Store SaveSpec.

Lemma prefix_pending_single (c : ascii) : String.prefix " (" (String c "") = false.
Proof. cbn [String.prefix]. now destruct (ascii_dec " " c). Qed.

Lemma prefix_pending_take (c : ascii) (s : string) (p : nat) :
  String.prefix " (" (String c s) = false ->
  String.prefix " (" (String c (substring 0 p s)) = false.
Proof.
  destruct p as [|p], s as [|d s]; cbn [substring]; intros H;
    try apply prefix_pending_single.
  rewrite prefix_pending_cons in *. exact H.
Qed.

(** The base name holds no " (" any more. *)
Lemma base_name_clean (name : string) :
  String.index 0 " (" (base_name name) = None.
Proof.
  unfold base_name. destruct (String.index 0 " (" name) as [pos|] eqn:E; [|exact E].
  revert pos E. induction name as [|c s IH]; intros pos E.
  - discriminate.
  - rewrite index_pending_cons in E.
    destruct (String.prefix " (" (String c s)) eqn:Hp.
    + injection E as <-. reflexivity.
    + destruct (String.index 0 " (" s) as [p|] eqn:Es; [|discriminate].
      injection E as <-. cbn [substring].
      rewrite index_pending_cons, (prefix_pending_take c s p Hp), (IH p eq_refl).
      reflexivity.
Qed.

Lemma base_name_idem (name : string) : base_name (base_name name) = base_name name.
Proof. apply base_name_plain, base_name_clean. Qed.

Lemma base_name_display (name : string) (n : nat) :
  base_name (display_name (base_name name) n) = base_name name.
Proof.
  destruct n as [|n]; cbn [display_name]; [apply base_name_idem|].
  apply base_name_strips, base_name_clean.
Qed.

Lemma first_by_cert_NoDup_id (l : list named_cert_t) :
  NoDup (map nc_cert l) -> first_by_cert l = l.
Proof.
  induction l as [|a l IH]; cbn [first_by_cert map]; [reflexivity|].
  intros Hnd. apply NoDup_cons in Hnd as [Ha Hnd]. rewrite (IH Hnd). f_equal.
  clear IH Hnd. induction l as [|b l IH]; [reflexivity|].
  cbn [map] in Ha. apply not_elem_of_cons in Ha as [Hab Ha].
  rewrite filter_cons_True by congruence. f_equal. now apply IH.
Qed.

Lemma count_same_base (l1 l2 : list named_cert_t) (b : string) :
  map (fun x => base_name (nc_name x)) l1 = map (fun x => base_name (nc_name x)) l2 ->
  length (filter (same_base b) l1) = length (filter (same_base b) l2).
Proof.
  revert l2. induction l1 as [|x l1 IH]; intros [|y l2] E; try discriminate; [reflexivity|].
  cbn [map] in E. injection E as Exy E.
  destruct (decide (same_base b x)) as [Hx|Hx].
  - rewrite !filter_cons_True; [|unfold same_base in *; congruence|exact Hx].
    cbn [length]. f_equal. now apply IH.
  - rewrite !filter_cons_False; [|unfold same_base in *; congruence|exact Hx].
    now apply IH.
Qed.

Lemma nodes_bases (l : list named_cert_t) :
  map (fun x => base_name (nc_name x)) (nodes l) =
  map (fun x => base_name (nc_name x)) (first_by_cert l).
Proof.
  apply list_eq. intros k.
  change (map (fun x => base_name (nc_name x)))
    with (fmap (M := list) (fun x => base_name (nc_name x))).
  rewrite !list_lookup_fmap, nodes_lookup.
  destruct (first_by_cert l !! k) as [x|]; [|reflexivity].
  cbn. f_equal. apply base_name_display.
Qed.

Lemma take_map_bases (k : nat) (l : list named_cert_t) :
  map (fun x => base_name (nc_name x)) (take k l) =
  take k (map (fun x => base_name (nc_name x)) l).
Proof.
  change (map (fun x => base_name (nc_name x)))
    with (fmap (M := list) (fun x => base_name (nc_name x))).
  apply fmap_take.
Qed.

Lemma nodes_idem (l : list named_cert_t) : nodes (nodes l) = nodes l.
Proof.
  assert (first_by_cert (nodes l) = nodes l) as Hfix.
  { apply first_by_cert_NoDup_id. rewrite nodes_certs. apply first_by_cert_NoDup. }
  unfold nodes at 1. rewrite Hfix.
  apply list_eq. intros k. rewrite list_lookup_imap, nodes_lookup.
  destruct (first_by_cert l !! k) as [x|] eqn:Ek; [|reflexivity].
  cbn [fmap option_fmap option_map]. f_equal.
  unfold disambiguate at 1. cbn [nc_name nc_cert nc_uuid disambiguate].
  rewrite base_name_display. unfold disambiguate. f_equal. f_equal.
  unfold earlier. apply count_same_base.
  rewrite !take_map_bases. f_equal. apply nodes_bases.
Qed.

(** Saving what a save wrote changes nothing more. *)
Lemma save_nodes_idem (l : list named_cert_t) :
  save_nodes (save_nodes l) = save_nodes l.
Proof. rewrite !save_nodes_refines. apply nodes_idem. Qed.

Lemma append_cons (c : ascii) (s t : string) : String c s ++ t = String c (s ++ t).
Proof. reflexivity. Qed.

Lemma append_cancel_l (b s t : string) : b ++ s = b ++ t -> s = t.
Proof.
  induction b as [|c b IH]; intros H; [exact H|].
  rewrite !append_cons in H. injection H as H. now apply IH.
Qed.

Lemma append_paren_cancel (s t : string) : s ++ ")" = t ++ ")" -> s = t.
Proof.
  revert t. induction s as [|c s IH]; intros [|d t] H; rewrite ?append_cons in H.
  - reflexivity.
  - injection H as _ H. destruct t; discriminate.
  - injection H as _ H. destruct s; discriminate.
  - injection H as -> H. f_equal. now apply IH.
Qed.

Lemma display_name_inj (b : string) (n m : nat) :
  display_name b n = display_name b m -> n = m.
Proof.
  assert (forall k, b <> b ++ " (" ++ pretty (S k) ++ ")") as Hlen.
  { intros k E. apply (f_equal String.length) in E.
    rewrite !length_append in E. cbn [String.length] in E. lia. }
  destruct n as [|n], m as [|m]; cbn [display_name]; intros E;
    [reflexivity | now apply Hlen in E | symmetry in E; now apply Hlen in E |].
  apply append_cancel_l, (append_cancel_l " (") in E.
  apply append_paren_cancel in E. apply (inj pretty) in E. lia.
Qed.

(** No two entries of a saved list carry the same display name. *)
Lemma nodes_names_NoDup (l : list named_cert_t) : NoDup (map nc_name (nodes l)).
Proof.
  apply NoDup_alt. intros i j name Hi Hj.
  change (map nc_name) with (fmap (M := list) nc_name) in Hi, Hj.
  rewrite list_lookup_fmap, nodes_lookup in Hi, Hj.
  destruct (first_by_cert l !! i) as [x|] eqn:Ei; [|discriminate].
  destruct (first_by_cert l !! j) as [y|] eqn:Ej; [|discriminate].
  cbn in Hi, Hj. injection Hi as Hi. injection Hj as Hj.
  assert (base_name (nc_name x) = base_name (nc_name y)) as Hb.
  { rewrite <- (base_name_display (nc_name x) (earlier (first_by_cert l) i (base_name (nc_name x)))).
    rewrite <- (base_name_display (nc_name y) (earlier (first_by_cert l) j (base_name (nc_name y)))).
    congruence. }
  rewrite <- Hj, <- Hb in Hi. apply display_name_inj in Hi. unfold earlier in Hi.
  destruct (Nat.lt_trichotomy i j) as [Hlt|[Heq|Hlt]]; [|exact Heq|]; exfalso.
  - assert (same_base (base_name (nc_name x)) x) as Hx by reflexivity.
    rewrite <- (take_drop i (take j (first_by_cert l))) in Hi.
    rewrite take_take, Nat.min_l, filter_app, length_app in Hi by lia.
    rewrite (drop_S _ x i) in Hi by (rewrite lookup_take_lt by lia; exact Ei).
    rewrite filter_cons_True in Hi by exact Hx. cbn [length] in Hi. lia.
  - assert (same_base (base_name (nc_name x)) y) as Hy by (unfold same_base; congruence).
    rewrite <- (take_drop j (take i (first_by_cert l))) in Hi.
    rewrite take_take, Nat.min_l, filter_app, length_app in Hi by lia.
    rewrite (drop_S _ y j) in Hi by (rewrite lookup_take_lt by lia; exact Ej).
    rewrite filter_cons_True in Hi by exact Hy. cbn [length] in Hi. lia.
Qed.

(** X1.  Saving is idempotent and leaves no two entries with the same
    name: the list [save_state] writes is a fixed point of the loop, its
    names are pairwise distinct, and a second save of that list leaves the
    state file as the first one left it. *)
Theorem save_is_idempotent (l : list named_cert_t) :
  save_nodes (save_nodes l) = save_nodes l
  /\ NoDup (map nc_name (save_nodes l))
  /\ (forall unique_id disk,
        save_state unique_id (save_nodes l) (save_state unique_id l disk) =
          save_state unique_id l disk).
Proof.
  split; [apply save_nodes_idem|].
  split; [rewrite save_nodes_refines; apply nodes_names_NoDup|].
  intros unique_id [file writable]. unfold save_state. cbn [dk_file dk_writable].
  destruct file as [| |other root], writable; cbn [dk_file dk_writable];
    rewrite ?save_nodes_idem; reflexivity.
Qed.

End SaveStable.

(** ** Saving, loading, unpairing, erasing *)

Section StoreOps.

Context (P : provider_t).

Lemma import_legacy_spec (certs : list string) (e : nat) :
  let r := import_legacy P certs e in
  map nc_cert (fst r) = certs
  /\ map nc_name (fst r) = map (fun _ => "") certs
  /\ map nc_uuid (fst r) = map (uuid_generate P) (seq e (length certs))
  /\ snd r = (e + length certs)%nat.
Proof.
  cbn zeta. revert e. induction certs as [|c certs IH]; intros e.
  - cbn. repeat split. lia.
  - cbn [import_legacy]. destruct (IH (S e)) as (Hc & Hn & Hu & He).
    destruct (import_legacy P certs (S e)) as [l e']. cbn [fst snd] in *.
    cbn [map length seq]. rewrite Hc, Hn, Hu, He. repeat split. lia.
Qed.

Lemma save_and_load_readable (st : state) :
  dk_file (disk st) <> FileCorrupt ->
  dk_writable (disk st) = true ->
  let st' := save_and_load P st in
  let nodes := Store.save_nodes (client_root st) in
  client_root st' = nodes
  /\ cert_chain st' = nodes
  /\ unique_id st' = unique_id st
  /\ entropy st' = entropy st
  /\ map_id_sess st' = map_id_sess st
  /\ otp st' = otp st
  /\ exists other,
       disk st' =
         mk_disk (FileJson other
                    (Some (mk_json_root (Some (unique_id st)) [] (Some nodes)))) true.
Proof.
  intros Hfile Hw. cbn zeta. unfold save_and_load, Store.save_state. rewrite Hw.
  destruct (dk_file (disk st)) as [| |other root] eqn:E; [|congruence|];
    unfold load_state; cbn; repeat split; eauto.
Qed.

(** X3.  [save_state] followed by [load_state] on a readable and writable
    state file: the store becomes the deduplicated, renamed list, the
    certificate chain is rebuilt from it, the server's id is kept, no uuid
    is drawn, the pairing sessions are untouched, and doing both again
    changes nothing. *)
Theorem save_then_load_is_stable (st : state) :
  dk_file (disk st) <> FileCorrupt ->
  dk_writable (disk st) = true ->
  let st' := save_and_load P st in
  client_root st' = Store.save_nodes (client_root st)
  /\ cert_chain st' = client_root st'
  /\ unique_id st' = unique_id st
  /\ entropy st' = entropy st
  /\ map_id_sess st' = map_id_sess st
  /\ save_and_load P st' = st'.
Proof.
  intros Hfile Hw. cbn zeta.
  destruct (save_and_load_readable st Hfile Hw)
    as (Hroot & Hchain & Hid & He & Hmap & Hotp & other & Hdisk).
  split; [exact Hroot|]. split; [congruence|]. split; [exact Hid|].
  split; [exact He|]. split; [exact Hmap|].
  set (st' := save_and_load P st) in *.
  unfold save_and_load at 1, Store.save_state. rewrite Hdisk. cbn [dk_file dk_writable].
  rewrite Hroot, save_nodes_idem, Hid. unfold load_state.
  cbn [disk set_disk dk_file jr_uniqueid jr_devices jr_named_devices map concat
       import_legacy entropy default app].
  destruct st' as [m root chain o uid d e inp w]. cbn in *. subst. reflexivity.
Qed.

Lemma unpair_loop_spec (uuid : string) (l : list named_cert_t) :
  unpair_loop uuid l =
    (filter (fun d => nc_uuid d <> uuid) l,
     length (filter (fun d => nc_uuid d = uuid) l)).
Proof.
  induction l as [|d l IH]; [reflexivity|].
  cbn [unpair_loop]. rewrite IH.
  destruct (String.eqb_spec (nc_uuid d) uuid) as [E|N].
  - rewrite filter_cons_False by tauto. now rewrite filter_cons_True by exact E.
  - rewrite filter_cons_True by exact N. now rewrite filter_cons_False by exact N.
Qed.

Lemma save_nodes_uuids_subset (l : list named_cert_t) (u : string) :
  u ∈ map nc_uuid (Store.save_nodes l) -> u ∈ map nc_uuid l.
Proof.
  rewrite save_nodes_refines, nodes_uuids. intros H.
  apply list_elem_of_fmap in H as (x & -> & Hx). apply list_elem_of_fmap.
  exists x. split; [reflexivity|].
  eapply elem_of_sublist; [exact Hx | apply first_by_cert_sublist].
Qed.

(** X5.  [unpair_client uuid] returns the number of devices of the store
    with that uuid, which is 0 exactly when there is none; the pairing
    sessions are untouched; and with a readable and writable state file the
    store afterwards is the saved form of the remaining devices, the chain
    equals it, and no device with that uuid is left. *)
Theorem unpair_client_removes (uuid : string) (st : state) :
  let r := unpair_client P uuid st in
  let matching := filter (fun d => nc_uuid d = uuid) (client_root st) in
  snd r = length matching
  /\ (snd r = 0%nat <-> uuid ∉ map nc_uuid (client_root st))
  /\ map_id_sess (fst r) = map_id_sess st
  /\ (dk_file (disk st) <> FileCorrupt -> dk_writable (disk st) = true ->
      client_root (fst r) =
        Store.save_nodes (filter (fun d => nc_uuid d <> uuid) (client_root st))
      /\ cert_chain (fst r) = client_root (fst r)
      /\ uuid ∉ map nc_uuid (client_root (fst r))).
Proof.
  cbn zeta. unfold unpair_client. rewrite unpair_loop_spec. cbn [fst snd].
  split; [reflexivity|]. split; [|split].
  - rewrite length_zero_iff_nil. split.
    + intros Hnil Hin. apply list_elem_of_fmap in Hin as (d & Hd & Hin).
      assert (d ∈ filter (fun d => nc_uuid d = uuid) (client_root st)) as Hf
        by (apply list_elem_of_filter; split; [congruence | exact Hin]).
      rewrite Hnil in Hf. inversion Hf.
    + intros Hnot. induction (client_root st) as [|d l IH]; [reflexivity|].
      rewrite filter_cons_False.
      * apply IH. intros Hin. apply Hnot. cbn. now apply list_elem_of_further.
      * intros E. apply Hnot. cbn. rewrite E. apply list_elem_of_here.
  - unfold save_and_load. now rewrite load_state_map.
  - intros Hfile Hw.
    destruct (save_and_load_readable
                (set_client_root (filter (fun d => nc_uuid d <> uuid) (client_root st)) st)
                Hfile Hw) as (Hroot & Hchain & _).
    cbn [client_root set_client_root] in Hroot, Hchain.
    split; [exact Hroot|]. split; [congruence|].
    rewrite Hroot. intros Hin. apply save_nodes_uuids_subset in Hin.
    apply list_elem_of_fmap in Hin as (d & Hd & Hin).
    apply list_elem_of_filter in Hin as [Hne _]. congruence.
Qed.

(** X6.  [erase_all_clients] with a writable state file empties the store
    and the certificate chain ([get_all_clients] returns nothing), keeps the
    pairing sessions, and writes an empty device list to the file unless the
    file is unreadable, in which case the file is left as it is. *)
Theorem erase_all_clients_empties (st : state) :
  dk_writable (disk st) = true ->
  let st' := erase_all_clients P st in
  client_root st' = []
  /\ cert_chain st' = []
  /\ get_all_clients st' = []
  /\ map_id_sess st' = map_id_sess st
  /\ (dk_file (disk st) = FileCorrupt -> disk st' = disk st)
  /\ (dk_file (disk st) <> FileCorrupt ->
      exists other uid,
        dk_file (disk st') = FileJson other (Some (mk_json_root uid [] (Some [])))).
Proof.
  intros Hw. cbn zeta. unfold erase_all_clients, get_all_clients.
  destruct (dk_file (disk st)) as [| |other root] eqn:E.
  - destruct (save_and_load_readable (set_cert_chain [] (set_client_root [] st)))
      as (Hroot & Hchain & _ & _ & Hmap & _ & o & Hdisk);
      [cbn; rewrite E; discriminate | exact Hw |].
    cbn in Hroot, Hchain, Hmap. rewrite Hroot, Hchain, Hmap, Hdisk.
    repeat split; [discriminate | intros _; eauto].
  - unfold save_and_load, Store.save_state, load_state.
    cbn [disk set_disk set_cert_chain set_client_root dk_file]. rewrite E.
    cbn. rewrite E. repeat split. congruence.
  - destruct (save_and_load_readable (set_cert_chain [] (set_client_root [] st)))
      as (Hroot & Hchain & _ & _ & Hmap & _ & o & Hdisk);
      [cbn; rewrite E; discriminate | exact Hw |].
    cbn in Hroot, Hchain, Hmap. rewrite Hroot, Hchain, Hmap, Hdisk.
    repeat split; [discriminate | intros _; eauto].
Qed.

(** X4.  [load_state]: an unreadable file changes nothing at all; a missing
    file, or one without [root.uniqueid], only gives the server a fresh id
    and leaves store and chain alone; otherwise the id is the one in the
    file, the old-format certificates come first, in file order, with empty
    names and freshly generated uuids, the named devices follow as stored,
    and the certificate chain holds the same entries. *)
Theorem load_state_edges (st : state) :
  let st' := load_state P st in
  let unchanged_store :=
    client_root st' = client_root st /\ cert_chain st' = cert_chain st in
  (dk_file (disk st) = FileCorrupt -> st' = st)
  /\ (dk_file (disk st) = FileMissing ->
      unique_id st' = uuid_generate P (entropy st) /\ unchanged_store)
  /\ (forall other root,
        dk_file (disk st) = FileJson other root ->
        root = None \/ (exists r, root = Some r /\ jr_uniqueid r = None) ->
        unique_id st' = uuid_generate P (entropy st) /\ unchanged_store)
  /\ (forall other root u,
        dk_file (disk st) = FileJson other (Some root) ->
        jr_uniqueid root = Some u ->
        let certs := concat (map ld_certs (jr_devices root)) in
        let named := default [] (jr_named_devices root) in
        unique_id st' = u
        /\ cert_chain st' = client_root st'
        /\ map nc_cert (client_root st') = (certs ++ map nc_cert named)%list
        /\ map nc_name (client_root st') =
             (map (fun _ => "") certs ++ map nc_name named)%list
        /\ map nc_uuid (client_root st') =
             (map (uuid_generate P) (seq (entropy st) (length certs))
                ++ map nc_uuid named)%list
        /\ entropy st' = (entropy st + length certs)%nat
        /\ disk st' = disk st
        /\ map_id_sess st' = map_id_sess st).
Proof.
  cbn zeta. unfold load_state. split; [|split; [|split]].
  - now intros ->.
  - intros ->. repeat split.
  - intros other root -> [->|(r & -> & ->)]; repeat split.
  - intros other root u -> ->. cbn zeta.
    destruct (import_legacy_spec (concat (map ld_certs (jr_devices root))) (entropy st))
      as (Hc & Hn & Hu & He).
    destruct (import_legacy P _ _) as [legacy e']. cbn [fst snd] in *.
    cbn [unique_id cert_chain client_root entropy disk map_id_sess set_client_root
         set_cert_chain set_entropy set_unique_id].
    rewrite !map_app, Hc, Hn, Hu, He. repeat split.
Qed.

End StoreOps.

Section StoreRoundTrip.

Import Store SaveSpec.

Lemma named_cert_eta (x : named_cert_t) :
  mk_named_cert (nc_name x) (nc_cert x) (nc_uuid x) = x.
Proof. now destruct x. Qed.

(** X2.  A store whose certificates are pairwise distinct, whose names are
    pairwise distinct and none of whose names contains " (" is written
    exactly as it is: nothing is dropped, renamed or reordered. *)
Theorem save_keeps_wellformed_store (l : list named_cert_t) :
  NoDup (map nc_cert l) ->
  NoDup (map nc_name l) ->
  (forall x, x ∈ l -> String.index 0 " (" (nc_name x) = None) ->
  save_nodes l = l.
Proof.
  intros Hc Hn Hplain. rewrite save_nodes_refines.
  unfold nodes. rewrite (first_by_cert_NoDup_id l Hc).
  apply list_eq. intros k. rewrite list_lookup_imap.
  destruct (l !! k) as [x|] eqn:Ek; [|reflexivity]. cbn [fmap option_fmap option_map].
  f_equal. unfold disambiguate.
  assert (x ∈ l) as Hx by (eapply list_elem_of_lookup_2; exact Ek).
  rewrite (base_name_plain _ (Hplain x Hx)).
  assert (earlier l k (nc_name x) = 0%nat) as ->.
  { unfold earlier. apply length_zero_iff_nil.
    destruct (filter (same_base (nc_name x)) (take k l)) as [|y rest] eqn:Ef; [reflexivity|].
    exfalso.
    assert (y ∈ filter (same_base (nc_name x)) (take k l)) as Hy
      by (rewrite Ef; apply list_elem_of_here).
    apply list_elem_of_filter in Hy as [Hb Hy]. unfold same_base in Hb.
    apply list_elem_of_lookup_1 in Hy as [j Hj].
    apply lookup_take_Some in Hj as [Hj Hlt].
    assert (y ∈ l) as Hyl by (eapply list_elem_of_lookup_2; exact Hj).
    rewrite (base_name_plain _ (Hplain y Hyl)) in Hb.
    assert (j = k); [|lia].
    eapply (NoDup_lookup (map nc_name l) j k (nc_name x)); [exact Hn| |].
    - change (map nc_name) with (fmap (M := list) nc_name).
      now rewrite list_lookup_fmap, Hj, <- Hb.
    - change (map nc_name) with (fmap (M := list) nc_name).
      now rewrite list_lookup_fmap, Ek. }
  apply named_cert_eta.
Qed.

Lemma filter_uuid_absent (u : string) (l : list named_cert_t) :
  u ∉ map nc_uuid l ->
  filter (fun d => nc_uuid d <> u) l = l /\ filter (fun d => nc_uuid d = u) l = [].
Proof.
  induction l as [|d l IH]; intros Hn; [now split|].
  assert (nc_uuid d <> u) as Hd by (intros E; apply Hn; cbn; rewrite E; apply list_elem_of_here).
  assert (u ∉ map nc_uuid l) as Hl by (intros I; apply Hn; cbn; now apply list_elem_of_further).
  destruct (IH Hl) as [IH1 IH2].
  rewrite filter_cons_True by exact Hd. rewrite filter_cons_False by tauto.
  now rewrite IH1, IH2.
Qed.

End StoreRoundTrip.

Section PairUnpair.

Context (P : provider_t) (cfg : config_t).

Import Store SaveSpec.

(** X7.  Adding a client under a uuid that no stored device has and
    unpairing that uuid again gives the saved form of the store there was
    before.  The count returned is 1, except when the state is persisted and
    the new client's certificate was already in the store: then the save had
    dropped the new entry as a duplicate and nothing is left to remove. *)
Theorem pair_then_unpair_restores (nc : named_cert_t) (st : state) :
  nc_uuid nc ∉ map nc_uuid (client_root st) ->
  dk_file (disk st) <> FileCorrupt ->
  dk_writable (disk st) = true ->
  let paired := add_authorized_client P cfg nc st in
  let r := unpair_client P (nc_uuid nc) paired in
  client_root (fst r) = save_nodes (client_root st)
  /\ cert_chain (fst r) = save_nodes (client_root st)
  /\ (snd r = 0%nat <->
      flag_FRESH_STATE cfg = false /\ nc_cert nc ∈ map nc_cert (client_root st))
  /\ (snd r <> 0%nat -> snd r = 1%nat).
Proof.
  intros Hu Hfile Hw. cbn zeta.
  destruct (filter_uuid_absent _ _ Hu) as [Hkeep Hdrop].
  unfold unpair_client. rewrite unpair_loop_spec. cbn [fst snd].
  unfold add_authorized_client. destruct (flag_FRESH_STATE cfg) eqn:Ef.
  - cbn [client_root set_client_root].
    rewrite !filter_app, Hkeep, Hdrop.
    rewrite filter_cons_False by tauto. rewrite filter_cons_True by reflexivity.
    rewrite !filter_nil, app_nil_r. cbn [app length].
    destruct (save_and_load_readable P
                (set_client_root (client_root st)
                   (set_client_root (client_root st ++ [nc])%list st)) Hfile Hw)
      as (Hroot & Hchain & _).
    cbn [client_root set_client_root] in Hroot, Hchain.
    split; [exact Hroot|]. split; [exact Hchain|].
    split; [split; [discriminate | intros [? _]; discriminate] | reflexivity].
  - change (load_state P _) with
      (save_and_load P (set_client_root (client_root st ++ [nc])%list st)).
    destruct (save_and_load_readable P
                (set_client_root (client_root st ++ [nc])%list st) Hfile Hw)
      as (Hroot & _ & _ & _ & _ & _ & other & Hdisk).
    cbn [client_root set_client_root] in Hroot.
    set (paired := save_and_load P (set_client_root (client_root st ++ [nc])%list st)) in *.
    assert (dk_file (disk paired) <> FileCorrupt) as Hfile' by (now rewrite Hdisk).
    assert (dk_writable (disk paired) = true) as Hw' by (now rewrite Hdisk).
    assert (u_absent : nc_uuid nc ∉ map nc_uuid (nodes (client_root st))).
    { rewrite <- save_nodes_refines. intros I. now apply save_nodes_uuids_subset in I. }
    destruct (filter_uuid_absent _ _ u_absent) as [Hkeep' Hdrop'].
    assert (filter (fun d => nc_uuid d <> nc_uuid nc) (client_root paired) =
              nodes (client_root st)
            /\ (length (filter (fun d => nc_uuid d = nc_uuid nc) (client_root paired)) =
                  0%nat <-> nc_cert nc ∈ map nc_cert (client_root st))
            /\ (length (filter (fun d => nc_uuid d = nc_uuid nc) (client_root paired)) <> 0%nat
                -> length (filter (fun d => nc_uuid d = nc_uuid nc) (client_root paired)) =
                     1%nat))
      as (Hfilter & Hcount & Hone).
    { rewrite Hroot, save_nodes_refines.
      destruct (decide (nc_cert nc ∈ map nc_cert (client_root st))) as [Hin|Hnew].
      - rewrite (nodes_snoc_dup _ _ Hin), Hkeep', Hdrop'. cbn [length].
        split; [reflexivity|]. split; [tauto | congruence].
      - rewrite (nodes_snoc_new _ _ Hnew), !filter_app, Hkeep', Hdrop'.
        rewrite filter_cons_False by (cbn [nc_uuid]; tauto).
        rewrite filter_cons_True by reflexivity.
        rewrite !filter_nil, app_nil_r. cbn [app length].
        split; [reflexivity|]. split; [split; [discriminate | tauto] | reflexivity]. }
    rewrite Hfilter, <- save_nodes_refines.
    destruct (save_and_load_readable P
                (set_client_root (save_nodes (client_root st)) paired) Hfile' Hw')
      as (Hroot2 & Hchain2 & _).
    cbn [client_root set_client_root] in Hroot2, Hchain2.
    rewrite save_nodes_idem in Hroot2, Hchain2.
    split; [exact Hroot2|]. split; [exact Hchain2|].
    split; [rewrite Hcount; tauto | exact Hone].
Qed.

End PairUnpair.

(** ** What [pair] leaves alone *)

Section PairFrame.

Context (P : provider_t) (cfg : config_t).

Lemma same_store_refl (st : state) : same_store st st.
Proof. repeat split. Qed.

Lemma same_sessions_but_refl (uniqID : string) (st : state) :
  same_sessions_but uniqID st st.
Proof. intros k _. reflexivity. Qed.

Lemma emplace_others (uniqID : string) (sess : pair_session_t)
    (m : gmap string pair_session_t) (k : string) :
  k <> uniqID -> fst (emplace uniqID sess m) !! k = m !! k.
Proof.
  intros Hk. unfold emplace. destruct (m !! uniqID); cbn [fst]; [reflexivity|].
  now rewrite lookup_insert_ne.
Qed.

Lemma pair_getservercert_frame (uniqID : string) (rq : request) (tree : ptree)
    (st : state) :
  let st' := fst (pair_getservercert P cfg uniqID rq tree st) in
  same_store st st' /\ same_sessions_but uniqID st st'.
Proof.
  cbn zeta. unfold pair_getservercert.
  destruct (args_find (rq_args rq) "devicename") as [dn|];
    [|split; [apply same_store_refl | apply same_sessions_but_refl]].
  destruct (args_find (rq_args rq) "clientcert") as [cc|];
    [|split; [apply same_store_refl | apply same_sessions_but_refl]].
  cbn [client_uniqueID set_client].
  pose proof (emplace_others uniqID
                (set_client uniqID
                   (if String.eqb dn "roth" then "Legacy Moonlight Client" else dn)
                   (util_from_hex_vec P cc) pair_session_default)
                (map_id_sess st)) as Hm.
  destruct (emplace _ _ _) as [m ptr]. cbn [fst] in Hm.
  destruct (args_find (rq_args rq) "salt") as [salt|];
    [|split; [repeat split | intros k Hk; now apply Hm]].
  assert (forall s k, k <> uniqID -> <[uniqID := s]> m !! k = map_id_sess st !! k) as Hins.
  { intros s k Hk. rewrite lookup_insert_ne by congruence. now apply Hm. }
  destruct (args_find (rq_args rq) "otpauth") as [otpauth|].
  - repeat match goal with
      | |- context [if ?b then _ else _] => destruct b
      | |- context [getservercert P cfg ?s ?t ?p] => destruct (getservercert P cfg s t p)
      end;
      (split; [repeat split | intros k Hk; now apply Hins]).
  - destruct (flag_PIN_STDIN cfg).
    + unfold getline. destruct (stdin st);
        match goal with
        | |- context [getservercert P cfg ?s ?t ?p] => destruct (getservercert P cfg s t p)
        end;
        (split; [repeat split | intros k Hk; now apply Hins]).
    + split; [repeat split | intros k Hk; now apply Hins].
Qed.

Lemma on_session_frame (uniqID : string) (tree : ptree) (draws : nat) (st : state)
    (phase : pair_session_t -> result (pair_session_t * ptree)) :
  let st' := fst (on_session uniqID tree draws st phase) in
  same_store st st' /\ same_sessions_but uniqID st st'.
Proof.
  cbn zeta. unfold on_session.
  destruct (map_id_sess st !! uniqID) as [sess|]; cbn [deref bind];
    [|split; [apply same_store_refl | apply same_sessions_but_refl]].
  destruct (phase sess) as [[s' t]| |];
    try (split; [apply same_store_refl | apply same_sessions_but_refl]).
  split; [repeat split|]. intros k Hk.
  cbn [fst map_id_sess set_entropy set_map_id_sess]. now rewrite lookup_insert_ne.
Qed.

Lemma clientpairingsecret_others (uniqID : string) (sess : pair_session_t) (tree : ptree)
    (args : args_t) (st st' : state) (tree' : ptree) :
  keyed (map_id_sess st) ->
  map_id_sess st !! uniqID = Some sess ->
  clientpairingsecret P cfg uniqID sess tree args st = Ok (st', tree') ->
  same_sessions_but uniqID st st'.
Proof.
  intros Hk Hsess. unfold clientpairingsecret, get_arg.
  destruct (args_find args "clientpairingsecret"); cbn [bind]; [|discriminate].
  destruct (_ <=? 16)%nat; [intros [= <- _]; apply same_sessions_but_refl|].
  destruct (_ <? 32)%nat; [discriminate|].
  rewrite (Hk _ _ Hsess), lookup_insert_eq. cbn [deref bind].
  destruct (_ && _); intros [= <- _]; intros k Hne.
  - rewrite add_authorized_client_map. cbn [map_id_sess set_entropy set_map_id_sess].
    rewrite delete_insert_eq. now rewrite lookup_delete_ne.
  - cbn [map_id_sess set_map_id_sess]. now rewrite lookup_delete_ne.
Qed.

(** X13.  Only phase 4 touches the client store: every other [/pair]
    request leaves the store, the certificate chain, the state file, the
    server's id and the responses written so far as they are. *)
Theorem pair_store_frame (rq : request) (st : state) :
  (forall uniqID arg, ~ is_phase4 rq uniqID arg) ->
  let st' := fst (pair P cfg rq st) in
  client_root st' = client_root st
  /\ cert_chain st' = cert_chain st
  /\ disk st' = disk st
  /\ unique_id st' = unique_id st
  /\ written st' = written st.
Proof.
  intros Hrq. cbn zeta. change (same_store st (fst (pair P cfg rq st))). unfold pair.
  destruct (enable_pairing cfg); cbn [negb]; [|apply same_store_refl].
  destruct (args_find (rq_args rq) "uniqueid") as [uniqID|] eqn:Eu; [|apply same_store_refl].
  destruct (args_find (rq_args rq) "phrase") as [phrase|] eqn:Ep.
  { destruct (String.eqb phrase "getservercert"); [apply pair_getservercert_frame|].
    destruct (String.eqb phrase "pairchallenge"); apply same_store_refl. }
  destruct (args_find (rq_args rq) "clientchallenge") eqn:E2; [apply on_session_frame|].
  destruct (args_find (rq_args rq) "serverchallengeresp") eqn:E3; [apply on_session_frame|].
  destruct (args_find (rq_args rq) "clientpairingsecret") as [arg|] eqn:E4;
    [|apply same_store_refl].
  exfalso. apply (Hrq uniqID arg). repeat split; assumption.
Qed.

(** X14.  A [/pair] request for one [uniqueid] never changes or removes the
    pairing session of another client. *)
Theorem pair_leaves_other_sessions (rq : request) (st : state) (uniqID k : string) :
  keyed (map_id_sess st) ->
  args_find (rq_args rq) "uniqueid" = Some uniqID ->
  k <> uniqID ->
  map_id_sess (fst (pair P cfg rq st)) !! k = map_id_sess st !! k.
Proof.
  intros Hk Hu Hne. revert k Hne.
  change (same_sessions_but uniqID st (fst (pair P cfg rq st))). unfold pair.
  destruct (enable_pairing cfg); cbn [negb]; [|apply same_sessions_but_refl].
  rewrite Hu.
  destruct (args_find (rq_args rq) "phrase") as [phrase|] eqn:Ep.
  { destruct (String.eqb phrase "getservercert"); [apply pair_getservercert_frame|].
    destruct (String.eqb phrase "pairchallenge"); apply same_sessions_but_refl. }
  destruct (args_find (rq_args rq) "clientchallenge") eqn:E2; [apply on_session_frame|].
  destruct (args_find (rq_args rq) "serverchallengeresp") eqn:E3; [apply on_session_frame|].
  destruct (args_find (rq_args rq) "clientpairingsecret") as [arg|] eqn:E4;
    [|apply same_sessions_but_refl].
  destruct (map_id_sess st !! uniqID) as [sess|] eqn:E; cbn [deref bind];
    [|apply same_sessions_but_refl].
  destruct (clientpairingsecret P cfg uniqID sess [] (rq_args rq) st) as [[st' t]| |] eqn:Ec;
    try apply same_sessions_but_refl.
  cbn [fst]. eapply clientpairingsecret_others; eassumption.
Qed.

(** X15.  Every pairing session is stored under its own client id: [pair]
    and [pin] keep this invariant, which is what makes the
    [erase(sess.client.uniqueID)] of phase 4 remove the session it ran on. *)
Theorem sessions_stay_keyed (rq : request) (p name : string) (st : state) :
  keyed (map_id_sess st) ->
  keyed (map_id_sess (fst (pair P cfg rq st)))
  /\ keyed (map_id_sess (fst (pin P cfg p name st))).
Proof.
  intros Hk. split; [now apply pair_keyed | now apply pin_keyed].
Qed.

(** X9.  The requests [pair] answers without running a phase, each leaving
    the state as it is: 403 when pairing is disabled; 400 without
    [uniqueid]; [paired = 1] with 200 for [phrase = pairchallenge]; an empty
    tree, without any status code, for every other [phrase] that is not
    [getservercert], whatever else the query holds; 404 when there is neither
    a [phrase] nor a parameter of a later phase. *)
Theorem pair_answers_without_a_phase (rq : request) (st : state) :
  let args := rq_args rq in
  let r := pair P cfg rq st in
  (enable_pairing cfg = false ->
     r = (st, Written [("root.<xmlattr>.status_code", "403");
                       ("root.<xmlattr>.status_message",
                        "Pairing is disabled for this instance")]))
  /\ (enable_pairing cfg = true -> args_find args "uniqueid" = None ->
      r = (st, Written [("root.<xmlattr>.status_code", "400");
                        ("root.<xmlattr>.status_message", "Missing uniqueid parameter")]))
  /\ (forall uniqID phrase,
        enable_pairing cfg = true ->
        args_find args "uniqueid" = Some uniqID ->
        args_find args "phrase" = Some phrase ->
        phrase <> "getservercert" ->
        r = (st, Written (if String.eqb phrase "pairchallenge"
                          then [("root.paired", "1"); ("root.<xmlattr>.status_code", "200")]
                          else [])))
  /\ (forall uniqID,
        enable_pairing cfg = true ->
        args_find args "uniqueid" = Some uniqID ->
        args_find args "phrase" = None ->
        args_find args "clientchallenge" = None ->
        args_find args "serverchallengeresp" = None ->
        args_find args "clientpairingsecret" = None ->
        r = (st, Written [("root.<xmlattr>.status_code", "404");
                          ("root.<xmlattr>.status_message", "Invalid pairing request")])).
Proof.
  cbn zeta. unfold pair. split; [|split; [|split]].
  - now intros ->.
  - now intros -> ->.
  - intros uniqID phrase -> -> -> Hp. apply String.eqb_neq in Hp. rewrite Hp.
    cbn [negb]. now destruct (String.eqb phrase "pairchallenge").
  - now intros uniqID -> -> -> -> -> ->.
Qed.

End PairFrame.

(** ** Phases 2 to 4 in a row, and the one-time PIN *)

Section Handshake.

Context (P : provider_t) (cfg : config_t).

Lemma pair_phase2 (rq : request) (st : state) (uniqID arg key : string)
    (sess : pair_session_t) :
  enable_pairing cfg = true ->
  is_phase2 rq uniqID arg ->
  map_id_sess st !! uniqID = Some sess ->
  cipher_key sess = Some key ->
  let secret := crypto_rand P (entropy st) 16 in
  let challenge := crypto_rand P (S (entropy st)) 16 in
  let hash :=
    crypto_hash P (ecb_decrypt P key (util_from_hex_vec P arg)
                     ++ crypto_signature P (servercert cfg) ++ secret) in
  pair P cfg rq st =
    (set_entropy (2 + entropy st)
       (set_map_id_sess
          (<[uniqID := set_server_nonces secret challenge sess]> (map_id_sess st)) st),
     Written [("root.paired", "1");
              ("root.challengeresponse",
               util_hex_vec P (ecb_encrypt P key (hash ++ challenge)));
              ("root.<xmlattr>.status_code", "200")]).
Proof.
  intros He (Hu & Hp & Ha) Hsess Hkey. cbn zeta.
  unfold pair. rewrite He, Hu, Hp, Ha. cbn [negb].
  unfold on_session. rewrite Hsess. cbn [deref bind].
  unfold clientchallenge, get_arg. rewrite Ha. cbn [bind]. rewrite Hkey.
  reflexivity.
Qed.

Lemma pair_phase3 (rq : request) (st : state) (uniqID arg key : string)
    (sess : pair_session_t) :
  enable_pairing cfg = true ->
  is_phase3 rq uniqID arg ->
  map_id_sess st !! uniqID = Some sess ->
  cipher_key sess = Some key ->
  pair P cfg rq st =
    (set_entropy (entropy st)
       (set_map_id_sess
          (<[uniqID := set_clienthash (ecb_decrypt P key (util_from_hex_vec P arg)) sess]>
             (map_id_sess st)) st),
     Written [("root.pairingsecret",
               util_hex_vec P (serversecret sess
                                 ++ crypto_sign256 P (pkey cfg) (serversecret sess)));
              ("root.paired", "1");
              ("root.<xmlattr>.status_code", "200")]).
Proof.
  intros He (Hu & Hp & Hc & Ha) Hsess Hkey.
  unfold pair. rewrite He, Hu, Hp, Hc, Ha. cbn [negb].
  unfold on_session. rewrite Hsess. cbn [deref bind].
  unfold serverchallengeresp, get_arg. rewrite Ha. cbn [bind]. rewrite Hkey.
  reflexivity.
Qed.

(** X16.  Phases 2, 3 and 4 in a row, for a session whose key is derived.
    When the phase-3 payload decrypts to the hash of the challenge issued in
    phase 2, the client certificate's signature and the client's secret, and
    the signature sent in phase 4 verifies, each of the three requests is
    answered [paired = 1] with 200, the client is added to the store with its
    bracketed name and the third uuid drawn since the handshake began, and
    its session is gone. *)
Theorem handshake_pairs_honest_client
    (rq2 rq3 rq4 : request) (st : state) (uniqID challenge response secret_arg key : string)
    (sess : pair_session_t) :
  enable_pairing cfg = true ->
  map_id_sess st !! uniqID = Some sess ->
  client_uniqueID sess = uniqID ->
  cipher_key sess = Some key ->
  is_phase2 rq2 uniqID challenge ->
  is_phase3 rq3 uniqID response ->
  is_phase4 rq4 uniqID secret_arg ->
  (16 < String.length (util_from_hex_vec P secret_arg))%nat ->
  ecb_decrypt P key (util_from_hex_vec P response) =
    crypto_hash P (crypto_rand P (S (entropy st)) 16
                     ++ crypto_signature P (client_cert sess)
                     ++ substring 0 16 (util_from_hex_vec P secret_arg)) ->
  crypto_verify256 P (client_cert sess)
    (substring 0 16 (util_from_hex_vec P secret_arg))
    (Str.drop 16 (util_from_hex_vec P secret_arg)) = true ->
  let r2 := pair P cfg rq2 st in
  let r3 := pair P cfg rq3 (fst r2) in
  let r4 := pair P cfg rq4 (fst r3) in
  let serversecret := crypto_rand P (entropy st) 16 in
  let serverchallenge := crypto_rand P (S (entropy st)) 16 in
  let hash :=
    crypto_hash P (ecb_decrypt P key (util_from_hex_vec P challenge)
                     ++ crypto_signature P (servercert cfg) ++ serversecret) in
  snd r2 =
    Written [("root.paired", "1");
             ("root.challengeresponse",
              util_hex_vec P (ecb_encrypt P key (hash ++ serverchallenge)));
             ("root.<xmlattr>.status_code", "200")]
  /\ snd r3 =
       Written [("root.pairingsecret",
                 util_hex_vec P (serversecret
                                   ++ crypto_sign256 P (pkey cfg) serversecret));
                ("root.paired", "1");
                ("root.<xmlattr>.status_code", "200")]
  /\ snd r4 = Written [("root.paired", "1"); ("root.<xmlattr>.status_code", "200")]
  /\ fst r4 =
       add_authorized_client P cfg
         (mk_named_cert (brackets (client_name sess)) (client_cert sess)
            (uuid_generate P (2 + entropy st)))
         (set_entropy (3 + entropy st)
            (set_map_id_sess (delete uniqID (map_id_sess st)) st))
  /\ map_id_sess (fst r4) !! uniqID = None.
Proof.
  intros He Hsess Hid Hkey H2 H3 H4 Hlen Hhash Hsign. cbn zeta.
  rewrite (pair_phase2 rq2 st uniqID challenge key sess He H2 Hsess Hkey). cbn zeta.
  cbn [fst snd].
  match goal with |- context [pair P cfg rq3 ?st2] => set (st2' := st2) end.
  assert (exists sess2, map_id_sess st2' !! uniqID = Some sess2
            /\ sess2 = set_server_nonces (crypto_rand P (entropy st) 16)
                         (crypto_rand P (S (entropy st)) 16) sess) as (sess2 & Hs2 & Es2).
  { eexists. split; [|reflexivity]. subst st2'.
    cbn [map_id_sess set_entropy set_map_id_sess]. apply lookup_insert_eq. }
  assert (cipher_key sess2 = Some key) as Hk2 by (now subst sess2).
  rewrite (pair_phase3 rq3 st2' uniqID response key sess2 He H3 Hs2 Hk2).
  cbn [fst snd].
  match goal with |- context [pair P cfg rq4 ?st3] => set (st3' := st3) end.
  set (sess3 := set_clienthash (ecb_decrypt P key (util_from_hex_vec P response)) sess2).
  assert (map_id_sess st3' !! uniqID = Some sess3) as Hs3.
  { subst st3'. cbn [map_id_sess set_entropy set_map_id_sess]. apply lookup_insert_eq. }
  rewrite (pair_phase4 P cfg rq4 st3' uniqID secret_arg sess3 He H4 Hs3).
  destruct H4 as (_ & _ & _ & _ & Ha).
  unfold clientpairingsecret, get_arg. rewrite Ha. cbn [bind].
  rewrite (proj2 (Nat.leb_gt _ _) Hlen).
  assert (clienthash sess3 =
            crypto_hash P (serverchallenge sess3 ++ crypto_signature P (client_cert sess3)
                             ++ substring 0 16 (util_from_hex_vec P secret_arg))) as Hch.
  { subst sess3 sess2. cbn. exact Hhash. }
  assert ((String.length (clienthash sess3) <? 32)%nat = false) as ->.
  { rewrite Hch, crypto_hash_size. reflexivity. }
  assert (Str.memcmp_eq
            (crypto_hash P (serverchallenge sess3 ++ crypto_signature P (client_cert sess3)
                              ++ substring 0 16 (util_from_hex_vec P secret_arg)))
            (clienthash sess3) 32 = true) as ->.
  { apply memcmp_hash. rewrite Hch. symmetry.
    apply substring_0_all. now rewrite crypto_hash_size. }
  assert (client_cert sess3 = client_cert sess) as Hcc by (now subst sess3 sess2).
  assert (client_uniqueID sess3 = uniqID) as Hid3 by (now subst sess3 sess2).
  rewrite Hcc, Hsign, Hid3, lookup_insert_eq. cbn [andb deref bind fst snd].
  split; [reflexivity|].
  split; [rewrite Es2; reflexivity|]. split; [reflexivity|].
  assert (delete uniqID (<[uniqID := set_client_cert "" sess3]> (map_id_sess st3')) =
            delete uniqID (map_id_sess st)) as Hdel.
  { subst st3' st2'. cbn [map_id_sess set_entropy set_map_id_sess].
    now rewrite !delete_insert_eq. }
  rewrite Hdel. split.
  - subst st3' st2' sess3 sess2. reflexivity.
  - rewrite add_authorized_client_map. cbn [map_id_sess set_entropy set_map_id_sess].
    apply lookup_delete_eq.
Qed.

End Handshake.

Section UncheckedHash.

Context (P : provider_t) (cfg : config_t).

(** X24.  Phase 4 compares the hash it computed with [clienthash] over 32
    bytes without looking at how many bytes [clienthash] holds.  For a
    session whose [clienthash] is shorter, as it is for a client that went
    from phase 1 or 2 straight to phase 4, a request with a payload of more
    than 16 bytes reads past the end of the vector: undefined behaviour. *)
Theorem phase4_reads_past_short_clienthash
    (rq : request) (st : state) (uniqID arg : string) (sess : pair_session_t) :
  enable_pairing cfg = true ->
  is_phase4 rq uniqID arg ->
  map_id_sess st !! uniqID = Some sess ->
  (16 < String.length (util_from_hex_vec P arg))%nat ->
  (String.length (clienthash sess) < 32)%nat ->
  snd (pair P cfg rq st) = Crashed ReadPastBuffer.
Proof.
  intros He Hrq Hsess Hlen Hshort.
  rewrite (pair_phase4 P cfg rq st uniqID arg sess He Hrq Hsess).
  destruct Hrq as (_ & _ & _ & _ & Harg).
  unfold clientpairingsecret, get_arg. rewrite Harg. cbn [bind].
  rewrite (proj2 (Nat.leb_gt _ _) Hlen), (proj2 (Nat.ltb_lt _ _) Hshort).
  reflexivity.
Qed.

End UncheckedHash.

Section OneTimePin.

Context (P : provider_t) (cfg : config_t).

(** X12.  A PIN handed out by [request_otp] works once.  A phase-1 request
    within the expiry time whose [otpauth] is the hash of PIN, salt and
    passphrase gets its key derived from that PIN and takes the device name
    given with the OTP; the OTP is cleared by it, and every later request
    carrying an [otpauth], the same one included, gets a key derived from 16
    random bytes instead. *)
Theorem otp_is_single_use (rand_alphabet : nat -> nat -> string -> string)
    (passphrase deviceName : string) (now : Z) (st st1 : state) (pin : string)
    (rq : request) (uniqID dn cc salt : string) :
  request_otp rand_alphabet passphrase deviceName now st = (st1, pin) ->
  pin <> "" ->
  enable_pairing cfg = true ->
  is_getservercert rq uniqID dn cc salt ->
  args_find (rq_args rq) "otpauth" =
    Some (util_hex P (crypto_hash P (pin ++ salt ++ passphrase))) ->
  (rq_now rq - now <= OTP_EXPIRE_DURATION cfg)%Z ->
  (32 <= String.length salt)%nat ->
  let st2 := fst (pair P cfg rq st1) in
  (exists sess,
     map_id_sess st2 !! uniqID = Some sess
     /\ cipher_key sess =
          Some (gen_aes_key P (util_from_hex P (substring 0 32 salt)) pin)
     /\ (deviceName <> "" -> client_name sess = deviceName))
  /\ otp st2 = mk_otp "" "" "" now
  /\ (forall rq' uniqID' dn' cc' salt' otpauth',
        is_getservercert rq' uniqID' dn' cc' salt' ->
        args_find (rq_args rq') "otpauth" = Some otpauth' ->
        (32 <= String.length salt')%nat ->
        let st3 := fst (pair P cfg rq' st2) in
        otp st3 = otp st2
        /\ exists sess',
             map_id_sess st3 !! uniqID' = Some sess'
             /\ cipher_key sess' =
                  Some (gen_aes_key P (util_from_hex P (substring 0 32 salt'))
                          (crypto_rand P (entropy st2) 16))).
Proof.
  intros Hotp Hpin He Hrq Ho Hnow Hsalt. cbn zeta.
  unfold request_otp in Hotp.
  destruct (String.length passphrase <? 4)%nat; [injection Hotp as _ <-; congruence|].
  injection Hotp as <- Epin. rewrite Epin in *.
  rewrite (pair_getservercert_otp P cfg rq _ uniqID dn cc salt _ He Hrq Ho). cbn zeta.
  cbn [otp set_entropy set_otp one_time_pin otp_passphrase otp_device_name].
  assert (otp_unavailable cfg (mk_otp pin passphrase deviceName now) (rq_now rq) = false)
    as ->.
  { unfold otp_unavailable. cbn [one_time_pin otp_creation_time].
    apply String.eqb_neq in Hpin. rewrite Hpin. cbn [orb]. apply Z.ltb_ge. lia. }
  rewrite String.eqb_refl.
  assert (forall st' : state,
            one_time_pin (otp st') = "" ->
            forall rq' uniqID' dn' cc' salt' otpauth',
              is_getservercert rq' uniqID' dn' cc' salt' ->
              args_find (rq_args rq') "otpauth" = Some otpauth' ->
              (32 <= String.length salt')%nat ->
              otp (fst (pair P cfg rq' st')) = otp_clear (otp st')
              /\ exists sess',
                   map_id_sess (fst (pair P cfg rq' st')) !! uniqID' = Some sess'
                   /\ cipher_key sess' =
                        Some (gen_aes_key P (util_from_hex P (substring 0 32 salt'))
                                (crypto_rand P (entropy st') 16))) as Hagain.
  { intros st' Hempty rq' uniqID' dn' cc' salt' otpauth' Hrq' Ho' Hsalt'.
    rewrite (pair_getservercert_otp P cfg rq' st' uniqID' dn' cc' salt' otpauth' He Hrq' Ho').
    cbn zeta.
    assert (otp_unavailable cfg (otp st') (rq_now rq') = true) as ->
      by (unfold otp_unavailable; now rewrite Hempty).
    rewrite getservercert_long by exact Hsalt'.
    cbn [fst snd otp map_id_sess set_entropy set_otp set_map_id_sess entropy].
    rewrite lookup_insert_eq. split; [reflexivity|].
    eexists. split; [reflexivity|]. reflexivity. }
  destruct (String.eqb deviceName "") eqn:En;
    rewrite getservercert_long by exact Hsalt;
    cbn [fst snd otp map_id_sess set_entropy set_otp set_map_id_sess];
    rewrite lookup_insert_eq.
  - apply String.eqb_eq in En.
    split; [eexists; split; [reflexivity|]; split; [reflexivity | congruence]|].
    split; [reflexivity|].
    intros rq' uniqID' dn' cc' salt' otpauth' Hrq' Ho' Hsalt'.
    match goal with |- context [pair P cfg rq' ?s] =>
      destruct (Hagain s eq_refl rq' uniqID' dn' cc' salt' otpauth' Hrq' Ho' Hsalt')
        as [H1 H2] end.
    split; [exact H1 | exact H2].
  - split; [eexists; split; [reflexivity|]; split; [reflexivity | reflexivity]|].
    split; [reflexivity|].
    intros rq' uniqID' dn' cc' salt' otpauth' Hrq' Ho' Hsalt'.
    match goal with |- context [pair P cfg rq' ?s] =>
      destruct (Hagain s eq_refl rq' uniqID' dn' cc' salt' otpauth' Hrq' Ho' Hsalt')
        as [H1 H2] end.
    split; [exact H1 | exact H2].
Qed.

End OneTimePin.

(** ** A suspended request and [pin]; the old state-file format *)

Section AsyncPin.

Context (P : provider_t) (cfg : config_t).

(** X22.  The asynchronous path end to end.  A phase-1 request without
    [otpauth], arriving while no session exists and the PIN is not read from
    standard input, is suspended without an answer; the next [pin] call with
    a 4-digit PIN derives the key from the request's salt and that PIN,
    writes [paired = 1] with the server certificate and 200 to that request's
    connection, and returns true; a further [pin] call finds no suspended
    response, returns false and writes nothing. *)
Theorem suspended_request_is_answered_once
    (rq : request) (st : state) (uniqID dn cc salt p name : string) :
  enable_pairing cfg = true ->
  is_getservercert rq uniqID dn cc salt ->
  args_find (rq_args rq) "otpauth" = None ->
  flag_PIN_STDIN cfg = false ->
  map_id_sess st = ∅ ->
  (32 <= String.length salt)%nat ->
  String.length p = 4%nat ->
  Str.all_of Str.isdigit p = true ->
  let suspended := pair P cfg rq st in
  let first := pin P cfg p name (fst suspended) in
  let second := pin P cfg p name (fst first) in
  let answer :=
    [("root.paired", "1"); ("root.plaincert", util_hex_vec P (servercert cfg));
     ("root.<xmlattr>.status_code", "200")] in
  snd suspended = Suspended
  /\ written (fst suspended) = written st
  /\ snd first = true
  /\ written (fst first) = (written st ++ [(rq_response rq, answer)])%list
  /\ (exists sess,
        map_id_sess (fst first) !! uniqID = Some sess
        /\ cipher_key sess =
             Some (gen_aes_key P (util_from_hex P (substring 0 32 salt)) p)
        /\ async_response sess = None)
  /\ snd second = false
  /\ written (fst second) = written (fst first).
Proof.
  intros He Hrq Ho Hs Hempty Hsalt Hlen Hdig. cbn zeta.
  rewrite (pair_getservercert_async P cfg rq st uniqID dn cc salt He Hrq Ho Hs).
  cbn [fst snd]. rewrite Hempty.
  change (<[uniqID := ?s]> ∅) with ({[uniqID := s]} : gmap string pair_session_t).
  unfold phase1_session. rewrite Hempty, lookup_empty.
  set (sess0 := set_async_response (Some (rq_response rq))
                  (set_async_salt salt
                     (set_client uniqID
                        (if String.eqb dn "roth" then "Legacy Moonlight Client" else dn)
                        (util_from_hex_vec P cc) pair_session_default))).
  set (st1 := set_map_id_sess {[uniqID := sess0]} st).
  assert (head (map_to_list (map_id_sess st1)) = Some (uniqID, sess0)) as Hhead.
  { subst st1. cbn [map_id_sess set_map_id_sess]. now rewrite map_to_list_singleton. }
  rewrite (pin_on_first P cfg p name st1 uniqID sess0 Hhead Hlen Hdig). cbn zeta.
  assert (32 <= String.length (async_salt sess0))%nat as Hsalt0 by exact Hsalt.
  rewrite (getservercert_long P cfg sess0 [] p Hsalt0).
  cbn [fst snd].
  set (derived := set_cipher_key
                    (Some (gen_aes_key P (util_from_hex P
                             (substring 0 32 (async_salt sess0))) p)) sess0).
  set (renamed := if String.eqb name "" then derived else set_client_name name derived).
  assert (async_response sess0 = Some (rq_response rq)) as Hr0 by reflexivity.
  rewrite Hr0. cbn [fst snd].
  split; [reflexivity|]. split; [reflexivity|]. split; [reflexivity|].
  split; [reflexivity|].
  set (sess1 := set_async_response None renamed).
  assert (map_id_sess
            (set_written (written st1 ++ [(rq_response rq,
               tree_put_int "root.<xmlattr>.status_code" 200
                 (tree_put "root.plaincert" (util_hex_vec P (servercert cfg))
                    (tree_put_int "root.paired" 1 [])))])%list
               (set_map_id_sess (<[uniqID := sess1]> (map_id_sess st1)) st1)) =
          {[uniqID := sess1]}) as Hmap.
  { subst st1. cbn [map_id_sess set_written set_map_id_sess].
    now rewrite insert_singleton_eq. }
  split.
  { exists sess1. rewrite Hmap, lookup_singleton_eq. split; [reflexivity|].
    subst sess1 renamed derived. now destruct (String.eqb name ""). }
  match goal with |- context [pin P cfg p name ?s] => set (st2 := s) in * end.
  assert (head (map_to_list (map_id_sess st2)) = Some (uniqID, sess1)) as Hhead2.
  { rewrite Hmap. now rewrite map_to_list_singleton. }
  rewrite (pin_on_first P cfg p name st2 uniqID sess1 Hhead2 Hlen Hdig). cbn zeta.
  assert (async_response sess1 = None) as Hr1 by reflexivity.
  rewrite Hr1. split; reflexivity.
Qed.

End AsyncPin.

Section Migration.

Context (P : provider_t).

Import Store SaveSpec.

Lemma load_state_imports (st : state) (other : list (string * string))
    (root : json_root_t) (u : string) :
  dk_file (disk st) = FileJson other (Some root) ->
  jr_uniqueid root = Some u ->
  let st' := load_state P st in
  let certs := concat (map ld_certs (jr_devices root)) in
  let named := default [] (jr_named_devices root) in
  unique_id st' = u
  /\ map nc_cert (client_root st') = (certs ++ map nc_cert named)%list
  /\ map nc_name (client_root st') = (map (fun _ => "") certs ++ map nc_name named)%list
  /\ disk st' = disk st.
Proof.
  intros Hfile Hid. cbn zeta. unfold load_state. rewrite Hfile, Hid.
  destruct (import_legacy_spec P (concat (map ld_certs (jr_devices root))) (entropy st))
    as (Hc & Hn & _ & _).
  destruct (import_legacy P _ _) as [legacy e']. cbn [fst snd] in *.
  cbn [unique_id client_root disk set_client_root set_cert_chain set_entropy set_unique_id].
  rewrite !map_app, Hc, Hn. repeat split.
Qed.

Lemma save_and_load_json (st : state) (other : list (string * string))
    (root : option json_root_t) :
  dk_file (disk st) = FileJson other root ->
  dk_writable (disk st) = true ->
  let nodes := save_nodes (client_root st) in
  save_and_load P st =
    set_client_root nodes
      (set_cert_chain nodes
         (set_disk
            (mk_disk (FileJson other
                        (Some (mk_json_root (Some (unique_id st)) [] (Some nodes)))) true)
            st)).
Proof.
  intros Hfile Hw. cbn zeta. unfold save_and_load, save_state. rewrite Hfile, Hw.
  destruct st as [m cr cc o uid d e inp w]. reflexivity.
Qed.

(** X23.  A state file in the old format, loaded and saved: the file then
    holds no [devices] list any more and its [named_devices] are the store;
    the certificates kept are those of the old devices and of the named
    devices, each once; when the file held old devices only, they are named
    "", " (2)", " (3)", ... in file order; and loading the file again gives
    the same state. *)
Theorem legacy_devices_migrate_on_save
    (st : state) (other : list (string * string)) (root : json_root_t) (u : string) :
  dk_file (disk st) = FileJson other (Some root) ->
  jr_uniqueid root = Some u ->
  dk_writable (disk st) = true ->
  let certs := concat (map ld_certs (jr_devices root)) in
  let named := default [] (jr_named_devices root) in
  let loaded := load_state P st in
  let saved := save_and_load P loaded in
  dk_file (disk loaded) = dk_file (disk st)
  /\ dk_file (disk saved) =
       FileJson other (Some (mk_json_root (Some u) [] (Some (client_root saved))))
  /\ NoDup (map nc_cert (client_root saved))
  /\ (forall c, c ∈ map nc_cert (client_root saved) <-> c ∈ certs \/ c ∈ map nc_cert named)
  /\ (named = [] ->
      map nc_name (client_root saved) =
        imap (fun k _ => display_name "" k) (client_root saved))
  /\ load_state P saved = saved.
Proof.
  intros Hfile Hid Hw. cbn zeta.
  destruct (load_state_imports st other root u Hfile Hid) as (Hu & Hcerts & Hnames & Hdisk).
  cbn zeta in *.
  set (loaded := load_state P st) in *.
  split; [now rewrite Hdisk|].
  rewrite (save_and_load_json loaded other (Some root))
    by (rewrite Hdisk; assumption).
  cbn zeta. rewrite Hu.
  cbn [disk client_root set_cert_chain set_client_root set_disk dk_file].
  split; [reflexivity|].
  split; [rewrite save_nodes_refines, nodes_certs; apply first_by_cert_NoDup|].
  split.
  { intros c. rewrite save_nodes_refines, nodes_certs, first_by_cert_certs, Hcerts.
    change (map nc_cert) with (fmap (M := list) nc_cert).
    rewrite elem_of_app. reflexivity. }
  split.
  { intros Hnamed. rewrite Hnamed in Hnames. cbn [map] in Hnames.
    rewrite app_nil_r in Hnames.
    rewrite save_nodes_refines. apply list_eq. intros k.
    change (map nc_name) with (fmap (M := list) nc_name).
    rewrite list_lookup_fmap, list_lookup_imap, nodes_lookup.
    destruct (first_by_cert (client_root loaded) !! k) as [x|] eqn:Ek; [|reflexivity].
    cbn [fmap option_fmap option_map]. f_equal. unfold disambiguate. cbn [nc_name].
    assert (forall y, y ∈ client_root loaded -> nc_name y = "") as Hempty.
    { intros y Hy. apply list_elem_of_lookup_1 in Hy as [j Hj].
      assert (map nc_name (client_root loaded) !! j = Some (nc_name y)) as Hn
        by (change (map nc_name) with (fmap (M := list) nc_name);
            now rewrite list_lookup_fmap, Hj).
      rewrite Hnames in Hn.
      change (map (fun _ : string => "")) with (fmap (M := list) (fun _ : string => "")) in Hn.
      rewrite list_lookup_fmap in Hn.
      destruct (concat (map ld_certs (jr_devices root)) !! j);
        cbn [fmap option_fmap option_map] in Hn;
        [now injection Hn as <- | discriminate]. }
    assert (forall y, y ∈ first_by_cert (client_root loaded) -> nc_name y = "") as Hempty'.
    { intros y Hy. apply Hempty.
      eapply elem_of_sublist; [exact Hy | apply first_by_cert_sublist]. }
    rewrite (Hempty' x) by (eapply list_elem_of_lookup_2; exact Ek).
    change (base_name "") with "". f_equal. unfold earlier.
    assert (Forall (same_base "") (take k (first_by_cert (client_root loaded)))) as Hall.
    { apply Forall_forall. intros y Hy. unfold same_base.
      rewrite (Hempty' y); [reflexivity|].
      eapply elem_of_sublist; [exact Hy | apply sublist_take]. }
    assert (forall l : list named_cert_t,
              Forall (same_base "") l -> length (filter (same_base "") l) = length l) as Hf.
    { induction 1 as [|y l Hy _ IH]; [reflexivity|].
      rewrite filter_cons_True by exact Hy. cbn [length]. now rewrite IH. }
    rewrite (Hf _ Hall), length_take. apply lookup_lt_Some in Ek. lia. }
  unfold load_state. cbn [disk set_client_root set_cert_chain set_disk dk_file jr_uniqueid
    jr_devices jr_named_devices map concat import_legacy entropy default app].
  destruct loaded as [m cr cc o uid d e inp w]. cbn in *. subst. reflexivity.
Qed.

End Migration.

(** ** [serverinfo]: the fields both transports share *)

Lemma tree_get_put_congr (path path' data : string) (t1 t2 : ptree) :
  tree_get path t1 = tree_get path t2 ->
  tree_get path (tree_put path' data t1) = tree_get path (tree_put path' data t2).
Proof.
  intros H. destruct (string_dec path path') as [->|Hne].
  - now rewrite !tree_get_put_eq.
  - now rewrite !tree_get_put_ne.
Qed.

Lemma tree_get_put_int_congr (path path' : string) (z : Z) (t1 t2 : ptree) :
  tree_get path t1 = tree_get path t2 ->
  tree_get path (tree_put_int path' z t1) = tree_get path (tree_put_int path' z t2).
Proof. apply tree_get_put_congr. Qed.

(** X17.  The fields of [serverinfo] that do not depend on the transport:
    the status is 200; [LocalIP] is 127.0.0.1 for a plain IPv6 connection
    and the local address otherwise; [state] is BUSY exactly when an app is
    running; [MaxLumaPixelsHEVC] is non-zero exactly from HEVC mode 2 on.
    Apart from [mac], [ServerCommand] and [PairStatus] the HTTP and the
    HTTPS answer agree on every path. *)
Theorem serverinfo_public_fields (si : sysinfo_t) (unique_id : string) (https : bool)
    (args : args_t) :
  let t := serverinfo si unique_id https args in
  tree_get "root.<xmlattr>.status_code" t = Some "200"
  /\ tree_get "root.hostname" t = Some (sunshine_name si)
  /\ tree_get "root.uniqueid" t = Some unique_id
  /\ tree_get "root.HttpsPort" t = Some (pretty (port_https si))
  /\ tree_get "root.ExternalPort" t = Some (pretty (port_http si))
  /\ tree_get "root.MaxLumaPixelsHEVC" t =
       Some (if (2 <=? active_hevc_mode si)%Z then "1869449984" else "0")
  /\ tree_get "root.LocalIP" t =
       Some (if local_is_plain_v6 si then "127.0.0.1" else local_address si)
  /\ tree_get "root.ServerCodecModeSupport" t = Some (pretty (codec_mode_flags si))
  /\ tree_get "root.currentgame" t = Some (pretty (running si))
  /\ tree_get "root.state" t =
       Some (if (1 <=? running si)%Z then "SUNSHINE_SERVER_BUSY"
             else "SUNSHINE_SERVER_FREE")
  /\ (forall path args',
        path <> "root.mac" -> path <> "root.ServerCommand" -> path <> "root.PairStatus" ->
        tree_get path t = tree_get path (serverinfo si unique_id (negb https) args')).
Proof.
  cbn zeta.
  assert (forall t,
            tree_get "root.<xmlattr>.status_code" t = Some "200" ->
            tree_get "root.hostname" t = Some (sunshine_name si) ->
            tree_get "root.uniqueid" t = Some unique_id ->
            tree_get "root.HttpsPort" t = Some (pretty (port_https si)) ->
            tree_get "root.ExternalPort" t = Some (pretty (port_http si)) ->
            tree_get "root.MaxLumaPixelsHEVC" t =
              Some (if (1 <? active_hevc_mode si)%Z then "1869449984" else "0") ->
            let t' :=
              fold_left (fun t cmd => tree_push_back "root.ServerCommand" cmd t)
                (server_cmds si) t in
            tree_get "root.<xmlattr>.status_code" t' = Some "200"
            /\ tree_get "root.hostname" t' = Some (sunshine_name si)
            /\ tree_get "root.uniqueid" t' = Some unique_id
            /\ tree_get "root.HttpsPort" t' = Some (pretty (port_https si))
            /\ tree_get "root.ExternalPort" t' = Some (pretty (port_http si))
            /\ tree_get "root.MaxLumaPixelsHEVC" t' =
                 Some (if (1 <? active_hevc_mode si)%Z then "1869449984" else "0"))
    as Hcmds.
  { intros t H1 H2 H3 H4 H5 H6.
    destruct (server_commands_pushed (server_cmds si) t) as [_ Hg]. cbn zeta in *.
    rewrite !Hg by discriminate. repeat split; assumption. }
  assert ((1 <? active_hevc_mode si)%Z = (2 <=? active_hevc_mode si)%Z) as Eh.
  { destruct (Z.ltb_spec 1 (active_hevc_mode si)), (Z.leb_spec 2 (active_hevc_mode si));
      try reflexivity; lia. }
  assert ((0 <? running si)%Z = (1 <=? running si)%Z) as Er.
  { destruct (Z.ltb_spec 0 (running si)), (Z.leb_spec 1 (running si));
      try reflexivity; lia. }
  rewrite <- Eh, <- Er.
  repeat match goal with |- _ /\ _ => split end.
  1-10: unfold serverinfo; destruct https, (local_is_plain_v6 si); tree_lookup;
    try reflexivity;
    match goal with |- context [fold_left ?f ?l ?t] =>
      destruct (Hcmds t) as (H1 & H2 & H3 & H4 & H5 & H6); tree_lookup; try reflexivity;
      cbn zeta in *; assumption
    end.
  intros path args' Hmac Hcmd Hps.
  assert (forall t1 t2,
            tree_get path t1 = tree_get path t2 ->
            tree_get path
              (fold_left (fun t cmd => tree_push_back "root.ServerCommand" cmd t)
                 (server_cmds si) (tree_put "root.mac"
                                     (get_mac_address si (local_address si)) t1)) =
            tree_get path (tree_put "root.mac" "00:00:00:00:00:00" t2)) as Hmid.
  { intros t1 t2 H.
    match goal with |- context [fold_left ?f ?l ?t] =>
      destruct (server_commands_pushed l t) as [_ Hg] end.
    cbn zeta in Hg. rewrite Hg by exact Hcmd. now rewrite !tree_get_put_ne. }
  unfold serverinfo.
  destruct https; cbn [negb];
    apply tree_get_put_congr, tree_get_put_int_congr;
    rewrite !(tree_get_put_int_ne path "root.PairStatus") by exact Hps;
    apply tree_get_put_int_congr;
    (destruct (local_is_plain_v6 si); apply tree_get_put_congr);
    first [apply Hmid | symmetry; apply Hmid]; reflexivity.
Qed.

(** ** [codec_mode_flags] *)

(** X18.  The codec bits of [ServerCodecModeSupport], with the bit values
    of the [SCM] module: H.264 is always advertised; HEVC and AV1 from mode
    2 on and their 10-bit profiles from mode 3 on, so never a 10-bit profile
    without the 8-bit one; a 4:4:4 profile exactly when its base profile is
    advertised and the encoder probe reported 4:4:4 for the codec; and no
    other bit is ever set. *)
Theorem codec_mode_flags_consistent (si : sysinfo_t) :
  let f := codec_mode_flags si in
  let hevc := active_hevc_mode si in
  let av1 := active_av1_mode si in
  advertises f SCM.H264 = true
  /\ advertises f SCM.H264_HIGH8_444 = yuv444_h264 si
  /\ advertises f SCM.HEVC = (2 <=? hevc)%Z
  /\ advertises f SCM.HEVC_MAIN10 = (3 <=? hevc)%Z
  /\ advertises f SCM.HEVC_REXT8_444 = ((2 <=? hevc)%Z && yuv444_hevc si)
  /\ advertises f SCM.HEVC_REXT10_444 = ((3 <=? hevc)%Z && yuv444_hevc si)
  /\ advertises f SCM.AV1_MAIN8 = (2 <=? av1)%Z
  /\ advertises f SCM.AV1_MAIN10 = (3 <=? av1)%Z
  /\ advertises f SCM.AV1_HIGH8_444 = ((2 <=? av1)%Z && yuv444_av1 si)
  /\ advertises f SCM.AV1_HIGH10_444 = ((3 <=? av1)%Z && yuv444_av1 si)
  /\ (advertises f SCM.HEVC_MAIN10 = true -> advertises f SCM.HEVC = true)
  /\ (advertises f SCM.AV1_MAIN10 = true -> advertises f SCM.AV1_MAIN8 = true)
  /\ Z.land f (Z.lnot 0xF003F) = 0%Z.
Proof.
  cbn zeta. unfold codec_mode_flags.
  destruct (Z.leb_spec 2 (active_hevc_mode si)) as [H2|H2],
           (Z.leb_spec 3 (active_hevc_mode si)) as [H3|H3]; try lia;
  destruct (Z.leb_spec 2 (active_av1_mode si)) as [A2|A2],
           (Z.leb_spec 3 (active_av1_mode si)) as [A3|A3]; try lia;
  destruct (yuv444_h264 si), (yuv444_hevc si), (yuv444_av1 si);
  vm_compute; repeat split; congruence.
Qed.

(** ** [launch], [resume], [cancel] *)

Ltac control_solve :=
  cbn [negb andb ct_raised ct_tree ct_executed ct_session_made ct_host_audio ct_probed
       ct_terminated];
  repeat split; intros;
  cbn [negb andb ct_raised ct_tree ct_executed ct_session_made ct_host_audio ct_probed
       ct_terminated] in *;
  repeat match goal with
    | H : Some _ = Some _ |- _ => injection H as <-
    end;
  try discriminate; try congruence; try lia; try reflexivity;
  try (left; reflexivity); try (right; reflexivity);
  try (match goal with
       | |- context [(?a =? 0)%Z] => destruct (Z.eqb_spec a 0)
       end; first [reflexivity | congruence]);
  eauto.


Ltac resume_solve :=
  solve [control_solve;
         try (right; left; reflexivity); try (right; right; reflexivity);
         intuition (try discriminate; congruence)].

(** X20.  [resume]: the session is raised exactly on the answers with
    status 200 and [resume = 1], and exactly when every check passes: a free
    channel, a running app, both [rikey] and [rikeyid] in the query, under
    mandatory encryption a client that reports [corever >= 1] and, when no
    session is active, a successful encoder probe.  A refusal is answered
    503, 400 or 403.  The encoders are probed only when no session is
    active; the shared [host_audio] flag changes only when no session is
    active and the request carries [localAudioPlayMode]; no app is ever
    started or stopped. *)
Theorem resume_outcomes (env : stream_t) (host_audio : bool) (args : args_t) :
  let c := resume env host_audio args in
  let status := tree_get "root.<xmlattr>.status_code" (ct_tree c) in
  (ct_raised c = true ->
     status = Some "200"
     /\ tree_get "root.resume" (ct_tree c) = Some "1"
     /\ tree_get "root.sessionUrl0" (ct_tree c) =
          Some (session_url env (launch_cipher env args))
     /\ session_count env <> channels env
     /\ current_appid env <> 0%Z
     /\ args_find args "rikey" <> None
     /\ args_find args "rikeyid" <> None
     /\ (encryption_mandatory env = true -> launch_cipher env args = true)
     /\ (session_count env = 0%Z -> probe_encoders env = false)
     /\ ct_session_made c = true)
  /\ (session_count env <> channels env ->
      current_appid env <> 0%Z ->
      args_find args "rikey" <> None ->
      args_find args "rikeyid" <> None ->
      (encryption_mandatory env = true -> launch_cipher env args = true) ->
      (session_count env = 0%Z -> probe_encoders env = false) ->
      ct_raised c = true)
  /\ (ct_raised c = false ->
      tree_get "root.resume" (ct_tree c) <> Some "1"
      /\ tree_get "root.sessionUrl0" (ct_tree c) = None
      /\ (status = Some "503" \/ status = Some "400" \/ status = Some "403"))
  /\ (args_find args "rikey" = None \/ args_find args "rikeyid" = None ->
      ct_raised c = false
      /\ ct_session_made c = false
      /\ ct_host_audio c = host_audio
      /\ (status = Some "503" \/ status = Some "400"))
  /\ (ct_host_audio c <> host_audio ->
      session_count env = 0%Z
      /\ ct_session_made c = true
      /\ exists mode,
           args_find args "localAudioPlayMode" = Some mode
           /\ ct_host_audio c = negb (from_view env mode =? 0)%Z)
  /\ (ct_probed c = true -> session_count env = 0%Z)
  /\ ct_executed c = None
  /\ ct_terminated c = false.
Proof.
  cbn zeta. unfold resume.
  destruct (Z.eqb_spec (session_count env) (channels env)) as [El|El]; [resume_solve|].
  destruct (Z.eqb_spec (current_appid env) 0) as [Hr|Hr]; [resume_solve|].
  destruct (args_find args "rikey"); [|resume_solve].
  destruct (args_find args "rikeyid"); [|resume_solve].
  destruct (Z.eqb_spec (session_count env) 0) as [Hs|Hs], (probe_encoders env) eqn:Ep;
    cbn [andb]; try resume_solve.
  all: destruct (launch_cipher env args) eqn:Ec, (encryption_mandatory env) eqn:Em;
    cbn [negb andb]; try resume_solve.
  all: destruct (args_find args "localAudioPlayMode") as [mode|]; resume_solve.
Qed.

(** X21.  [cancel] stops the running app exactly when no session is active
    and an app is running; with an active session it answers 503 and does
    nothing; without one it answers 200 with [cancel = 1] whether or not
    there was an app to stop. *)
Theorem cancel_outcomes (env : stream_t) (host_audio : bool) :
  let c := cancel env host_audio in
  let status := tree_get "root.<xmlattr>.status_code" (ct_tree c) in
  (ct_terminated c = true <-> session_count env = 0%Z /\ (0 < current_appid env)%Z)
  /\ (session_count env <> 0%Z ->
      status = Some "503" /\ tree_get "root.cancel" (ct_tree c) = None
      /\ tree_get "root.resume" (ct_tree c) = Some "0")
  /\ (session_count env = 0%Z ->
      status = Some "200" /\ tree_get "root.cancel" (ct_tree c) = Some "1")
  /\ ct_host_audio c = host_audio
  /\ ct_raised c = false
  /\ ct_session_made c = false.
Proof.
  cbn zeta. unfold cancel.
  destruct (Z.eqb_spec (session_count env) 0) as [Hs|Hs]; cbn [negb].
  - cbn [ct_terminated ct_tree ct_host_audio ct_raised ct_session_made].
    split; [rewrite Z.ltb_lt; tauto|]. split; [congruence|].
    split; [intros _; split; reflexivity|]. repeat split.
  - cbn [ct_terminated ct_tree ct_host_audio ct_raised ct_session_made].
    split; [split; [discriminate | tauto]|].
    split; [intros _; repeat split|]. split; [congruence|]. repeat split.
Qed.

(** ** [brackets] *)

Lemma brackets_length (name : string) :
  String.length (brackets name) = String.length name.
Proof. induction name as [|c s IH]; cbn; [reflexivity | now rewrite IH]. Qed.

Lemma brackets_prefix (name : string) : String.prefix " (" (brackets name) = false.
Proof.
  destruct name as [|a [|b s]]; cbn [brackets]; [reflexivity| |].
  - cbn [String.prefix].
    match goal with |- context [ascii_dec ?x ?y] => destruct (ascii_dec x y) end;
      reflexivity.
  - cbn [String.prefix].
    match goal with |- context [ascii_dec ?x ?y] => destruct (ascii_dec x y) end;
      [|reflexivity].
    destruct (Ascii.eqb_spec b "("); [reflexivity|].
    destruct (Ascii.eqb_spec b ")"); [reflexivity|].
    destruct (ascii_dec "(" b); [congruence | reflexivity].
Qed.

Lemma brackets_index (name : string) : String.index 0 " (" (brackets name) = None.
Proof.
  induction name as [|c s IH]; [reflexivity|].
  change (brackets (String c s)) with
    (String (if Ascii.eqb c "(" then "["%char
             else if Ascii.eqb c ")" then "]"%char else c) (brackets s)).
  cbn [String.index].
  change (String (if Ascii.eqb c "(" then "["%char
                  else if Ascii.eqb c ")" then "]"%char else c) (brackets s))
    with (brackets (String c s)).
  now rewrite brackets_prefix, IH.
Qed.

(** X8.  The name [clientpairingsecret] stores for a client has every
    parenthesis replaced by a bracket: it has the length of the client's
    name, contains no parenthesis, is unchanged by a second replacement, and
    [save_state] takes it as a base name without cutting anything off. *)
Theorem brackets_names_are_base_names (name : string) :
  Store.base_name (brackets name) = brackets name
  /\ String.index 0 " (" (brackets name) = None
  /\ String.length (brackets name) = String.length name
  /\ brackets (brackets name) = brackets name
  /\ String.index 0 "(" (brackets name) = None
  /\ String.index 0 ")" (brackets name) = None.
Proof.
  split; [apply base_name_plain, brackets_index|].
  split; [apply brackets_index|].
  split; [apply brackets_length|].
  split; [|split]; induction name as [|c s IH]; try reflexivity.
  - cbn [brackets]. rewrite IH. f_equal.
    destruct (Ascii.eqb_spec c "("); [reflexivity|].
    destruct (Ascii.eqb_spec c ")"); [reflexivity|].
    apply Ascii.eqb_neq in n, n0. now rewrite n, n0.
  - cbn [brackets String.index String.prefix]. rewrite IH.
    destruct (Ascii.eqb_spec c "("); [reflexivity|].
    destruct (Ascii.eqb_spec c ")"); [reflexivity|].
    destruct (ascii_dec "(" c); [congruence|reflexivity].
  - cbn [brackets String.index String.prefix]. rewrite IH.
    destruct (Ascii.eqb_spec c "("); [reflexivity|].
    destruct (Ascii.eqb_spec c ")"); [reflexivity|].
    destruct (ascii_dec ")" c); [congruence|reflexivity].
Qed.

(** ** Concrete runs of the properties above *)


Module Scenario.

(** Three devices, the third a duplicate of the first certificate. *)
Definition phones : list named_cert_t :=
  [mk_named_cert "Phone" "c1" "u1"; mk_named_cert "Phone" "c2" "u2";
   mk_named_cert "Phone" "c1" "u3"].

Definition paired : state := set_client_root phones boot.

(** A session whose key was derived in phase 1. *)
Definition keyed_session : pair_session_t :=
  mk_pair_session "u" "CERT1" "Pixel (7)" (Some "0123456789abcdef") "" "" "" None salt32.

Definition challenge_rq : request :=
  mk_request true [("uniqueid", "u"); ("clientchallenge", "abcd")] 9 100.

Definition response_rq : request :=
  mk_request true
    [("uniqueid", "u"); ("serverchallengeresp", "bbbbbbbbbbbbbbbbCERTSSSSSSSSSSSS")] 9 100.

(** A phase-1 request of another client. *)
Definition other_rq : request :=
  mk_request false
    [("uniqueid", "v"); ("devicename", "B"); ("phrase", "getservercert");
     ("clientcert", "CERT2"); ("salt", salt32)] 8 100.

Definition rand_alphabet (e n : nat) (alphabet : string) : string :=
  substring e n alphabet.

Definition otp_match_rq : request :=
  mk_request false
    [("uniqueid", "u"); ("devicename", "A"); ("phrase", "getservercert");
     ("clientcert", "CERT1"); ("salt", salt32);
     ("otpauth", "01230123456789abcdef0123456789ab")] 7 100.

End Scenario.

Import Scenario.

Lemma save_keeps_wellformed_store_witness :
  Store.save_nodes [mk_named_cert "Pixel [7]" "c1" "u1"; mk_named_cert "Phone" "c2" "u2"] =
    [mk_named_cert "Pixel [7]" "c1" "u1"; mk_named_cert "Phone" "c2" "u2"].
Proof.
  apply save_keeps_wellformed_store.
  - apply (bool_decide_unpack _). vm_compute. reflexivity.
  - apply (bool_decide_unpack _). vm_compute. reflexivity.
  - intros x Hx.
    apply elem_of_cons in Hx as [->|Hx]; [reflexivity|].
    apply elem_of_cons in Hx as [->|Hx]; [reflexivity|].
    inversion Hx.
Defined.

Lemma save_then_load_is_stable_witness :
  client_root (save_and_load toy paired) =
    [mk_named_cert "Phone" "c1" "u1"; mk_named_cert "Phone (2)" "c2" "u2"]
  /\ save_and_load toy (save_and_load toy paired) = save_and_load toy paired.
Proof.
  destruct (save_then_load_is_stable toy paired) as (Hroot & _ & _ & _ & _ & Hagain).
  - discriminate.
  - reflexivity.
  - split; [rewrite Hroot; vm_compute; reflexivity | exact Hagain].
Defined.

Lemma erase_all_clients_empties_witness :
  client_root (erase_all_clients toy paired) = []
  /\ get_all_clients (erase_all_clients toy paired) = [].
Proof.
  destruct (erase_all_clients_empties toy paired) as (Hroot & _ & Hall & _).
  - reflexivity.
  - split; [exact Hroot | exact Hall].
Defined.

Lemma pair_then_unpair_restores_witness :
  let nc := mk_named_cert "Tablet" "c9" "u9" in
  let r := unpair_client toy "u9" (add_authorized_client toy (config false false) nc paired) in
  client_root (fst r) =
    [mk_named_cert "Phone" "c1" "u1"; mk_named_cert "Phone (2)" "c2" "u2"].
Proof.
  cbn zeta.
  destruct (pair_then_unpair_restores toy (config false false)
              (mk_named_cert "Tablet" "c9" "u9") paired) as (Hroot & _).
  - intros Hin. cbn in Hin.
    repeat (apply elem_of_cons in Hin as [Hin|Hin]; [discriminate|]).
    inversion Hin.
  - discriminate.
  - reflexivity.
  - cbn [nc_uuid] in Hroot. rewrite Hroot. vm_compute. reflexivity.
Defined.

Lemma pair_missing_parameter_witness :
  pair toy (config false false)
    (mk_request false [("uniqueid", "u"); ("phrase", "getservercert")] 7 100) boot =
  (boot, Threw "devicename" []).
Proof.
  destruct (pair_missing_parameter toy (config false false)
              (mk_request false [("uniqueid", "u"); ("phrase", "getservercert")] 7 100)
              boot "u") as (Hname & _).
  - reflexivity.
  - reflexivity.
  - reflexivity.
  - apply Hname. reflexivity.
Defined.

Lemma pair_otp_available_witness :
  snd (pair toy (config false false) otp_rq
         (set_otp (mk_otp "1234" "pass" "Tablet" 50) boot)) =
    Written [("root.paired", "1"); ("root.plaincert", "SERVERCERT");
             ("root.<xmlattr>.status_code", "200")].
Proof.
  destruct (pair_otp_available toy (config false false) otp_rq
              (set_otp (mk_otp "1234" "pass" "Tablet" 50) boot)
              "u" "A" "CERT1" salt32 "ABCD") as (Hans & _).
  - reflexivity.
  - repeat split.
  - reflexivity.
  - reflexivity.
  - vm_compute. lia.
  - exact Hans.
Defined.

Lemma otp_is_single_use_witness :
  let issued := request_otp rand_alphabet "pass" "Tablet" 50 boot in
  let st2 := fst (pair toy (config false false) otp_match_rq (fst issued)) in
  snd issued = "0123"
  /\ otp st2 = mk_otp "" "" "" 50
  /\ exists sess,
       map_id_sess st2 !! "u" = Some sess
       /\ cipher_key sess = Some "0123456789abcdef"
       /\ client_name sess = "Tablet".
Proof.
  cbn zeta.
  destruct (otp_is_single_use toy (config false false) rand_alphabet "pass" "Tablet" 50
              boot (fst (request_otp rand_alphabet "pass" "Tablet" 50 boot)) "0123"
              otp_match_rq "u" "A" "CERT1" salt32)
    as ((sess & Hsess & Hkey & Hname) & Hotp & _).
  - reflexivity.
  - discriminate.
  - reflexivity.
  - repeat split.
  - reflexivity.
  - vm_compute. discriminate.
  - vm_compute. lia.
  - split; [reflexivity|]. split; [exact Hotp|].
    exists sess. split; [exact Hsess|]. split; [exact Hkey|].
    apply Hname. discriminate.
Defined.

Lemma pair_store_frame_witness :
  client_root (fst (pair toy (config false false) (getservercert_rq "A" "CERT1" salt32) paired))
    = phones.
Proof.
  destruct (pair_store_frame toy (config false false)
              (getservercert_rq "A" "CERT1" salt32) paired) as (Hroot & _).
  - intros uniqID arg (_ & Hphrase & _). discriminate.
  - exact Hroot.
Defined.

Lemma pair_leaves_other_sessions_witness :
  map_id_sess (fst (pair toy (config false false) other_rq (with_session keyed_session)))
    !! "u" = Some keyed_session.
Proof.
  rewrite (pair_leaves_other_sessions toy (config false false) other_rq
             (with_session keyed_session) "v" "u").
  - reflexivity.
  - apply keyed_insert; [apply keyed_empty | reflexivity].
  - reflexivity.
  - discriminate.
Defined.

Lemma sessions_stay_keyed_witness :
  keyed (map_id_sess (fst (pair toy (config false false) other_rq
                             (with_session keyed_session)))).
Proof.
  apply (sessions_stay_keyed toy (config false false) other_rq "1234" ""
           (with_session keyed_session)).
  apply keyed_insert; [apply keyed_empty | reflexivity].
Defined.

Lemma handshake_pairs_honest_client_witness :
  let cfg := config true false in
  let st2 := fst (pair toy cfg challenge_rq (with_session keyed_session)) in
  let st3 := fst (pair toy cfg response_rq st2) in
  let r4 := pair toy cfg secret_rq st3 in
  snd r4 = Written [("root.paired", "1"); ("root.<xmlattr>.status_code", "200")]
  /\ client_root (fst r4) = [mk_named_cert "Pixel [7]" "CERT1" "uuid-2"]
  /\ map_id_sess (fst r4) !! "u" = None.
Proof.
  cbn zeta.
  destruct (handshake_pairs_honest_client toy (config true false)
              challenge_rq response_rq secret_rq (with_session keyed_session) "u"
              "abcd" "bbbbbbbbbbbbbbbbCERTSSSSSSSSSSSS"
              "SSSSSSSSSSSSSSSSCERT1SSSSSSSSSSSSSSSS" "0123456789abcdef" keyed_session)
    as (_ & _ & Hans & Hst & Hgone).
  - reflexivity.
  - reflexivity.
  - reflexivity.
  - reflexivity.
  - repeat split.
  - repeat split.
  - repeat split.
  - vm_compute. lia.
  - vm_compute. reflexivity.
  - vm_compute. reflexivity.
  - split; [exact Hans|]. split; [rewrite Hst; vm_compute; reflexivity | exact Hgone].
Defined.


Lemma suspended_request_is_answered_once_witness :
  let suspended := pair toy (config false false) (getservercert_rq "A" "CERT1" salt32) boot in
  let first := pin toy (config false false) "1234" "" (fst suspended) in
  written (fst first) =
    [(resp_http 7,
      [("root.paired", "1"); ("root.plaincert", "SERVERCERT");
       ("root.<xmlattr>.status_code", "200")])]
  /\ snd (pin toy (config false false) "1234" "" (fst first)) = false.
Proof.
  cbn zeta.
  destruct (suspended_request_is_answered_once toy (config false false)
              (getservercert_rq "A" "CERT1" salt32) boot "u" "A" "CERT1" salt32 "1234" "")
    as (_ & _ & _ & Hwritten & _ & Hsecond & _).
  - reflexivity.
  - repeat split.
  - reflexivity.
  - reflexivity.
  - reflexivity.
  - vm_compute. lia.
  - reflexivity.
  - reflexivity.
  - split; [exact Hwritten | exact Hsecond].
Defined.

Lemma legacy_devices_migrate_on_save_witness :
  let old :=
    mk_json_root (Some "id-1") [mk_legacy_device "d1" ["c1"; "c2"; "c1"]] None in
  let st := set_disk (mk_disk (FileJson [] (Some old)) true) boot in
  dk_file (disk (save_and_load toy (load_state toy st))) =
    FileJson []
      (Some (mk_json_root (Some "id-1") []
               (Some [mk_named_cert "" "c1" "uuid-0"; mk_named_cert " (2)" "c2" "uuid-1"]))).
Proof.
  cbn zeta.
  destruct (legacy_devices_migrate_on_save toy
              (set_disk
                 (mk_disk
                    (FileJson []
                       (Some (mk_json_root (Some "id-1")
                                [mk_legacy_device "d1" ["c1"; "c2"; "c1"]] None))) true) boot)
              [] (mk_json_root (Some "id-1") [mk_legacy_device "d1" ["c1"; "c2"; "c1"]] None)
              "id-1") as (_ & Hfile & _).
  - reflexivity.
  - reflexivity.
  - reflexivity.
  - rewrite Hfile. vm_compute. reflexivity.
Defined.

Lemma phase4_reads_past_short_clienthash_witness :
  let after_phase1 :=
    fst (pair toy (config false false) (getservercert_rq "A" "CERT1" salt32) boot) in
  snd (pair toy (config false false) secret_rq after_phase1) = Crashed ReadPastBuffer.
Proof.
  cbn zeta.
  apply (phase4_reads_past_short_clienthash toy (config false false) secret_rq
           (fst (pair toy (config false false) (getservercert_rq "A" "CERT1" salt32) boot))
           "u" "SSSSSSSSSSSSSSSSCERT1SSSSSSSSSSSSSSSS"
           (mk_pair_session "u" "CERT1" "A" None "" "" "" (Some (resp_http 7)) salt32)).
  - reflexivity.
  - repeat split.
  - vm_compute. reflexivity.
  - vm_compute. lia.
  - vm_compute. lia.
Defined.
